(** * Nokia N810 battery management: a shallow embedding of
    [drivers/cbus/n810bm_main.c] and the properties of its calibration
    parser, measurement layer, charge control and notification task. *)

From Stdlib Require Import ZArith Lia String List Ascii Bool.
From Stdlib.Strings Require Import Byte.
From stdpp Require Import base list pretty.

Local Open Scope Z_scope.

(** ** Machine integers

    C integers are carried by [Z]; every conversion to a fixed-width type
    is written out with the wrap-around of that type. *)

Definition u16 (x : Z) : Z := x mod 2 ^ 16.
Definition u32 (x : Z) : Z := x mod 2 ^ 32.
Definition u64 (x : Z) : Z := x mod 2 ^ 64.
Definition s32 (x : Z) : Z := (x + 2 ^ 31) mod 2 ^ 32 - 2 ^ 31.

Definition INT_MIN : Z := - 2 ^ 31.
Definition INT_MAX : Z := 2 ^ 31 - 1.

(** A value held by an [int] variable. *)
Definition is_int (x : Z) : Prop := INT_MIN <= x <= INT_MAX.

(** [!!x] and the truth value of a C scalar. *)
Definition c_true (x : Z) : bool := negb (x =? 0).
Definition c_bool (b : bool) : Z := if b then 1 else 0.

(** Error numbers of [<linux/errno.h>]. *)
Definition ENOENT : Z := 2.
Definition ENODEV : Z := 19.
Definition EINVAL : Z := 22.
Definition EILSEQ : Z := 84.
Definition EOPNOTSUPP : Z := 95.

(** ** Constants of the driver *)

Definition N810BM_PMM_BLOCK_SIZE : Z := 0x600.
Definition N810BM_PMM_GROUP_SIZE : Z := 0x200.
Definition N810BM_PMM_ELEM_SIZE : Z := 0x10.
Definition N810BM_MIN_VOLTAGE_THRES : Z := 3200.

(** [enum n810bm_pmm_adc_id] *)
Definition N810BM_PMM_ADC_BATVOLT : Z := 0x01.
Definition N810BM_PMM_ADC_CHGVOLT : Z := 0x02.
Definition N810BM_PMM_ADC_GND2 : Z := 0x03.
Definition N810BM_PMM_ADC_BSI : Z := 0x04.
Definition N810BM_PMM_ADC_BATTEMP : Z := 0x05.
Definition N810BM_PMM_ADC_HEADSET : Z := 0x06.
Definition N810BM_PMM_ADC_HOOKDET : Z := 0x07.
Definition N810BM_PMM_ADC_LIGHTSENS : Z := 0x08.
Definition N810BM_PMM_ADC_BATCURR : Z := 0x0E.
Definition N810BM_PMM_ADC_BKUPVOLT : Z := 0x13.
Definition N810BM_PMM_ADC_LIGHTTEMP : Z := 0x14.
Definition N810BM_PMM_ADC_RFGP : Z := 0x15.
Definition N810BM_PMM_ADC_WBTX : Z := 0x16.
Definition N810BM_PMM_ADC_RETUTEMP : Z := 0x17.
Definition N810BM_PMM_ADC_0xFE : Z := 0xFE.

(** [enum n810bm_capacity] *)
Definition N810BM_CAP_UNKNOWN : Z := -1.
Definition N810BM_CAP_NONE : Z := 0.
Definition N810BM_CAP_1500MAH : Z := 1500.

(** [enum n810bm_notify_flags]: bit numbers in [notify_flags]. *)
Definition N810BM_NOTIFY_charger_present : Z := 0.
Definition N810BM_NOTIFY_charger_state : Z := 1.
Definition N810BM_NOTIFY_charger_pwm : Z := 2.

(** [struct n810bm_adc_calib] *)
Record n810bm_adc_calib := mk_adc_calib {
  id : Z;            (* enum n810bm_pmm_adc_id *)
  flags : Z;         (* u8 *)
  adc_groupnr : Z;   (* u8 *)
  field1 : Z;        (* u32 *)
  field2 : Z;        (* u32 *)
  field3 : Z;        (* u16 *)
  field4 : Z;        (* u16 *)
}.

(** [struct n810bm_calib]: the array [adc[25]]. *)
Abbreviation n810bm_calib := (list n810bm_adc_calib).
Definition ARRAY_SIZE_adc : nat := 25.

(** ** Convert a battery voltage (in mV) to percentage *)

(** [clamp(val, min, max)] of [<linux/kernel.h>] at type [unsigned int]. *)
Definition clamp (val lo hi : Z) : Z :=
  let val1 := if val <? lo then lo else val in
  if val1 >? hi then hi else val1.

Definition n810bm_mvolt2percent (mv : Z) : Z :=
  let minv := 3700 in
  let maxv := 4150 in
  let mv := clamp mv minv maxv in
  let percent := u32 (u32 (u32 (mv - minv) * 100) / u32 (maxv - minv)) in
  percent.

(** ** The charge-algorithm collaborator ([lipocharge.h])

    The driver drives the charger through this interface only.  The
    operations act on the collaborator's own state; [lipocharge_start]
    also returns its error code. *)

Class Lipocharge (L : Type) := {
  lipocharge_is_charging : L -> bool;
  lipocharge_start : L -> Z * L;
  lipocharge_stop : L -> L;
  (* the field write [c->capacity = v] *)
  lipocharge_set_capacity : Z -> L -> L;
}.

(** Modelled from the spec: [lipocharge.c] is not part of the sources at
    hand.  The charge state machine has the two states Idle (not charging)
    and Charging (algorithm active); the start operation takes the
    capacity handed over by the driver and activates the algorithm, the
    stop operation returns it to Idle, and [is_charging] reports which of
    the two states it is in. *)
Inductive lipocharge_state := LIPO_IDLE | LIPO_CHARGING.

Record lipocharge := mk_lipocharge {
  lipo_state : lipocharge_state;
  lipo_capacity : Z;
}.

#[export] Instance lipocharge_model : Lipocharge lipocharge := {
  lipocharge_is_charging c :=
    match lipo_state c with LIPO_IDLE => false | LIPO_CHARGING => true end;
  lipocharge_start c := (0, mk_lipocharge LIPO_CHARGING (lipo_capacity c));
  lipocharge_stop c := mk_lipocharge LIPO_IDLE (lipo_capacity c);
  lipocharge_set_capacity v c := mk_lipocharge (lipo_state c) v;
}.

(** ** Hardware: the Retu and Tahvo chips *)

Inductive tahvo_reg :=
  TAHVO_REG_CHGCURR | TAHVO_REG_CHGCTL | TAHVO_REG_BATCURRTIMER.

Inductive retu_adc :=
  RETU_ADC_GND2 | RETU_ADC_BSI | RETU_ADC_BATTEMP | RETU_ADC_CHGVOLT
| RETU_ADC_BKUPVOLT | RETU_ADC_BATTVOLT.

(** Bit masks of [retu.h] and [tahvo.h].  The headers are not part of the
    sources at hand, so the masks are parameters of the development. *)
Class ChipBits := {
  RETU_REG_STATUS_BATAVAIL : Z;
  RETU_REG_STATUS_CHGPLUG : Z;
  TAHVO_REG_CHGCTL_EN : Z;
  TAHVO_REG_CHGCTL_PWMOVR : Z;
  TAHVO_REG_CHGCTL_PWMOVRZERO : Z;
  TAHVO_REG_CHGCTL_CURMEAS : Z;
  TAHVO_REG_CHGCTL_CURTIMRST : Z;
}.

Inductive loglevel := KERN_EMERG | KERN_ERR | KERN_INFO | KERN_DEBUG.

Inductive work := notify_work | currmeas_irq_work | periodic_check_work.

(** What the driver does to the outside world, in program order. *)
Inductive event :=
| EvTahvoWrite (reg : tahvo_reg) (value : Z)
| EvTahvoSetClear (reg : tahvo_reg) (set clear : Z)
| EvTahvoIrq (enable : bool)
| EvAdcRead (chan : retu_adc)
| EvLog (lvl : loglevel) (msg : string)
| EvSysfsNotify (attr : string)
| EvSchedule (w : work)
| EvReleaseFirmware
| EvCbusEmergency.

Record world := mk_world {
  chgcurr : Z;                        (* TAHVO_REG_CHGCURR *)
  chgctl : Z;                         (* TAHVO_REG_CHGCTL *)
  batcurrtimer : Z;                   (* TAHVO_REG_BATCURRTIMER *)
  batcurr_irq : bool;                 (* TAHVO_INT_BATCURR enabled *)
  retu_status : Z;                    (* RETU_REG_STATUS *)
  adc_source : nat -> retu_adc -> Z;  (* result of the n-th conversion *)
  adc_reads : nat;                    (* conversions done so far *)
  batcurr_source : nat -> Z;          (* TAHVO_REG_BATCURR at the n-th read *)
  batcurr_reads : nat;                (* reads of it done so far *)
  trace : list event;
}.

(** ** The driver state and the monad of driver code *)

Section Driver.

Context {L : Type} {LC : Lipocharge L} {CB : ChipBits}.

(** [struct n810bm] (the fields that carry state; the work items and the
    mutex are part of the execution model below). *)
Record n810bm := mk_n810bm {
  battery_present : bool;
  charger_present : bool;
  capacity : Z;                  (* enum n810bm_capacity *)
  charger_enabled : bool;
  charger : L;                   (* struct lipocharge *)
  active_current_pwm : Z;        (* unsigned int *)
  current_measure_enabled : Z;   (* int: the enable refcount *)
  calib : n810bm_calib;
  verbose_charge_log : bool;
  notify_flags : Z;              (* unsigned long *)
  initialized : bool;
}.

Record system := mk_system { drv : n810bm; hw : world }.

(** A run of driver code either returns or ends in [cbus_emergency()],
    which is declared [ATTRIB_NORET]: the caller never resumes. *)
Inductive outcome (A : Type) :=
| Returned (a : A) (s : system)
| Halted (s : system).
#[global] Arguments Returned {A} a s.
#[global] Arguments Halted {A} s.

Definition M (A : Type) : Type := system -> outcome A.

Definition ret {A} (a : A) : M A := fun s => Returned a s.

Definition bind {A B} (m : M A) (k : A -> M B) : M B :=
  fun s => match m s with
           | Returned a s' => k a s'
           | Halted s' => Halted s'
           end.

Notation "x <- m ;; k" := (bind m (fun x => k))
  (at level 100, m at next level, right associativity).
Notation "m ;;; k" := (bind m (fun _ => k))
  (at level 100, right associativity).

Definition get_bm : M n810bm := fun s => Returned (drv s) s.
Definition get_hw : M world := fun s => Returned (hw s) s.
Definition modify_bm (f : n810bm -> n810bm) : M unit :=
  fun s => Returned tt (mk_system (f (drv s)) (hw s)).
Definition modify_hw (f : world -> world) : M unit :=
  fun s => Returned tt (mk_system (drv s) (f (hw s))).

Definition when (b : bool) (m : M unit) : M unit := if b then m else ret tt.

(** Field assignments [bm->f = v]. *)
Definition set_battery_present v (b : n810bm) : n810bm :=
  mk_n810bm v (charger_present b) (capacity b) (charger_enabled b)
    (charger b) (active_current_pwm b) (current_measure_enabled b)
    (calib b) (verbose_charge_log b) (notify_flags b) (initialized b).
Definition set_charger_present v (b : n810bm) : n810bm :=
  mk_n810bm (battery_present b) v (capacity b) (charger_enabled b)
    (charger b) (active_current_pwm b) (current_measure_enabled b)
    (calib b) (verbose_charge_log b) (notify_flags b) (initialized b).
Definition set_capacity v (b : n810bm) : n810bm :=
  mk_n810bm (battery_present b) (charger_present b) v (charger_enabled b)
    (charger b) (active_current_pwm b) (current_measure_enabled b)
    (calib b) (verbose_charge_log b) (notify_flags b) (initialized b).
Definition set_charger v (b : n810bm) : n810bm :=
  mk_n810bm (battery_present b) (charger_present b) (capacity b)
    (charger_enabled b) v (active_current_pwm b)
    (current_measure_enabled b) (calib b) (verbose_charge_log b)
    (notify_flags b) (initialized b).
Definition set_active_current_pwm v (b : n810bm) : n810bm :=
  mk_n810bm (battery_present b) (charger_present b) (capacity b)
    (charger_enabled b) (charger b) v (current_measure_enabled b)
    (calib b) (verbose_charge_log b) (notify_flags b) (initialized b).
Definition set_current_measure_enabled v (b : n810bm) : n810bm :=
  mk_n810bm (battery_present b) (charger_present b) (capacity b)
    (charger_enabled b) (charger b) (active_current_pwm b) v
    (calib b) (verbose_charge_log b) (notify_flags b) (initialized b).
Definition set_calib v (b : n810bm) : n810bm :=
  mk_n810bm (battery_present b) (charger_present b) (capacity b)
    (charger_enabled b) (charger b) (active_current_pwm b)
    (current_measure_enabled b) v (verbose_charge_log b)
    (notify_flags b) (initialized b).
Definition set_notify_flags v (b : n810bm) : n810bm :=
  mk_n810bm (battery_present b) (charger_present b) (capacity b)
    (charger_enabled b) (charger b) (active_current_pwm b)
    (current_measure_enabled b) (calib b) (verbose_charge_log b)
    v (initialized b).

(** Hardware updates. *)
Definition set_trace v (w : world) : world :=
  mk_world (chgcurr w) (chgctl w) (batcurrtimer w) (batcurr_irq w)
    (retu_status w) (adc_source w) (adc_reads w)
    (batcurr_source w) (batcurr_reads w) v.
Definition set_adc_reads v (w : world) : world :=
  mk_world (chgcurr w) (chgctl w) (batcurrtimer w) (batcurr_irq w)
    (retu_status w) (adc_source w) v
    (batcurr_source w) (batcurr_reads w) (trace w).
Definition set_batcurr_reads v (w : world) : world :=
  mk_world (chgcurr w) (chgctl w) (batcurrtimer w) (batcurr_irq w)
    (retu_status w) (adc_source w) (adc_reads w)
    (batcurr_source w) v (trace w).
Definition set_batcurr_irq v (w : world) : world :=
  mk_world (chgcurr w) (chgctl w) (batcurrtimer w) v
    (retu_status w) (adc_source w) (adc_reads w)
    (batcurr_source w) (batcurr_reads w) (trace w).
Definition tahvo_reg_get (reg : tahvo_reg) (w : world) : Z :=
  match reg with
  | TAHVO_REG_CHGCURR => chgcurr w
  | TAHVO_REG_CHGCTL => chgctl w
  | TAHVO_REG_BATCURRTIMER => batcurrtimer w
  end.
Definition tahvo_reg_put (reg : tahvo_reg) (v : Z) (w : world) : world :=
  match reg with
  | TAHVO_REG_CHGCURR =>
      mk_world v (chgctl w) (batcurrtimer w) (batcurr_irq w)
        (retu_status w) (adc_source w) (adc_reads w)
        (batcurr_source w) (batcurr_reads w) (trace w)
  | TAHVO_REG_CHGCTL =>
      mk_world (chgcurr w) v (batcurrtimer w) (batcurr_irq w)
        (retu_status w) (adc_source w) (adc_reads w)
        (batcurr_source w) (batcurr_reads w) (trace w)
  | TAHVO_REG_BATCURRTIMER =>
      mk_world (chgcurr w) (chgctl w) v (batcurr_irq w)
        (retu_status w) (adc_source w) (adc_reads w)
        (batcurr_source w) (batcurr_reads w) (trace w)
  end.

Definition emit (e : event) : M unit :=
  modify_hw (fun w => set_trace (trace w ++ [e]) w).

Definition dev_err (msg : string) : M unit := emit (EvLog KERN_ERR msg).
Definition dev_info (msg : string) : M unit := emit (EvLog KERN_INFO msg).
Definition dev_dbg (msg : string) : M unit := emit (EvLog KERN_DEBUG msg).

(** [WARN_ON(cond)]: a warning in the log, execution continues. *)
Definition WARN_ON (cond : bool) : M unit :=
  when cond (emit (EvLog KERN_ERR "WARNING")).

(** Work items run one at a time in this model, so taking and releasing
    [bm->mutex] has no effect of its own. *)
Definition mutex_lock : M unit := ret tt.
Definition mutex_unlock : M unit := ret tt.

Definition schedule_work (w : work) : M unit := emit (EvSchedule w).
Definition schedule_delayed_work (w : work) : M unit := emit (EvSchedule w).

Definition n810bm_known_battery_present (bm : n810bm) : bool :=
  battery_present bm
  && negb (capacity bm =? N810BM_CAP_UNKNOWN)
  && negb (capacity bm =? N810BM_CAP_NONE).

Definition n810bm_emergency {A} (message : string) : M A :=
  fun s =>
    Halted (mk_system (drv s)
      (set_trace (trace (hw s) ++
         [EvLog KERN_EMERG
            ("n810 battery management fatal fault: " +:+ message);
          EvCbusEmergency]) (hw s))).

(** *** Chip access *)

(** Tahvo registers are 16 bits wide. *)
Definition tahvo_write (reg : tahvo_reg) (value : Z) : M unit :=
  modify_hw (tahvo_reg_put reg (u16 value));;;
  emit (EvTahvoWrite reg (u16 value)).

(** Modelled from the spec: [tahvo_set_clear_reg_bits] lives in [tahvo.c],
    which is not part of the sources at hand; it is the register
    primitive that clears the bits of [clear] and sets those of [set] in
    one read-modify-write. *)
Definition tahvo_set_clear_reg_bits (reg : tahvo_reg) (set clear : Z)
  : M unit :=
  modify_hw (fun w =>
    tahvo_reg_put reg
      (u16 (Z.lor (Z.land (tahvo_reg_get reg w) (Z.lnot clear)) set)) w);;;
  emit (EvTahvoSetClear reg set clear).

Definition tahvo_maskset (reg : tahvo_reg) (mask set : Z) : M unit :=
  tahvo_set_clear_reg_bits reg set mask.
Definition tahvo_set (reg : tahvo_reg) (mask : Z) : M unit :=
  tahvo_set_clear_reg_bits reg mask mask.
Definition tahvo_clear (reg : tahvo_reg) (mask : Z) : M unit :=
  tahvo_set_clear_reg_bits reg 0 mask.

Definition tahvo_enable_irq : M unit :=
  modify_hw (set_batcurr_irq true);;; emit (EvTahvoIrq true).
Definition tahvo_disable_irq : M unit :=
  modify_hw (set_batcurr_irq false);;; emit (EvTahvoIrq false).

Definition retu_read_status : M Z :=
  w <- get_hw;; ret (u16 (retu_status w)).

(** One ADC conversion: an [int], negative on failure. *)
Definition retu_read_adc (chan : retu_adc) : M Z :=
  w <- get_hw;;
  modify_hw (set_adc_reads (S (adc_reads w)));;;
  emit (EvAdcRead chan);;;
  ret (s32 (adc_source w (adc_reads w) chan)).

(** The loop of [retu_adc_average]: [inl r] is the early [return ret],
    [inr value] the accumulated sum when the passes are done. *)
Fixpoint retu_adc_average_loop (chan : retu_adc) (passes : nat)
  (value : Z) : M (Z + Z) :=
  match passes with
  | O => ret (inr value)
  | S k =>
      r <- retu_read_adc chan;;
      if r <? 0 then ret (inl r)
      else retu_adc_average_loop chan k (u32 (value + r))
  end.

Definition retu_adc_average (chan : retu_adc) (nr_passes : Z) : M Z :=
  if nr_passes =? 0 then WARN_ON true;;; ret 0
  else
    r <- retu_adc_average_loop chan (Z.to_nat nr_passes) 0;;
    match r with
    | inl e => ret e
    | inr value => ret (s32 (u32 (value / nr_passes)))
    end.

(** *** Measurement layer *)

(** Set the current measure timer that triggers on Tahvo IRQ 7.
    An interval of zero disables the timer. *)
Definition n810bm_set_current_measure_timer (millisec_interval : Z)
  : M unit :=
  let value := u16 millisec_interval in
  let value :=
    if value <=? 0xF905 then
      let value :=
        u16 (Z.shiftr (u64 (u64 0x10624DD3 * u64 (value + 0xF9))) 32) in
      u16 (value / 16)
    else 0xFF in
  tahvo_write TAHVO_REG_BATCURRTIMER (Z.land value 0xFF);;;
  tahvo_set TAHVO_REG_CHGCTL TAHVO_REG_CHGCTL_CURTIMRST;;;
  tahvo_clear TAHVO_REG_CHGCTL TAHVO_REG_CHGCTL_CURTIMRST;;;
  if c_true (u16 millisec_interval) then tahvo_enable_irq
  else tahvo_disable_irq.

Definition n810bm_enable_current_measure : M unit :=
  bm <- get_bm;;
  WARN_ON (current_measure_enabled bm <? 0);;;
  when (negb (c_true (current_measure_enabled bm)))
    ((* Enable the current measurement circuitry *)
     tahvo_set TAHVO_REG_CHGCTL TAHVO_REG_CHGCTL_CURMEAS;;;
     dev_dbg "Current measurement circuitry enabled");;;
  modify_bm (fun bm =>
    set_current_measure_enabled (s32 (current_measure_enabled bm + 1)) bm).

Definition n810bm_disable_current_measure : M unit :=
  modify_bm (fun bm =>
    set_current_measure_enabled (s32 (current_measure_enabled bm - 1)) bm);;;
  bm <- get_bm;;
  WARN_ON (current_measure_enabled bm <? 0);;;
  when (negb (c_true (current_measure_enabled bm)))
    ((* Disable the current measurement circuitry *)
     tahvo_clear TAHVO_REG_CHGCTL TAHVO_REG_CHGCTL_CURMEAS;;;
     dev_dbg "Current measurement circuitry disabled").

(** Measure the battery voltage. Returns the value in mV (or negative
    value on error). *)
Definition n810bm_measure_batt_voltage : M Z :=
  let scale := 1000 in
  adc <- retu_adc_average RETU_ADC_BATTVOLT 5;;
  if adc <? 0 then ret adc
  else if adc <=? 0x37 then ret 2800
  else
    let mv :=
      u32 (2800 +
           u32 (u32 (u32 (adc - 0x37) *
                     u32 (u32 ((4200 - 2800) * scale) / u32 (0x236 - 0x37)))
                / scale)) in
    ret (s32 mv).

(** Read the battery capacity via BSI pin. *)
Definition n810bm_read_batt_capacity : M Z :=
  let hyst := 20 in
  adc <- retu_adc_average RETU_ADC_BSI 5;;
  if adc <? 0 then
    dev_err "Failed to read BSI ADC";;;
    ret N810BM_CAP_UNKNOWN
  else if (u32 adc >=? u32 (0x3B5 - hyst)) && (u32 adc <=? u32 (0x3B5 + hyst))
  then ret N810BM_CAP_1500MAH
  else
    dev_err "Capacity indicator 0x%X unknown";;;
    ret N810BM_CAP_UNKNOWN.

(** *** Notifications *)

(** [set_bit(nr, addr)] on an [unsigned long]. *)
Definition set_bit (nr : Z) (word : Z) : Z := Z.lor word (Z.shiftl 1 nr).

(** [DEFINE_ATTR_NOTIFY(attr_name)] *)
Definition n810bm_notify (flag : Z) : M unit :=
  modify_bm (fun bm => set_notify_flags (set_bit flag (notify_flags bm)) bm);;;
  schedule_work notify_work.

Definition n810bm_notify_charger_present : M unit :=
  n810bm_notify N810BM_NOTIFY_charger_present.
Definition n810bm_notify_charger_state : M unit :=
  n810bm_notify N810BM_NOTIFY_charger_state.
Definition n810bm_notify_charger_pwm : M unit :=
  n810bm_notify N810BM_NOTIFY_charger_pwm.

(** [do_notify(attr_name)] inside [n810bm_notify_work]. *)
Definition do_notify (flags_seen : Z) (attr_name : string) (flag : Z)
  : M unit :=
  when (c_true (Z.land flags_seen (Z.shiftl 1 flag)))
    (emit (EvSysfsNotify attr_name)).

(** [xchg(&bm->notify_flags, new)]: one indivisible step that stores
    [new] and yields the previous word. *)
Definition xchg_notify_flags (new : Z) : M Z :=
  fun s =>
    Returned (notify_flags (drv s))
      (mk_system (set_notify_flags new (drv s)) (hw s)).

(** The three [do_notify] lines on the word taken by the exchange. *)
Definition notify_work_emit (flags_seen : Z) : M unit :=
  do_notify flags_seen "charger_present" N810BM_NOTIFY_charger_present;;;
  do_notify flags_seen "charger_state" N810BM_NOTIFY_charger_state;;;
  do_notify flags_seen "charger_pwm" N810BM_NOTIFY_charger_pwm.

Definition n810bm_notify_work : M unit :=
  flags_seen <- xchg_notify_flags 0;;
  notify_work_emit flags_seen.

(** *** Charge control *)

Definition n810bm_start_charge : M unit :=
  bm <- get_bm;;
  WARN_ON (negb (battery_present bm));;;
  WARN_ON (negb (charger_present bm));;;
  (* Set PWM to zero *)
  modify_bm (set_active_current_pwm 0);;;
  tahvo_write TAHVO_REG_CHGCURR 0;;;
  (* Charge global enable *)
  tahvo_maskset TAHVO_REG_CHGCTL
    (Z.lor TAHVO_REG_CHGCTL_EN
       (Z.lor TAHVO_REG_CHGCTL_PWMOVR TAHVO_REG_CHGCTL_PWMOVRZERO))
    TAHVO_REG_CHGCTL_EN;;;
  WARN_ON (capacity bm <=? 0);;;
  modify_bm (fun bm =>
    set_charger (lipocharge_set_capacity (capacity bm) (charger bm)) bm);;;
  bm <- get_bm;;
  let '(err, c) := lipocharge_start (charger bm) in
  modify_bm (set_charger c);;;
  WARN_ON (c_true err);;;
  (* Initialize current measurement circuitry *)
  n810bm_enable_current_measure;;;
  n810bm_set_current_measure_timer 250;;;
  dev_info "Charging battery";;;
  n810bm_notify_charger_state;;;
  n810bm_notify_charger_pwm.

Definition n810bm_stop_charge : M unit :=
  bm <- get_bm;;
  when (lipocharge_is_charging (charger bm))
    (n810bm_set_current_measure_timer 0;;;
     n810bm_disable_current_measure);;;
  modify_bm (fun bm => set_charger (lipocharge_stop (charger bm)) bm);;;
  (* Set PWM to zero *)
  modify_bm (set_active_current_pwm 0);;;
  tahvo_write TAHVO_REG_CHGCURR 0;;;
  (* Charge global disable *)
  tahvo_maskset TAHVO_REG_CHGCTL
    (Z.lor TAHVO_REG_CHGCTL_EN
       (Z.lor TAHVO_REG_CHGCTL_PWMOVR TAHVO_REG_CHGCTL_PWMOVRZERO))
    0;;;
  dev_info "Not charging battery";;;
  n810bm_notify_charger_state;;;
  n810bm_notify_charger_pwm.

(** *** Periodic check *)

(** Read the presence bits and follow battery and charger changes. *)
Definition periodic_check_presence : M unit :=
  status <- retu_read_status;;
  bm <- get_bm;;
  let battery_was_present := battery_present bm in
  let charger_was_present := charger_present bm in
  modify_bm (set_battery_present
    (c_true (Z.land status RETU_REG_STATUS_BATAVAIL)));;;
  modify_bm (set_charger_present
    (c_true (Z.land status RETU_REG_STATUS_CHGPLUG)));;;
  bm <- get_bm;;
  when (negb (eqb (battery_present bm) battery_was_present))
    ((* Battery state changed *)
     if battery_present bm then
       cap <- n810bm_read_batt_capacity;;
       modify_bm (set_capacity cap);;;
       if cap =? N810BM_CAP_UNKNOWN
       then dev_err "Unknown battery detected"
       else dev_info "Detected %u mAh battery"
     else
       modify_bm (set_capacity N810BM_CAP_NONE);;;
       dev_info "The main battery was removed");;;
  when (negb (eqb (charger_present bm) charger_was_present))
    ((* Charger state changed *)
     dev_info (if charger_present bm then "The charger was plugged in"
               else "The charger was removed");;;
     n810bm_notify_charger_present).

(** The condition under which the check measures the battery voltage. *)
Definition draining (bm : n810bm) : bool :=
  (battery_present bm && negb (charger_present bm))
  || negb (n810bm_known_battery_present bm).

(** We're draining the battery: enforce the minimum voltage. *)
Definition periodic_check_drain : M unit :=
  bm <- get_bm;;
  when (draining bm)
    (mv <- n810bm_measure_batt_voltage;;
     (if mv <? 0 then n810bm_emergency "check: Failed to measure voltage"
      else ret tt);;;
     (if mv <? N810BM_MIN_VOLTAGE_THRES
      then n810bm_emergency "check: Minimum voltage threshold reached"
      else ret tt)).

(** Start charging a known battery; stop when the charger is unplugged. *)
Definition periodic_check_charge : M unit :=
  bm <- get_bm;;
  when (charger_present bm && n810bm_known_battery_present bm)
    ((* Known battery and charger are connected *)
     when (charger_enabled bm)
       ((* Charger is enabled *)
        when (negb (lipocharge_is_charging (charger bm)))
          n810bm_start_charge));;;
  bm <- get_bm;;
  when (lipocharge_is_charging (charger bm) && negb (charger_present bm))
    ((* Charger was unplugged. *)
     n810bm_stop_charge).

Definition n810bm_periodic_check_work : M unit :=
  mutex_lock;;;
  periodic_check_presence;;;
  periodic_check_drain;;;
  periodic_check_charge;;;
  mutex_unlock;;;
  schedule_delayed_work periodic_check_work.

(** *** The [battery_level] attribute *)

(** [snprintf(buf, PAGE_SIZE, "%u\n", x)]: the text written to [buf]. *)
Definition snprintf_u (x : Z) : string :=
  pretty (Z.to_N (u32 x)) +:+ String (ascii_of_nat 10) EmptyString.

(** The result of a [show] callback: the returned count and the text
    written to the buffer (empty when nothing was written). *)
Definition n810bm_attr_battery_level_show : M (Z * string) :=
  mutex_lock;;;
  bm <- get_bm;;
  millivolt <-
    (if negb (battery_present bm) || lipocharge_is_charging (charger bm)
     then ret 0
     else n810bm_measure_batt_voltage);;
  r <- (if millivolt >=? 0 then
          let buf := snprintf_u (n810bm_mvolt2percent (u32 millivolt)) in
          ret (Z.of_nat (String.length buf), buf)
        else ret (- ENODEV, EmptyString));;
  mutex_unlock;;;
  ret r.

(** *** The calibration block (PMM block) parser *)

Definition byte_val (b : byte) : Z := Z.of_N (Byte.to_N b).

(** [pmm_area[i]] *)
Definition byte_at (data : list byte) (i : Z) : Z :=
  byte_val (nth (Z.to_nat i) data x00).

(** [le32_to_cpu] of the four bytes at offset [i]. *)
Definition le32_at (data : list byte) (i : Z) : Z :=
  Z.lor (byte_at data i)
    (Z.lor (Z.shiftl (byte_at data (i + 1)) 8)
       (Z.lor (Z.shiftl (byte_at data (i + 2)) 16)
          (Z.shiftl (byte_at data (i + 3)) 24))).

(** [memcmp(a, b, n)]: the difference of the first bytes that differ. *)
Fixpoint memcmp (a b : list byte) (n : nat) : Z :=
  match n with
  | O => 0
  | S k =>
      let x := byte_val (hd x00 a) in
      let y := byte_val (hd x00 b) in
      if x =? y then memcmp (tl a) (tl b) k else x - y
  end.

(** [pmm_block->size] *)
Definition fw_size (pmm_block : list byte) : Z :=
  Z.of_nat (length pmm_block).

(** The calibration slot for an ADC id: [Some index] stands for the
    pointer [&bm->calib.adc[index]], [None] for [NULL]. *)
Definition n810bm_get_adc_calib (adc_id : Z) : M (option nat) :=
  let index :=
    if negb (adc_id =? N810BM_PMM_ADC_0xFE) then u32 (u32 adc_id + 1)
    else 0 in
  if index >=? Z.of_nat ARRAY_SIZE_adc then ret None
  else
    bm <- get_bm;;
    match calib bm !! Z.to_nat index with
    | Some cal =>
        WARN_ON (c_true (id cal) && negb (id cal =? adc_id));;;
        ret (Some (Z.to_nat index))
    | None => ret (Some (Z.to_nat index))
    end.

(** Copy [length] bytes of a record out of the block.  Returns the error
    code and the bytes copied (none unless the code is 0). *)
Definition pmm_record_get (pmm_block : list byte)
  (length group element offset : Z) : M (Z * list byte) :=
  if negb (fw_size pmm_block =? N810BM_PMM_BLOCK_SIZE) then
    ret (- EINVAL, [])
  else if group >=? N810BM_PMM_BLOCK_SIZE / N810BM_PMM_GROUP_SIZE then
    ret (- EINVAL, [])
  else if element >=? N810BM_PMM_GROUP_SIZE / N810BM_PMM_ELEM_SIZE then
    ret (- EINVAL, [])
  else if (offset >=? N810BM_PMM_ELEM_SIZE)
          || (length >? N810BM_PMM_ELEM_SIZE)
          || (length + offset >? N810BM_PMM_ELEM_SIZE) then
    ret (- EINVAL, [])
  else
    let active_group_mask := byte_at pmm_block 16 in
    if negb (c_true (Z.land active_group_mask (Z.shiftl 1 group))) then
      dev_dbg "pwm_record_get: Requested group %u, but group is not active";;;
      ret (- ENOENT, [])
    else
      let start := group * N810BM_PMM_GROUP_SIZE
                   + element * N810BM_PMM_ELEM_SIZE + offset in
      ret (0, take (Z.to_nat length) (drop (Z.to_nat start) pmm_block)).

(** [struct group1_element] (PMM block group 1 element), 12 bytes packed. *)
Record group1_element := mk_group1_element {
  elem_id : Z;
  elem_flags : Z;
  elem_adc_groupnr : Z;
  elem_padding : Z;
  elem_field1 : Z;   (* __le32, already converted *)
  elem_field2 : Z;   (* __le32, already converted *)
}.

Definition group1_element_of_bytes (buf : list byte) : group1_element :=
  mk_group1_element (byte_at buf 0) (byte_at buf 1) (byte_at buf 2)
    (byte_at buf 3) (le32_at buf 4) (le32_at buf 8).

Definition sizeof_group1_element : Z := 12.

(** Assignments through a slot pointer. *)
Definition store_fields (f1 f2 : Z) (c : n810bm_adc_calib)
  : n810bm_adc_calib :=
  mk_adc_calib (id c) (flags c) (adc_groupnr c) f1 f2 (field3 c) (field4 c).
Definition store_id_flags (i f : Z) (c : n810bm_adc_calib)
  : n810bm_adc_calib :=
  mk_adc_calib i f (adc_groupnr c) (field1 c) (field2 c) (field3 c)
    (field4 c).

Definition modify_slot (index : nat)
  (f : n810bm_adc_calib -> n810bm_adc_calib) : M unit :=
  modify_bm (fun bm => set_calib (alter f index (calib bm)) bm).

Definition zero_calib : n810bm_adc_calib := mk_adc_calib 0 0 0 0 0 0 0.

(** [adc_calib->flags] *)
Definition slot_flags (index : nat) : M Z :=
  bm <- get_bm;;
  ret (flags (default zero_calib (calib bm !! index))).

Fixpoint extract_group1_elem (pmm_block : list byte)
  (pmm_adc_ids : list Z) (field1_mask field2_mask : Z) : M Z :=
  match pmm_adc_ids with
  | [] => ret 0
  | adc_id :: rest =>
      let element_nr := u32 (u32 adc_id + 3) in
      got <- pmm_record_get pmm_block sizeof_group1_element
               1 element_nr 0;;
      let '(err, buf) := got in
      if c_true err then
        extract_group1_elem pmm_block rest field1_mask field2_mask
      else
        let elem := group1_element_of_bytes buf in
        adc_calib <- n810bm_get_adc_calib (elem_id elem);;
        match adc_calib with
        | None =>
            dev_err
              "extract_group1_elem: Could not get calib element for 0x%02X";;;
            ret (- EINVAL)
        | Some index =>
            fl <- slot_flags index;;
            (if fl =? elem_flags elem then
               modify_slot index
                 (store_fields (Z.land (elem_field1 elem) field1_mask)
                               (Z.land (elem_field2 elem) field2_mask))
             else
               dev_dbg
                 "extract_group1_elem: Not extracting fields due to flags mismatch: 0x%02X vs 0x%02X");;;
            extract_group1_elem pmm_block rest field1_mask field2_mask
        end
  end.

Definition pmm_adc_ids_1 : list Z :=
  [N810BM_PMM_ADC_BATVOLT; N810BM_PMM_ADC_CHGVOLT;
   N810BM_PMM_ADC_BKUPVOLT; N810BM_PMM_ADC_BATCURR].
Definition pmm_adc_ids_2 : list Z := [N810BM_PMM_ADC_BSI].
Definition pmm_adc_ids_3 : list Z := [N810BM_PMM_ADC_BATTEMP].

Definition n810bm_parse_pmm_group1 (pmm_block : list byte) : M Z :=
  (* Parse element 2 *)
  got <- pmm_record_get pmm_block sizeof_group1_element 1 2 0;;
  let '(err, buf) := got in
  if c_true err then
    dev_err "PMM: Failed to get group 1 / element 2";;;
    ret err
  else
    let elem := group1_element_of_bytes buf in
    r <- (if (elem_id elem =? N810BM_PMM_ADC_0xFE)
             && (elem_flags elem =? 0x05) then
            adc_calib <- n810bm_get_adc_calib (elem_id elem);;
            match adc_calib with
            | None =>
                dev_err "calib extract: Failed to get 0xFE calib";;;
                ret (- EINVAL)
            | Some index =>
                modify_slot index
                  (store_id_flags (elem_id elem) (elem_flags elem));;;
                modify_slot index
                  (store_fields (elem_field1 elem) (elem_field2 elem));;;
                ret 0
            end
          else ret 0);;
    if c_true r then ret r
    else
      err <- extract_group1_elem pmm_block pmm_adc_ids_1
               0xFFFFFFFF 0xFFFFFFFF;;
      if c_true err then ret err
      else
        err <- extract_group1_elem pmm_block pmm_adc_ids_2 0xFFFFFFFF 0;;
        if c_true err then ret err
        else
          err <- extract_group1_elem pmm_block pmm_adc_ids_3
                   0xFFFFFFFF 0x0000FFFF;;
          if c_true err then ret err
          else ret 0.

Definition n810bm_parse_pmm_group2 (pmm_block : list byte) : M Z :=
  dev_err "TODO: CAL BME PMM group 2 parser not implemented, yet";;;
  ret (- EOPNOTSUPP).

(** The literal table [defaults[]]. *)
Definition defaults : list n810bm_adc_calib :=
  [ (* ADC group-nr 0 *)
    mk_adc_calib N810BM_PMM_ADC_HEADSET 0x00 0 0 0 0 0;
    mk_adc_calib N810BM_PMM_ADC_HOOKDET 0x00 0 0 0 0 0;
    mk_adc_calib N810BM_PMM_ADC_RFGP 0x00 0 0 0 0 0;
    mk_adc_calib N810BM_PMM_ADC_LIGHTSENS 0x00 0 0 0 0 0;
    mk_adc_calib N810BM_PMM_ADC_WBTX 0x00 0 0 0 0 0;
    mk_adc_calib N810BM_PMM_ADC_RETUTEMP 0x00 0 0 0 0 0;
    mk_adc_calib N810BM_PMM_ADC_GND2 0x00 0 0 0 0 0;
    (* ADC group-nr 1 *)
    mk_adc_calib N810BM_PMM_ADC_0xFE 0x05 1 (u32 (-2)) 13189 0 0;
    mk_adc_calib N810BM_PMM_ADC_BATVOLT 0x01 1 2527 21373 0 0;
    mk_adc_calib N810BM_PMM_ADC_CHGVOLT 0x01 1 0 129848 0 0;
    mk_adc_calib N810BM_PMM_ADC_BKUPVOLT 0x01 1 0 20000 0 0;
    mk_adc_calib N810BM_PMM_ADC_BATCURR 0x06 1 0 9660 0 0;
    (* ADC group-nr 2 *)
    mk_adc_calib N810BM_PMM_ADC_BSI 0x02 2 1169 0 0 0;
    (* ADC group-nr 3 *)
    mk_adc_calib N810BM_PMM_ADC_BATTEMP 0x03 3 265423000 298 0 0;
    (* ADC group-nr 4 *)
    mk_adc_calib N810BM_PMM_ADC_LIGHTTEMP 0x04 4 19533778 308019670
      4700 2500 ].

(** Copy the defaults: the second loop of the function below. *)
Fixpoint copy_defaults (ds : list n810bm_adc_calib) : M unit :=
  match ds with
  | [] => ret tt
  | d :: rest =>
      adc_calib <- n810bm_get_adc_calib (id d);;
      match adc_calib with
      | None => WARN_ON true;;; copy_defaults rest
      | Some index =>
          WARN_ON false;;;
          modify_slot index (fun _ => d);;;
          copy_defaults rest
      end
  end.

Definition n810bm_adc_calib_set_defaults : M unit :=
  (* Clear the array *)
  modify_bm (set_calib
    (replicate ARRAY_SIZE_adc (mk_adc_calib 0 0xFF 0 0 0 0 0)));;;
  (* Copy the defaults *)
  copy_defaults defaults.

(** The [switch] of the sanity checks on one slot: [None] is
    [goto value_check_fail], [Some n] adds [n] to [count]. *)
Definition calib_value_check (c : n810bm_adc_calib) : option Z :=
  if id c =? N810BM_PMM_ADC_BATVOLT then
    if (field1 c <? 2400) || (field1 c >? 2700) then None
    else if (field2 c <? 20000) || (field2 c >? 23000) then None
    else Some 1
  else if id c =? N810BM_PMM_ADC_BSI then
    if (field1 c <? 1100) || (field1 c >? 1300) then None
    else Some 1
  else if id c =? N810BM_PMM_ADC_BATCURR then
    if (field2 c <? 7000) || (field2 c >? 12000) then None
    else Some 1
  else if id c =? N810BM_PMM_ADC_0xFE then
    if (s32 (field1 c) >? 14) || (s32 (field1 c) <? -14) then None
    else if (field2 c <? 13000) || (field2 c >? 13350) then None
    else Some 1
  else if (id c =? N810BM_PMM_ADC_CHGVOLT)
          || (id c =? N810BM_PMM_ADC_BATTEMP)
          || (id c =? N810BM_PMM_ADC_BKUPVOLT) then Some 1
  else Some 0.

(** The loop of the sanity checks over the slots still to visit:
    [inl tt] is [goto value_check_fail], [inr count] the final count. *)
Fixpoint calib_sanity_loop (slots : list n810bm_adc_calib) (count : Z)
  : M (unit + Z) :=
  match slots with
  | [] => ret (inr count)
  | adc_calib :: rest =>
      if flags adc_calib =? 0xFF then calib_sanity_loop rest count
      else
        match calib_value_check adc_calib with
        | None => ret (inl tt)
        | Some n =>
            dev_dbg
              "ADC 0x%02X calib: 0x%02X 0x%02X 0x%08X 0x%08X 0x%04X 0x%04X";;;
            calib_sanity_loop rest (u32 (count + n))
        end
  end.

(** [junk] is the content of the local [byte] before anything is copied
    into it. *)
Definition n810bm_parse_pmm_block (junk : byte) (pmm_block : list byte)
  : M Z :=
  (* Initialize to defaults *)
  n810bm_adc_calib_set_defaults;;;
  (* Parse the PMM data *)
  got <- pmm_record_get pmm_block 1 1 0 0;; (* group 1 / element 0 *)
  let '(err0, buf) := got in
  let byte := if c_true err0 then junk else hd junk buf in
  let err := Z.lor err0 (c_bool (negb (byte_val byte =? 0x01))) in
  got <- pmm_record_get pmm_block 1 1 1 0;; (* group 1 / element 1 *)
  let '(err1, buf) := got in
  let byte := if c_true err1 then byte else hd byte buf in
  let err := Z.lor err err1 in
  let err := Z.lor err (c_bool (negb (byte_val byte =? 0x01))) in
  err <- (if c_true err then n810bm_parse_pmm_group2 pmm_block
          else n810bm_parse_pmm_group1 pmm_block);;
  if c_true err then ret err
  else
    (* Sanity checks *)
    bm <- get_bm;;
    r <- calib_sanity_loop (calib bm) 0;;
    match r with
    | inl _ =>
        dev_err "PMM image sanity check failed (id=%02X, field1=%08X, field2=%08X)";;;
        ret (- EILSEQ)
    | inr count =>
        if negb (count =? 7) then
          dev_err "PMM sanity check: Did not find all required values (count=%u)";;;
          ret (- EILSEQ)
        else ret 0
    end.

(** The firmware loader's completion callback.  [fw = None] is the null
    pointer (image not found).  What follows a successful parse is the
    device initialisation, taken here as a parameter. *)
Variable n810bm_device_init : M Z.

Definition n810bm_pmm_block_found (junk : byte) (fw : option (list byte))
  : M unit :=
  match fw with
  | None =>
      dev_err "CAL PMM block image file not found";;;
      emit EvReleaseFirmware
  | Some data =>
      if negb (fw_size data =? N810BM_PMM_BLOCK_SIZE)
         || negb (memcmp data (list_byte_of_string "BME-PMM-BLOCK01") 15
                  =? 0)
      then
        dev_err "CAL PMM block image file has an invalid format";;;
        emit EvReleaseFirmware
      else
        err <- n810bm_parse_pmm_block junk data;;
        if c_true err then emit EvReleaseFirmware
        else
          emit EvReleaseFirmware;;;
          err <- n810bm_device_init;;
          when (c_true err)
            (dev_err "Failed to initialized battery management (%d)")
  end.

End Driver.

(** ** The rest of the driver: battery current, self test, charger
    callbacks and the remaining attributes *)

Definition EIO : Z := 5.

(** [(s16)x]: the low 16 bits read as a signed value. *)
Definition s16 (x : Z) : Z := (x + 2 ^ 15) mod 2 ^ 16 - 2 ^ 15.

(** What the functions below use from [retu.c] and [lipocharge.c] besides
    the primitives above.  These files are not part of the sources at
    hand, so the two are parameters. *)
Class Platform (L : Type) := {
  (* what a write to RETU_REG_ADCSCR does to the hardware *)
  adcscr_put : Z -> world -> world;
  (* lipocharge_update_state(c, voltage_mV, current_mA, temp_K); it runs
     inside the driver, whose callbacks it may call *)
  lipocharge_update_state : Z -> Z -> Z -> M (L := L) Z;
}.

Section DriverRest.

Context {L : Type} {LC : Lipocharge L} {CB : ChipBits} {PF : Platform L}.

Notation "x <- m ;; k" := (bind m (fun x => k))
  (at level 100, m at next level, right associativity).
Notation "m ;;; k" := (bind m (fun _ => k))
  (at level 100, right associativity).

(** [tahvo_read(bm, TAHVO_REG_BATCURR)]: the register follows the
    hardware, so every read takes the next value of its source. *)
Definition tahvo_read_BATCURR : M (L := L) Z :=
  w <- get_hw;;
  modify_hw (set_batcurr_reads (S (batcurr_reads w)));;;
  ret (u16 (batcurr_source w (batcurr_reads w))).

(** [retu_write(bm, RETU_REG_ADCSCR, value)] *)
Definition retu_write_ADCSCR (value : Z) : M (L := L) unit :=
  modify_hw (adcscr_put (u16 value)).

(** Time is not part of the model: sleeping has no effect of its own. *)
Definition msleep (msecs : Z) : M (L := L) unit := ret tt.

(** *** Battery current *)

(** The loop of [n810bm_measure_batt_current] on the [int] accumulator. *)
Fixpoint batt_current_loop (passes : nat) (adc : Z) : M (L := L) Z :=
  match passes with
  | O => ret adc
  | S k =>
      retval <- tahvo_read_BATCURR;;
      (* Value is signed *)
      batt_current_loop k (s32 (adc + s16 retval))
  end.

(** Measure the actual battery current. Returns a signed value in mA.
    Does only work, if current measurement was enabled. *)
Definition n810bm_measure_batt_current : M (L := L) Z :=
  bm <- get_bm;;
  WARN_ON (current_measure_enabled bm <=? 0);;;
  if current_measure_enabled bm <=? 0 then ret 0
  else
    adc <- batt_current_loop 3 0;;
    let adc := Z.quot adc 3 in
    let ma := adc in
    ret ma.

(** The three charge mode bits of the charge control register. *)
Definition chgctl_mode_mask : Z :=
  Z.lor (Z.lor TAHVO_REG_CHGCTL_EN TAHVO_REG_CHGCTL_PWMOVR)
    TAHVO_REG_CHGCTL_PWMOVRZERO.

(** Requires bm->mutex locked *)
Definition n810bm_measure_batt_current_async : M (L := L) Z :=
  bm <- get_bm;;
  let charging := lipocharge_is_charging (charger bm) in
  n810bm_enable_current_measure;;;
  bm <- get_bm;;
  when (negb charging) (WARN_ON (negb (active_current_pwm bm =? 0)));;;
  tahvo_maskset TAHVO_REG_CHGCTL chgctl_mode_mask
    (Z.lor (Z.lor TAHVO_REG_CHGCTL_EN TAHVO_REG_CHGCTL_PWMOVR)
       (if charging then 0 else TAHVO_REG_CHGCTL_PWMOVRZERO));;;
  ma <- n810bm_measure_batt_current;;
  tahvo_maskset TAHVO_REG_CHGCTL chgctl_mode_mask
    (if charging then TAHVO_REG_CHGCTL_EN else 0);;;
  n810bm_disable_current_measure;;;
  ret ma.

(** *** ADC self test *)

Definition adc_sanity_check (channel : retu_adc) : M (L := L) Z :=
  value <- retu_read_adc channel;;
  if value <? 0 then
    dev_err "Failed to read GND ADC channel %u";;;
    ret (- EIO)
  else
    dev_dbg "GND ADC channel %u sanity check got value: %d";;;
    if value >? 5 then
      n810bm_emergency (A := unit) "GND ADC sanity check failed";;;
      ret (- EIO)
    else ret 0.

Definition n810bm_check_adc_sanity : M (L := L) Z :=
  (* Discard one conversion *)
  retu_write_ADCSCR 0;;;
  retu_read_adc RETU_ADC_GND2;;;
  err <- adc_sanity_check RETU_ADC_GND2;;
  if c_true err then ret err
  else ret 0.

(** *** The unconverted measurements *)

(** Measure the charger voltage. Returns the value in mV (or negative
    value on error). *)
Definition n810bm_measure_charger_voltage : M (L := L) Z :=
  adc <- retu_adc_average RETU_ADC_CHGVOLT 5;;
  if adc <? 0 then ret adc
  else
    let mv := u32 adc in
    ret (s32 mv).

(** Measure backup battery voltage. Returns the value in mV (or negative
    value on error). *)
Definition n810bm_measure_backup_batt_voltage : M (L := L) Z :=
  adc <- retu_adc_average RETU_ADC_BKUPVOLT 3;;
  if adc <? 0 then ret adc
  else
    let mv := u32 adc in
    ret (s32 mv).

(** Measure the battery temperature. Returns the value in K (or negative
    value on error). *)
Definition n810bm_measure_batt_temp : M (L := L) Z :=
  adc <- retu_adc_average RETU_ADC_BATTEMP 3;;
  if adc <? 0 then ret adc
  else
    let k := u32 adc in
    ret (s32 k).

(** *** The current measurement task *)

(** The measurements of the task, with the PWM override around them. *)
Definition currmeas_measure : M (L := L) (Z * Z * Z) :=
  tahvo_maskset TAHVO_REG_CHGCTL
    (Z.lor TAHVO_REG_CHGCTL_PWMOVR TAHVO_REG_CHGCTL_PWMOVRZERO)
    TAHVO_REG_CHGCTL_PWMOVR;;;
  ma <- n810bm_measure_batt_current;;
  tahvo_maskset TAHVO_REG_CHGCTL
    (Z.lor TAHVO_REG_CHGCTL_PWMOVR TAHVO_REG_CHGCTL_PWMOVRZERO)
    (Z.lor TAHVO_REG_CHGCTL_PWMOVR TAHVO_REG_CHGCTL_PWMOVRZERO);;;
  msleep 10;;;
  mv <- n810bm_measure_batt_voltage;;
  tahvo_maskset TAHVO_REG_CHGCTL
    (Z.lor TAHVO_REG_CHGCTL_PWMOVR TAHVO_REG_CHGCTL_PWMOVRZERO)
    0;;;
  temp <- n810bm_measure_batt_temp;;
  ret (ma, mv, temp).

(** What the task does with the three values. *)
Definition currmeas_update (ma mv temp : Z) : M (L := L) unit :=
  WARN_ON (mv <? 0);;;
  if mv <? 0 then ret tt
  else
    WARN_ON (temp <? 0);;;
    if temp <? 0 then ret tt
    else
      bm <- get_bm;;
      when (verbose_charge_log bm)
        (dev_info "Battery charge state: %d mV, %d mA (%s)");;;
      res <- lipocharge_update_state mv ma temp;;
      when (c_true res)
        (when (res >? 0) (dev_info "Battery fully charged");;;
         n810bm_stop_charge).

Definition n810bm_tahvo_current_measure_work : M (L := L) unit :=
  mutex_lock;;;
  bm <- get_bm;;
  (if negb (lipocharge_is_charging (charger bm)) then ret tt
   else
     m <- currmeas_measure;;
     let '(ma, mv, temp) := m in
     currmeas_update ma mv temp);;;
  mutex_unlock.

(** *** The remaining attributes *)

(** [snprintf(buf, PAGE_SIZE, "%d\n", x)]: the text written to [buf]. *)
Definition snprintf_d (x : Z) : string :=
  pretty (s32 x) +:+ String (ascii_of_nat 10) EmptyString.

(** The count returned for a text, or [-ENODEV] with nothing written when
    there is no text. *)
Definition show_result (text : option string) : Z * string :=
  match text with
  | Some buf => (Z.of_nat (String.length buf), buf)
  | None => (- ENODEV, EmptyString)
  end.

Definition n810bm_attr_battery_capacity_show : M (L := L) (Z * string) :=
  mutex_lock;;;
  bm <- get_bm;;
  let capacity :=
    if n810bm_known_battery_present bm then s32 (capacity bm) else 0 in
  let r := show_result (Some (snprintf_d capacity)) in
  mutex_unlock;;;
  ret r.

Definition n810bm_attr_battery_temp_show : M (L := L) (Z * string) :=
  mutex_lock;;;
  k <- n810bm_measure_batt_temp;;
  let r := show_result (if k >=? 0 then Some (snprintf_d k) else None) in
  mutex_unlock;;;
  ret r.

Definition n810bm_attr_charger_voltage_show : M (L := L) (Z * string) :=
  mutex_lock;;;
  bm <- get_bm;;
  mv <- (if charger_present bm then n810bm_measure_charger_voltage
         else ret 0);;
  let r := show_result (if mv >=? 0 then Some (snprintf_d mv) else None) in
  mutex_unlock;;;
  ret r.

Definition n810bm_attr_backup_battery_voltage_show : M (L := L) (Z * string) :=
  mutex_lock;;;
  mv <- n810bm_measure_backup_batt_voltage;;
  let r := show_result (if mv >=? 0 then Some (snprintf_d mv) else None) in
  mutex_unlock;;;
  ret r.

Definition n810bm_attr_battery_current_show : M (L := L) (Z * string) :=
  mutex_lock;;;
  bm <- get_bm;;
  ma <- (if battery_present bm then n810bm_measure_batt_current_async
         else ret 0);;
  let r := show_result (Some (snprintf_d ma)) in
  mutex_unlock;;;
  ret r.

(** *** The callbacks handed to the charge algorithm *)

(** [locked] is [mutex_is_locked(&bm->mutex)] at the call. *)
Definition n810bm_charger_set_current_pwm (locked : bool) (duty_cycle : Z)
  : M (L := L) Z :=
  WARN_ON (negb locked);;;
  WARN_ON (duty_cycle >? 0xFF);;;
  if duty_cycle >? 0xFF then ret (- EINVAL)
  else
    bm <- get_bm;;
    WARN_ON (negb (charger_enabled bm));;;
    if negb (charger_enabled bm) then ret (- EINVAL)
    else
      WARN_ON (negb (battery_present bm) || negb (charger_present bm));;;
      if negb (battery_present bm) || negb (charger_present bm)
      then ret (- EINVAL)
      else
        when (negb (duty_cycle =? active_current_pwm bm))
          (modify_bm (set_active_current_pwm duty_cycle);;;
           tahvo_write TAHVO_REG_CHGCURR duty_cycle;;;
           n810bm_notify_charger_pwm);;;
        ret 0.

Definition n810bm_charger_emergency : M (L := L) unit :=
  n810bm_emergency "Battery charger fault".

(** *** Hardware set-up and shut-down *)

Definition n810bm_hw_exit : M (L := L) unit :=
  n810bm_stop_charge;;;
  retu_write_ADCSCR 0.

Definition n810bm_hw_init : M (L := L) Z :=
  err <- n810bm_check_adc_sanity;;
  if c_true err then ret err
  else
    n810bm_stop_charge;;;
    ret 0.

End DriverRest.

(** ** Notions used to state the properties *)

(** A choice of masks (distinct single bits of a 16-bit register) on which
    the definitions can be run. *)
Definition sample_bits : ChipBits := {|
  RETU_REG_STATUS_BATAVAIL := 0x0100;
  RETU_REG_STATUS_CHGPLUG := 0x1000;
  TAHVO_REG_CHGCTL_EN := 0x0001;
  TAHVO_REG_CHGCTL_PWMOVR := 0x0004;
  TAHVO_REG_CHGCTL_PWMOVRZERO := 0x0008;
  TAHVO_REG_CHGCTL_CURMEAS := 0x0040;
  TAHVO_REG_CHGCTL_CURTIMRST := 0x0080;
|}.

(** A freshly allocated driver ([kzalloc]) around an idle charger, and a
    quiescent hardware whose ADC yields [adc] and whose status register
    holds [status]. *)
Definition fresh_bm : n810bm :=
  mk_n810bm false false 0 false (mk_lipocharge LIPO_IDLE 0) 0 0
    (replicate ARRAY_SIZE_adc zero_calib) false 0 false.
Definition quiet_world (status : Z) (adc : nat -> retu_adc -> Z) : world :=
  mk_world 0 0 0 false status adc 0 (fun _ => 0) 0 [].
Definition fresh_system (status : Z) (adc : nat -> retu_adc -> Z) : system :=
  mk_system fresh_bm (quiet_world status adc).

Definition fresh_system_0 : system := fresh_system 0 (fun _ _ => 0).

(** A known battery and the charger are present, charging is wanted but
    has not started. *)
Definition ready_system : system :=
  mk_system
    (mk_n810bm true true N810BM_CAP_1500MAH true (mk_lipocharge LIPO_IDLE 0)
       0 0 (replicate ARRAY_SIZE_adc zero_calib) false 0 true)
    (quiet_world 0x1100 (fun _ _ => 0x1A5)).

(** The same with the charge algorithm active. *)
Definition charging_system : system :=
  mk_system
    (mk_n810bm true true N810BM_CAP_1500MAH true
       (mk_lipocharge LIPO_CHARGING 1500)
       0 1 (replicate ARRAY_SIZE_adc zero_calib) false 0 true)
    (quiet_world 0x1100 (fun _ _ => 0x1A5)).

(** The same while the battery current register reads -10, -16 and 6 on
    its next three reads. *)
Definition metering_system : system :=
  mk_system (drv charging_system)
    (mk_world 0 0 0 false 0x1100 (fun _ _ => 0x1A5) 0
       (fun n => nth n [0xFFF6; 0xFFF0; 0x0006] 0) 0 []).

(** The notification kinds: attribute name and flag number. *)
Definition notify_attrs : list (string * Z) :=
  [("charger_present"%string, N810BM_NOTIFY_charger_present);
   ("charger_state"%string, N810BM_NOTIFY_charger_state);
   ("charger_pwm"%string, N810BM_NOTIFY_charger_pwm)].

(** The attributes whose flag is set in [word]. *)
Definition pending_attrs (word : Z) : list string :=
  map fst (List.filter (fun p => Z.testbit word (snd p)) notify_attrs).

(** Number of calls of [cbus_emergency()] recorded in a trace. *)
Definition emergency_calls (t : list event) : nat :=
  length (List.filter
            (fun e => match e with EvCbusEmergency => true | _ => false end)
            t).

(** Register writes to the Tahvo chip recorded in a trace. *)
Definition tahvo_writes (t : list event) : list event :=
  List.filter
    (fun e => match e with
              | EvTahvoWrite _ _ | EvTahvoSetClear _ _ _ => true
              | _ => false
              end) t.

(** The current-measurement circuitry is powered: the CURMEAS bit of the
    charge control register is set. *)
Definition curmeas_on `{ChipBits} (w : world) : Prop :=
  Z.land (chgctl w) TAHVO_REG_CHGCTL_CURMEAS = TAHVO_REG_CHGCTL_CURMEAS.

(** The circuitry is powered exactly when the enable count is positive. *)
Definition refcount_inv `{ChipBits} {L : Type} (s : system (L := L)) : Prop :=
  curmeas_on (hw s) <-> 0 < current_measure_enabled (drv s).

(** The result of the [k]-th ADC conversion from now on channel [chan]. *)
Definition adc_sample (w : world) (chan : retu_adc) (k : nat) : Z :=
  s32 (adc_source w (adc_reads w + k)%nat chan).

(** The averaging loop over a given list of conversion results. *)
Fixpoint average_fold (samples : list Z) (value : Z) : Z + Z :=
  match samples with
  | [] => inr value
  | r :: rest =>
      if r <? 0 then inl r else average_fold rest (u32 (value + r))
  end.

(** Within 20 raw units of 0x3B5, bounds included. *)
Definition bsi_in_band (adc : Z) : bool :=
  (0x3B5 - 20 <=? adc) && (adc <=? 0x3B5 + 20).

(** The events of an uneventful run: no call of [cbus_emergency()], and
    conversions of the battery voltage channel only when [voltage]. *)
Definition calm (voltage : bool) (e : event) : bool :=
  match e with
  | EvCbusEmergency => false
  | EvAdcRead RETU_ADC_BATTVOLT => voltage
  | _ => true
  end.

(** A computation that always returns and adds only calm events to the
    trace. *)
Definition quiet {L : Type} {A : Type} (voltage : bool) (m : M (L := L) A)
  : Prop :=
  forall s, exists a s' t,
    m s = Returned a s'
    /\ trace (hw s') = trace (hw s) ++ t
    /\ forallb (calm voltage) t = true.

(** What the sanity checks look at besides the fields: id and flags. *)
Definition shape (c : n810bm_adc_calib) : Z * Z := (id c, flags c).

(** The slot index [n810bm_get_adc_calib] computes for an id. *)
Definition calib_index (adc_id : Z) : option nat :=
  let index :=
    if negb (adc_id =? N810BM_PMM_ADC_0xFE) then u32 (u32 adc_id + 1)
    else 0 in
  if index >=? Z.of_nat ARRAY_SIZE_adc then None
  else Some (Z.to_nat index).

(** The calibration table once the defaults are in place. *)
Definition default_table : n810bm_calib :=
  match n810bm_adc_calib_set_defaults fresh_system_0 with
  | Returned _ s => calib (drv s)
  | Halted s => calib (drv s)
  end.

(** The block has the right size, group 1 is active and both format
    markers (first byte of elements 0 and 1 of group 1) are 0x01. *)
Definition group1_markers (pmm_block : list byte) : bool :=
  (fw_size pmm_block =? N810BM_PMM_BLOCK_SIZE)
  && Z.testbit (byte_at pmm_block 16) 1
  && (byte_at pmm_block 0x200 =? 0x01)
  && (byte_at pmm_block 0x210 =? 0x01).

(** The group 1 record read for [adc_id] (element [adc_id + 3]) carries
    an id byte that has a calibration slot. *)
Definition record_id_mappable (pmm_block : list byte) (adc_id : Z) : bool :=
  match calib_index (byte_at pmm_block (0x200 + (adc_id + 3) * 0x10)) with
  | Some _ => true
  | None => false
  end.

Definition group1_ids_mappable (pmm_block : list byte) : bool :=
  forallb (record_id_mappable pmm_block)
    (pmm_adc_ids_1 ++ pmm_adc_ids_2 ++ pmm_adc_ids_3).

(** A slot passes the sanity checks: it is unused or within its bounds. *)
Definition slot_ok (c : n810bm_adc_calib) : bool :=
  (flags c =? 0xFF)
  || match calib_value_check c with Some _ => true | None => false end.

(** The seven channels the parser requires. *)
Definition required_ids : list Z :=
  [N810BM_PMM_ADC_BATVOLT; N810BM_PMM_ADC_BSI; N810BM_PMM_ADC_BATCURR;
   N810BM_PMM_ADC_0xFE; N810BM_PMM_ADC_CHGVOLT; N810BM_PMM_ADC_BATTEMP;
   N810BM_PMM_ADC_BKUPVOLT].

(** A slot is populated with a required channel. *)
Definition required_populated (sh : Z * Z) : bool :=
  negb (snd sh =? 0xFF) && existsb (Z.eqb (fst sh)) required_ids.

(** The ids of the required channels populated in a table, in slot
    order. *)
Definition populated_required (tbl : n810bm_calib) : list Z :=
  map fst (List.filter required_populated (map shape tbl)).

(** *** What a block says the table is to hold *)

(** Byte [k] of element [element] of group 1 of a block. *)
Definition group1_byte (pmm_block : list byte) (element k : Z) : Z :=
  byte_at pmm_block (0x200 + element * 0x10 + k).

(** The number held, least significant byte first, by bytes [k] to
    [k + 3] of an element of group 1. *)
Definition group1_word (pmm_block : list byte) (element k : Z) : Z :=
  group1_byte pmm_block element k
  + 2 ^ 8 * group1_byte pmm_block element (k + 1)
  + 2 ^ 16 * group1_byte pmm_block element (k + 2)
  + 2 ^ 24 * group1_byte pmm_block element (k + 3).

(** The elements of group 1 read after element 2, in order, each with
    the masks applied to its two fields: the record of a channel is at
    element id + 3. *)
Definition group1_reads : list (Z * Z * Z) :=
  [(N810BM_PMM_ADC_BATVOLT + 3, 0xFFFFFFFF, 0xFFFFFFFF);
   (N810BM_PMM_ADC_CHGVOLT + 3, 0xFFFFFFFF, 0xFFFFFFFF);
   (N810BM_PMM_ADC_BKUPVOLT + 3, 0xFFFFFFFF, 0xFFFFFFFF);
   (N810BM_PMM_ADC_BATCURR + 3, 0xFFFFFFFF, 0xFFFFFFFF);
   (N810BM_PMM_ADC_BSI + 3, 0xFFFFFFFF, 0);
   (N810BM_PMM_ADC_BATTEMP + 3, 0xFFFFFFFF, 0x0000FFFF)].

(** A table with the record of one element written over it.  The slot is
    the one of the id byte of the record; it takes the two fields of the
    record, masked, if its flags are the flags byte of the record, and
    the table is left as it is otherwise.  [None]: the id byte has no
    slot. *)
Definition write_record (pmm_block : list byte) (tbl : n810bm_calib)
  (rd : Z * Z * Z) : option n810bm_calib :=
  let '(element, m1, m2) := rd in
  match calib_index (group1_byte pmm_block element 0) with
  | None => None
  | Some i =>
      if flags (default zero_calib (tbl !! i))
         =? group1_byte pmm_block element 1
      then
        Some (alter
                (fun c =>
                   mk_adc_calib (id c) (flags c) (adc_groupnr c)
                     (Z.land (group1_word pmm_block element 4) m1)
                     (Z.land (group1_word pmm_block element 8) m2)
                     (field3 c) (field4 c))
                i tbl)
      else Some tbl
  end.

(** The records written one after the other, up to the first whose id
    byte has no slot; the flag tells that there was none. *)
Fixpoint write_records (pmm_block : list byte) (rds : list (Z * Z * Z))
  (tbl : n810bm_calib) : n810bm_calib * bool :=
  match rds with
  | [] => (tbl, true)
  | rd :: rest =>
      match write_record pmm_block tbl rd with
      | None => (tbl, false)
      | Some tbl' => write_records pmm_block rest tbl'
      end
  end.

(** Element 2 holds the internal channel 0xFE: when its id byte is 0xFE
    and its flags byte 0x05, slot 0 takes id, flags and both fields. *)
Definition write_element2 (pmm_block : list byte) (tbl : n810bm_calib)
  : n810bm_calib :=
  if (group1_byte pmm_block 2 0 =? N810BM_PMM_ADC_0xFE)
     && (group1_byte pmm_block 2 1 =? 0x05)
  then
    alter
      (fun c =>
         mk_adc_calib N810BM_PMM_ADC_0xFE 0x05 (adc_groupnr c)
           (group1_word pmm_block 2 4) (group1_word pmm_block 2 8)
           (field3 c) (field4 c))
      0%nat tbl
  else tbl.

(** The table a block leaves in the controller, as a function of the
    block alone: the defaults when the size, the group mask or a marker
    is wrong, and otherwise the defaults with the records of group 1
    written over them, as far as they go. *)
Definition expected_table (pmm_block : list byte) : n810bm_calib :=
  if group1_markers pmm_block then
    fst (write_records pmm_block group1_reads
           (write_element2 pmm_block default_table))
  else default_table.

(** Slot by slot: a table that is the defaults in all but the first two
    fields of its slots, where a slot holds either the defaults or what a
    record of group 1 with the id and flags of the slot carries. *)
Definition defaults_and_records (pmm_block : list byte)
  (tbl : n810bm_calib) : Prop :=
  length tbl = ARRAY_SIZE_adc
  /\ forall (i : nat) c,
       tbl !! i = Some c ->
       exists d,
         default_table !! i = Some d
         /\ id c = id d /\ flags c = flags d
         /\ adc_groupnr c = adc_groupnr d
         /\ field3 c = field3 d /\ field4 c = field4 d
         /\ ((field1 c = field1 d /\ field2 c = field2 d)
             \/ exists element m1 m2,
                  In (element, m1, m2)
                    ((2, 0xFFFFFFFF, 0xFFFFFFFF) :: group1_reads)
                  /\ calib_index (group1_byte pmm_block element 0) = Some i
                  /\ group1_byte pmm_block element 1 = flags d
                  /\ field1 c = Z.land (group1_word pmm_block element 4) m1
                  /\ field2 c
                     = Z.land (group1_word pmm_block element 8) m2).

(** A slot holds a channel. *)
Definition populated (c : n810bm_adc_calib) : bool :=
  negb (flags c =? 0xFF).

(** The bounds of the calibration values, channel by channel: battery
    voltage, BSI, battery current and the internal channel (whose first
    field is a signed number); the other channels have none. *)
Definition within_bounds (c : n810bm_adc_calib) : bool :=
  if id c =? N810BM_PMM_ADC_BATVOLT then
    (2400 <=? field1 c) && (field1 c <=? 2700)
    && (20000 <=? field2 c) && (field2 c <=? 23000)
  else if id c =? N810BM_PMM_ADC_BSI then
    (1100 <=? field1 c) && (field1 c <=? 1300)
  else if id c =? N810BM_PMM_ADC_BATCURR then
    (7000 <=? field2 c) && (field2 c <=? 12000)
  else if id c =? N810BM_PMM_ADC_0xFE then
    (-14 <=? s32 (field1 c)) && (s32 (field1 c) <=? 14)
    && (13000 <=? field2 c) && (field2 c <=? 13350)
  else true.

(** Every populated slot of a table is within its bounds. *)
Definition table_within_bounds (tbl : n810bm_calib) : bool :=
  forallb (fun c => negb (populated c) || within_bounds c) tbl.

(** A calibration block: the magic, group 1 active, both format markers
    0x01, and in group 1 one record for the battery voltage channel
    (element 4: id 0x01, flags 0x01, group 1) whose field1 is given by the
    four bytes [f1] and whose field2 is 21000; everything else is zero. *)
Definition sample_block (f1 : list byte) : list byte :=
  list_byte_of_string "BME-PMM-BLOCK01" ++ [x00; x02]
  ++ replicate 495 x00
  ++ [x01] ++ replicate 15 x00
  ++ [x01] ++ replicate 15 x00
  ++ replicate 32 x00
  ++ [x01; x01; x01; x00] ++ f1 ++ [x08; x52; x00; x00] ++ replicate 4 x00
  ++ replicate 944 x00.

(** field1 = 2500, within the bounds of the battery voltage channel. *)
Definition good_block : list byte := sample_block [xc4; x09; x00; x00].

(** field1 = 0, below the bounds of the battery voltage channel. *)
Definition bad_range_block : list byte := sample_block [x00; x00; x00; x00].

(** The five bits of the charge control register that the driver uses
    are distinct and lie within the 16 bits of the register. *)
Definition chgctl_layout `{ChipBits} : Prop :=
  (0 < TAHVO_REG_CHGCTL_EN < 2 ^ 16
   /\ 0 < TAHVO_REG_CHGCTL_PWMOVR < 2 ^ 16
   /\ 0 < TAHVO_REG_CHGCTL_PWMOVRZERO < 2 ^ 16
   /\ 0 < TAHVO_REG_CHGCTL_CURMEAS < 2 ^ 16
   /\ 0 < TAHVO_REG_CHGCTL_CURTIMRST < 2 ^ 16)
  /\ (Z.land TAHVO_REG_CHGCTL_EN TAHVO_REG_CHGCTL_PWMOVR = 0
      /\ Z.land TAHVO_REG_CHGCTL_EN TAHVO_REG_CHGCTL_PWMOVRZERO = 0
      /\ Z.land TAHVO_REG_CHGCTL_EN TAHVO_REG_CHGCTL_CURMEAS = 0
      /\ Z.land TAHVO_REG_CHGCTL_EN TAHVO_REG_CHGCTL_CURTIMRST = 0
      /\ Z.land TAHVO_REG_CHGCTL_PWMOVR TAHVO_REG_CHGCTL_PWMOVRZERO = 0
      /\ Z.land TAHVO_REG_CHGCTL_PWMOVR TAHVO_REG_CHGCTL_CURMEAS = 0
      /\ Z.land TAHVO_REG_CHGCTL_PWMOVR TAHVO_REG_CHGCTL_CURTIMRST = 0
      /\ Z.land TAHVO_REG_CHGCTL_PWMOVRZERO TAHVO_REG_CHGCTL_CURMEAS = 0
      /\ Z.land TAHVO_REG_CHGCTL_PWMOVRZERO TAHVO_REG_CHGCTL_CURTIMRST = 0
      /\ Z.land TAHVO_REG_CHGCTL_CURMEAS TAHVO_REG_CHGCTL_CURTIMRST = 0).

(** Hardware states that differ at most in how far the ADC has been read
    and in the trace. *)
Definition same_registers (w w' : world) : Prop :=
  chgcurr w' = chgcurr w
  /\ chgctl w' = chgctl w
  /\ batcurrtimer w' = batcurrtimer w
  /\ batcurr_irq w' = batcurr_irq w
  /\ retu_status w' = retu_status w
  /\ adc_source w' = adc_source w
  /\ batcurr_source w' = batcurr_source w
  /\ batcurr_reads w' = batcurr_reads w.

(** The value of the [k]-th read from now of the battery current
    register, as the signed 16-bit number it holds. *)
Definition batcurr_sample (w : world) (k : nat) : Z :=
  s16 (u16 (batcurr_source w (batcurr_reads w + k)%nat)).

(** The sum of a list of conversion results. *)
Definition zsum (l : list Z) : Z := fold_right Z.add 0 l.

(** The two decisions of the charge part of the periodic check. *)
Definition ready_to_charge {L : Type} `{Lipocharge L} (bm : n810bm (L := L))
  : bool :=
  charger_present bm && n810bm_known_battery_present bm
  && charger_enabled bm && negb (lipocharge_is_charging (charger bm)).
Definition charger_unplugged {L : Type} `{Lipocharge L}
  (bm : n810bm (L := L)) : bool :=
  lipocharge_is_charging (charger bm) && negb (charger_present bm).

(** The conversions the averaging loop makes on a list of upcoming
    results: up to and including the first failed one. *)
Fixpoint reads_needed (samples : list Z) : nat :=
  match samples with
  | [] => 0%nat
  | r :: rest => if r <? 0 then 1%nat else S (reads_needed rest)
  end.

(** A write to the ADC control register changes nothing of the hardware
    that is modelled. *)
Definition adcscr_inert {L : Type} `{Platform L} : Prop :=
  forall v w, adcscr_put v w = w.

(** A platform on which the definitions can be run: the charge algorithm
    asks to go on. *)
Definition sample_platform : Platform lipocharge := {|
  adcscr_put := fun _ w => w;
  lipocharge_update_state := fun _ _ _ => ret (L := lipocharge) 0;
|}.

(** Lines of the kernel log. *)
Definition is_log (e : event) : bool :=
  match e with EvLog _ _ => true | _ => false end.

(** A computation that always returns, changes nothing of the driver but
    the calibration table, and nothing of the hardware: it only adds lines
    to the log. *)
Definition only_calib_and_log {L : Type} {A : Type} (m : M (L := L) A)
  : Prop :=
  forall s, exists a s' t,
    m s = Returned a s'
    /\ drv s' = set_calib (calib (drv s')) (drv s)
    /\ hw s' = set_trace (trace (hw s) ++ t) (hw s)
    /\ forallb is_log t = true.

(** ** Properties *)

(** *** Machine integers *)

Lemma u32_small x : 0 <= x < 2 ^ 32 -> u32 x = x.
Proof. intros H. unfold u32. now apply Z.mod_small. Qed.

Lemma s32_small x : is_int x -> s32 x = x.
Proof.
  unfold is_int, INT_MIN, INT_MAX, s32. intros H.
  rewrite Z.mod_small; lia.
Qed.

Lemma s32_is_int x : is_int (s32 x).
Proof.
  unfold is_int, INT_MIN, INT_MAX, s32.
  pose proof (Z.mod_pos_bound (x + 2 ^ 31) (2 ^ 32) ltac:(lia)). lia.
Qed.

Lemma u32_range x : 0 <= u32 x < 2 ^ 32.
Proof. unfold u32. apply Z.mod_pos_bound. lia. Qed.

Lemma c_true_spec x : c_true x = true <-> x <> 0.
Proof. unfold c_true. destruct (Z.eqb_spec x 0); simpl; split; congruence. Qed.

(** [word & (1 << nr)] is non-zero exactly when bit [nr] is set. *)
Lemma c_true_land_bit word nr :
  0 <= nr -> c_true (Z.land word (Z.shiftl 1 nr)) = Z.testbit word nr.
Proof.
  intros Hnr. rewrite Z.shiftl_1_l.
  destruct (Z.testbit word nr) eqn:Hb.
  - apply c_true_spec. intros H0.
    assert (Z.testbit (Z.land word (2 ^ nr)) nr = true) as Ht.
    { rewrite Z.land_spec, Hb, Z.pow2_bits_true; auto. }
    rewrite H0, Z.bits_0 in Ht. discriminate.
  - unfold c_true. apply negb_false_iff, Z.eqb_eq.
    apply Z.bits_inj'. intros n Hn.
    rewrite Z.land_spec, Z.bits_0.
    destruct (Z.eq_dec n nr) as [->|Hne].
    + now rewrite Hb.
    + rewrite Z.pow2_bits_false by auto. apply andb_false_r.
Qed.

(** *** Voltage to percentage *)

Lemma mvolt2percent_linear mv :
  n810bm_mvolt2percent mv = (clamp mv 3700 4150 - 3700) * 100 / 450.
Proof.
  unfold n810bm_mvolt2percent.
  assert (3700 <= clamp mv 3700 4150 <= 4150) as Hc.
  { unfold clamp. destruct (mv <? 3700) eqn:E1.
    - simpl. lia.
    - apply Z.ltb_ge in E1. destruct (mv >? 4150) eqn:E2; lia. }
  set (c := clamp mv 3700 4150) in *.
  rewrite (u32_small (c - 3700)) by lia.
  rewrite (u32_small ((c - 3700) * 100)) by lia.
  rewrite (u32_small (4150 - 3700)) by lia.
  change (4150 - 3700) with 450.
  apply u32_small.
  split.
  - apply Z.div_pos; lia.
  - apply Z.div_lt_upper_bound; lia.
Qed.

Lemma clamp_mono a b lo hi : a <= b -> clamp a lo hi <= clamp b lo hi.
Proof.
  intros Hab. unfold clamp.
  destruct (a <? lo) eqn:Ea, (b <? lo) eqn:Eb;
    try apply Z.ltb_lt in Ea; try apply Z.ltb_ge in Ea;
    try apply Z.ltb_lt in Eb; try apply Z.ltb_ge in Eb;
    repeat match goal with
           | |- context [?x >? ?y] =>
               let E := fresh "E" in
               destruct (x >? y) eqn:E;
               [ apply Z.gtb_lt in E | rewrite Z.gtb_ltb in E; apply Z.ltb_ge in E ]
           end; lia.
Qed.

(** C8: the percentage is the clamped voltage scaled linearly, lies in
    0..100, is 0 at 3700 mV and for every input below, 100 at 4150 mV and
    for every input above, and never decreases when the voltage grows. *)
Theorem n810bm_mvolt2percent_clamped_monotone (mv mv' : Z) :
  n810bm_mvolt2percent mv = (clamp mv 3700 4150 - 3700) * 100 / 450
  /\ 0 <= n810bm_mvolt2percent mv <= 100
  /\ n810bm_mvolt2percent 3700 = 0
  /\ n810bm_mvolt2percent 4150 = 100
  /\ (mv <= 3700 -> n810bm_mvolt2percent mv = 0)
  /\ (4150 <= mv -> n810bm_mvolt2percent mv = 100)
  /\ (mv <= mv' -> n810bm_mvolt2percent mv <= n810bm_mvolt2percent mv').
Proof.
  assert (forall x, 3700 <= clamp x 3700 4150 <= 4150) as Hc.
  { intros x. unfold clamp. destruct (x <? 3700) eqn:E1.
    - simpl. lia.
    - apply Z.ltb_ge in E1. destruct (x >? 4150) eqn:E2; lia. }
  repeat apply conj.
  - apply mvolt2percent_linear.
  - rewrite mvolt2percent_linear. apply Z.div_pos; [specialize (Hc mv)|]; lia.
  - rewrite mvolt2percent_linear.
    apply Z.div_le_upper_bound; [|specialize (Hc mv)]; lia.
  - reflexivity.
  - reflexivity.
  - intros Hlow. rewrite mvolt2percent_linear.
    replace (clamp mv 3700 4150) with 3700; [reflexivity|].
    unfold clamp. destruct (Z.ltb_spec mv 3700); [reflexivity|].
    replace mv with 3700 by lia. reflexivity.
  - intros Hhigh. rewrite mvolt2percent_linear.
    replace (clamp mv 3700 4150) with 4150; [reflexivity|].
    unfold clamp. destruct (Z.ltb_spec mv 3700); [lia|].
    destruct (mv >? 4150) eqn:E2; [reflexivity|].
    rewrite Z.gtb_ltb in E2. apply Z.ltb_ge in E2. lia.
  - intros Hle. rewrite !mvolt2percent_linear.
    apply Z.div_le_mono; [lia|].
    pose proof (clamp_mono mv mv' 3700 4150 Hle). lia.
Qed.

Lemma n810bm_mvolt2percent_clamped_monotone_witness :
  n810bm_mvolt2percent 3000 = 0
  /\ n810bm_mvolt2percent 5000 = 100
  /\ n810bm_mvolt2percent 3800 <= n810bm_mvolt2percent 3900.
Proof.
  destruct (n810bm_mvolt2percent_clamped_monotone 3000 3000)
    as (_ & _ & _ & _ & Hlow & _).
  destruct (n810bm_mvolt2percent_clamped_monotone 5000 5000)
    as (_ & _ & _ & _ & _ & Hhigh & _).
  destruct (n810bm_mvolt2percent_clamped_monotone 3800 3900)
    as (_ & _ & _ & _ & _ & _ & Hmono).
  split; [apply Hlow; lia|]. split; [apply Hhigh; lia|]. apply Hmono. lia.
Defined.

(** *** Running driver code *)

(** Unfolds the monad and the chip primitives. *)
Ltac run :=
  unfold dev_err, dev_info, dev_dbg, WARN_ON, mutex_lock, mutex_unlock,
    schedule_work, schedule_delayed_work, when, emit in *;
  unfold bind, ret, get_bm, get_hw, modify_bm, modify_hw in *;
  cbn [drv hw] in *.

(** Splits a conjunction into its parts, leaving equivalences whole. *)
Ltac conjs := repeat match goal with |- _ /\ _ => split end.

(** Reduces field accesses on explicitly built states. *)
Ltac fields :=
  cbn [drv hw chgcurr chgctl batcurrtimer batcurr_irq retu_status
       adc_source adc_reads batcurr_source batcurr_reads trace set_trace
       set_adc_reads set_batcurr_reads set_batcurr_irq
       tahvo_reg_put tahvo_reg_get
       battery_present charger_present capacity charger_enabled charger
       active_current_pwm current_measure_enabled calib verbose_charge_log
       notify_flags initialized
       set_battery_present set_charger_present set_capacity set_charger
       set_active_current_pwm set_current_measure_enabled set_calib
       set_notify_flags] in *.

(** Brings a trace built by successive appends into the form [t ++ l]. *)
Ltac flat_trace := repeat rewrite <- app_assoc; cbn [app].

Section Properties.

Context {L : Type} {LC : Lipocharge L} {CB : ChipBits}.

Implicit Types (s : system (L := L)) (bm : n810bm (L := L)).

Lemma emergency_calls_app t1 t2 :
  emergency_calls (t1 ++ t2) = (emergency_calls t1 + emergency_calls t2)%nat.
Proof. unfold emergency_calls. now rewrite List.filter_app, length_app. Qed.

(** *** Notifications *)

Lemma notify_run flag s :
  n810bm_notify flag s =
  Returned tt
    (mk_system (set_notify_flags (set_bit flag (notify_flags (drv s))) (drv s))
       (set_trace (trace (hw s) ++ [EvSchedule notify_work]) (hw s))).
Proof. reflexivity. Qed.

Lemma notify_work_run s :
  n810bm_notify_work s =
  Returned tt
    (mk_system (set_notify_flags 0 (drv s))
       (set_trace
          (trace (hw s)
           ++ map EvSysfsNotify (pending_attrs (notify_flags (drv s))))
          (hw s))).
Proof.
  unfold n810bm_notify_work, notify_work_emit, xchg_notify_flags, do_notify,
    pending_attrs, notify_attrs.
  unfold N810BM_NOTIFY_charger_present, N810BM_NOTIFY_charger_state,
    N810BM_NOTIFY_charger_pwm.
  run. rewrite !c_true_land_bit by lia. cbn [List.filter snd].
  destruct s as [b w]; destruct w; cbn [drv hw].
  destruct (Z.testbit (notify_flags b) 0), (Z.testbit (notify_flags b) 1),
    (Z.testbit (notify_flags b) 2);
    cbn [map fst]; unfold set_trace; cbn; flat_trace;
    rewrite ?app_nil_r; reflexivity.
Qed.

(** C6: one run of the notification task takes the whole flag word and
    leaves zero behind, emits one event for each of the three flags that
    was set and for no other, each once; a run right after it emits
    nothing; after two distinct notifiers ran from an empty flag word,
    the run emits exactly two distinct notifications; and a notifier that
    comes between the exchange and the emission leaves its flag set and
    the task scheduled for the next run. *)
Theorem n810bm_notify_work_drains_flags s (f1 f2 : Z) :
  In f1 (map snd notify_attrs) ->
  In f2 (map snd notify_attrs) ->
  f1 <> f2 ->
  (exists s',
      n810bm_notify_work s = Returned tt s'
      /\ notify_flags (drv s') = 0
      /\ trace (hw s') =
         trace (hw s)
         ++ map EvSysfsNotify (pending_attrs (notify_flags (drv s)))
      /\ List.NoDup (pending_attrs (notify_flags (drv s)))
      /\ (In "charger_present"%string (pending_attrs (notify_flags (drv s)))
          <-> Z.testbit (notify_flags (drv s))
                        N810BM_NOTIFY_charger_present = true)
      /\ (In "charger_state"%string (pending_attrs (notify_flags (drv s)))
          <-> Z.testbit (notify_flags (drv s))
                        N810BM_NOTIFY_charger_state = true)
      /\ (In "charger_pwm"%string (pending_attrs (notify_flags (drv s)))
          <-> Z.testbit (notify_flags (drv s))
                        N810BM_NOTIFY_charger_pwm = true)
      /\ exists s'',
          n810bm_notify_work s' = Returned tt s''
          /\ trace (hw s'') = trace (hw s')
          /\ notify_flags (drv s'') = 0)
  /\ pending_attrs 0 = []
  /\ (let idle := mk_system (set_notify_flags 0 (drv s)) (hw s) in
      exists s2 s3 a1 a2,
        bind (n810bm_notify f1) (fun _ => n810bm_notify f2) idle
          = Returned tt s2
        /\ n810bm_notify_work s2 = Returned tt s3
        /\ trace (hw s3) =
           trace (hw s2) ++ [EvSysfsNotify a1; EvSysfsNotify a2]
        /\ a1 <> a2
        /\ notify_flags (drv s3) = 0)
  /\ (exists s',
        bind (xchg_notify_flags 0)
          (fun seen =>
             bind (n810bm_notify f1) (fun _ => notify_work_emit seen)) s
        = Returned tt s'
        /\ Z.testbit (notify_flags (drv s')) f1 = true
        /\ In (EvSchedule notify_work) (trace (hw s'))).
Proof.
  intros H1 H2 Hne. conjs.
  - eexists. split; [apply notify_work_run|]. cbn [drv hw].
    set (w := notify_flags (drv s)).
    assert (Hp : pending_attrs w =
                 (if Z.testbit w 0 then ["charger_present"%string] else [])
                 ++ (if Z.testbit w 1 then ["charger_state"%string] else [])
                 ++ (if Z.testbit w 2 then ["charger_pwm"%string] else [])).
    { unfold pending_attrs, notify_attrs.
      unfold N810BM_NOTIFY_charger_present, N810BM_NOTIFY_charger_state,
        N810BM_NOTIFY_charger_pwm.
      cbn -[Z.testbit].
      destruct (Z.testbit w 0), (Z.testbit w 1), (Z.testbit w 2);
        reflexivity. }
    unfold N810BM_NOTIFY_charger_present, N810BM_NOTIFY_charger_state,
      N810BM_NOTIFY_charger_pwm.
    conjs.
    + reflexivity.
    + reflexivity.
    + rewrite Hp.
      destruct (Z.testbit w 0), (Z.testbit w 1), (Z.testbit w 2);
        cbn -[Z.testbit];
        repeat (apply List.NoDup_cons; [cbn; intuition discriminate|]);
        apply List.NoDup_nil.
    + rewrite Hp.
      destruct (Z.testbit w 0), (Z.testbit w 1), (Z.testbit w 2);
        cbn -[Z.testbit]; intuition discriminate.
    + rewrite Hp.
      destruct (Z.testbit w 0), (Z.testbit w 1), (Z.testbit w 2);
        cbn -[Z.testbit]; intuition discriminate.
    + rewrite Hp.
      destruct (Z.testbit w 0), (Z.testbit w 1), (Z.testbit w 2);
        cbn -[Z.testbit]; intuition discriminate.
    + eexists. split; [apply notify_work_run|]. cbn.
      split; [|reflexivity]. apply app_nil_r.
  - reflexivity.
  - cbn zeta. rewrite !notify_run || (unfold bind; rewrite !notify_run).
    unfold notify_attrs in H1, H2. cbn in H1, H2.
    unfold N810BM_NOTIFY_charger_present, N810BM_NOTIFY_charger_state,
      N810BM_NOTIFY_charger_pwm in *.
    destruct H1 as [<-|[<-|[<-|[]]]], H2 as [<-|[<-|[<-|[]]]];
      try congruence;
      (eexists; eexists; eexists; eexists;
       split; [reflexivity|];
       split; [apply notify_work_run|];
       cbn; split; [reflexivity|]; split; [discriminate|reflexivity]).
  - unfold notify_attrs in H1. cbn in H1.
    unfold xchg_notify_flags, n810bm_notify, notify_work_emit, do_notify.
    unfold N810BM_NOTIFY_charger_present, N810BM_NOTIFY_charger_state,
      N810BM_NOTIFY_charger_pwm in *.
    run. rewrite !c_true_land_bit by lia.
    destruct (Z.testbit (notify_flags (drv s)) 0),
      (Z.testbit (notify_flags (drv s)) 1),
      (Z.testbit (notify_flags (drv s)) 2);
      destruct H1 as [<-|[<-|[<-|[]]]];
      eexists; (split; [reflexivity|]); fields;
      (split; [reflexivity|]);
      rewrite ?in_app_iff; cbn [In]; tauto.
Qed.

(** *** The current-measurement enable count *)

Lemma land_u16_set w m :
  0 < m < 2 ^ 16 -> Z.land (u16 (Z.lor (Z.land w (Z.lnot m)) m)) m = m.
Proof.
  intros Hm. unfold u16. rewrite <- Z.land_ones by lia.
  rewrite <- Z.land_assoc.
  assert (Z.land (Z.ones 16) m = m) as ->.
  { rewrite Z.land_comm, Z.land_ones by lia. apply Z.mod_small. lia. }
  apply Z.bits_inj'. intros n Hn.
  rewrite Z.land_spec, Z.lor_spec.
  destruct (Z.testbit m n);
    [rewrite orb_true_r; reflexivity | apply andb_false_r].
Qed.

Lemma land_u16_clear w m :
  Z.land (u16 (Z.lor (Z.land w (Z.lnot m)) 0)) m = 0.
Proof.
  unfold u16. rewrite <- Z.land_ones by lia.
  apply Z.bits_inj'. intros n Hn.
  rewrite !Z.land_spec, Z.lor_spec, Z.land_spec, Z.lnot_spec, Z.bits_0 by lia.
  destruct (Z.testbit m n), (Z.testbit w n), (Z.testbit (Z.ones 16) n);
    reflexivity.
Qed.

(** Closes the cases of the two step lemmas below. *)
Ltac refcount_cases :=
  (split; [reflexivity|]); conjs; fields;
  try reflexivity; try lia;
  try (flat_trace; reflexivity); try (now rewrite app_nil_r);
  intros; fields; rewrite ?land_u16_clear;
  repeat match goal with H : _ <-> _ |- _ => destruct H end;
  try split; intros;
  first
    [ lia | assumption | (apply land_u16_set; assumption)
    | match goal with H : _ -> ?G |- ?G => apply H; lia end
    | match goal with H : ?P -> _, HP : ?P |- _ => apply H in HP; lia end ].

Lemma enable_current_measure_step s :
  let rc := current_measure_enabled (drv s) in
  0 < TAHVO_REG_CHGCTL_CURMEAS < 2 ^ 16 ->
  INT_MIN < rc < INT_MAX ->
  exists s' delta,
    n810bm_enable_current_measure s = Returned tt s'
    /\ current_measure_enabled (drv s') = rc + 1
    /\ trace (hw s') = trace (hw s) ++ delta
    /\ tahvo_writes delta =
       (if rc =? 0
        then [EvTahvoSetClear TAHVO_REG_CHGCTL TAHVO_REG_CHGCTL_CURMEAS
                TAHVO_REG_CHGCTL_CURMEAS]
        else [])
    /\ (rc = 0 -> curmeas_on (hw s'))
    /\ (refcount_inv s -> refcount_inv s').
Proof.
  intros rc Hm Hrc.
  assert (s32 (rc + 1) = rc + 1) as Hs.
  { apply s32_small. unfold is_int, INT_MIN, INT_MAX in *. lia. }
  unfold n810bm_enable_current_measure, tahvo_set,
    tahvo_set_clear_reg_bits, refcount_inv, curmeas_on.
  run. unfold c_true. rewrite negb_involutive.
  destruct s as [b w]; cbn [drv hw] in *. subst rc.
  destruct (Z.ltb_spec (current_measure_enabled b) 0) as [Hneg|Hpos],
    (Z.eqb_spec (current_measure_enabled b) 0) as [Hz|Hnz];
    try lia;
    cbn -[Z.add Z.sub Z.lor Z.land Z.lnot u16 s32 Z.pow]; rewrite Hs.
  - eexists. exists [EvLog KERN_ERR "WARNING"]. refcount_cases.
  - eexists. eexists. refcount_cases.
  - eexists. exists []. refcount_cases.
Qed.

Lemma disable_current_measure_step s :
  let rc := current_measure_enabled (drv s) in
  0 < TAHVO_REG_CHGCTL_CURMEAS < 2 ^ 16 ->
  INT_MIN < rc < INT_MAX ->
  exists s' delta,
    n810bm_disable_current_measure s = Returned tt s'
    /\ current_measure_enabled (drv s') = rc - 1
    /\ trace (hw s') = trace (hw s) ++ delta
    /\ tahvo_writes delta =
       (if rc =? 1
        then [EvTahvoSetClear TAHVO_REG_CHGCTL 0 TAHVO_REG_CHGCTL_CURMEAS]
        else [])
    /\ (rc = 1 -> ~ curmeas_on (hw s'))
    /\ (1 < rc -> curmeas_on (hw s) -> curmeas_on (hw s'))
    /\ (refcount_inv s -> refcount_inv s').
Proof.
  intros rc Hm Hrc.
  assert (s32 (rc - 1) = rc - 1) as Hs.
  { apply s32_small. unfold is_int, INT_MIN, INT_MAX in *. lia. }
  unfold n810bm_disable_current_measure, tahvo_clear,
    tahvo_set_clear_reg_bits, refcount_inv, curmeas_on.
  run. unfold c_true. rewrite negb_involutive.
  destruct s as [b w]; cbn [drv hw] in *.
  cbn -[Z.add Z.sub Z.lor Z.land Z.lnot u16 s32 Z.pow Z.ltb Z.eqb].
  subst rc. rewrite Hs.
  destruct (Z.ltb_spec (current_measure_enabled b - 1) 0) as [Hneg|Hpos],
    (Z.eqb_spec (current_measure_enabled b - 1) 0) as [Hz|Hnz],
    (Z.eqb_spec (current_measure_enabled b) 1) as [H1|H1];
    try lia;
    cbn -[Z.add Z.sub Z.lor Z.land Z.lnot u16 s32 Z.pow].
  - eexists. exists [EvLog KERN_ERR "WARNING"]. refcount_cases.
  - eexists. eexists. refcount_cases.
  - eexists. exists []. refcount_cases.
Qed.

(** C4: enabling and disabling current measurement is strictly reference
    counted.  [n810bm_enable_current_measure] adds one to the count and
    writes the enable bit only when the count was 0;
    [n810bm_disable_current_measure] subtracts one and writes the disable
    only when the count was 1; both keep "the circuitry is powered iff the
    count is positive"; and from a count of 0, enabling twice and disabling
    twice powers the circuitry at the first enable and removes power only
    at the second disable. *)
Theorem current_measure_strictly_refcounted s :
  0 < TAHVO_REG_CHGCTL_CURMEAS < 2 ^ 16 ->
  INT_MIN < current_measure_enabled (drv s) < INT_MAX ->
  let rc := current_measure_enabled (drv s) in
  let set_curmeas :=
    EvTahvoSetClear TAHVO_REG_CHGCTL TAHVO_REG_CHGCTL_CURMEAS
      TAHVO_REG_CHGCTL_CURMEAS in
  let clear_curmeas :=
    EvTahvoSetClear TAHVO_REG_CHGCTL 0 TAHVO_REG_CHGCTL_CURMEAS in
  (exists s' delta,
      n810bm_enable_current_measure s = Returned tt s'
      /\ current_measure_enabled (drv s') = rc + 1
      /\ trace (hw s') = trace (hw s) ++ delta
      /\ tahvo_writes delta = (if rc =? 0 then [set_curmeas] else [])
      /\ (refcount_inv s -> refcount_inv s'))
  /\ (exists s' delta,
      n810bm_disable_current_measure s = Returned tt s'
      /\ current_measure_enabled (drv s') = rc - 1
      /\ trace (hw s') = trace (hw s) ++ delta
      /\ tahvo_writes delta = (if rc =? 1 then [clear_curmeas] else [])
      /\ (refcount_inv s -> refcount_inv s'))
  /\ (let unused := mk_system (set_current_measure_enabled 0 (drv s)) (hw s) in
      exists s1 s2 s3 s4 d1 d2 d3 d4,
        n810bm_enable_current_measure unused = Returned tt s1
        /\ n810bm_enable_current_measure s1 = Returned tt s2
        /\ n810bm_disable_current_measure s2 = Returned tt s3
        /\ n810bm_disable_current_measure s3 = Returned tt s4
        /\ trace (hw s1) = trace (hw unused) ++ d1
        /\ trace (hw s2) = trace (hw s1) ++ d2
        /\ trace (hw s3) = trace (hw s2) ++ d3
        /\ trace (hw s4) = trace (hw s3) ++ d4
        /\ tahvo_writes d1 = [set_curmeas]
        /\ tahvo_writes d2 = []
        /\ tahvo_writes d3 = []
        /\ tahvo_writes d4 = [clear_curmeas]
        /\ curmeas_on (hw s1)
        /\ curmeas_on (hw s2)
        /\ curmeas_on (hw s3)
        /\ ~ curmeas_on (hw s4)
        /\ current_measure_enabled (drv s4) = 0).
Proof.
  intros Hm Hrc rc set_curmeas clear_curmeas. conjs.
  - destruct (enable_current_measure_step s Hm Hrc)
      as (s' & d & H1 & H2 & H3 & H4 & _ & H6).
    exists s', d. auto.
  - destruct (disable_current_measure_step s Hm Hrc)
      as (s' & d & H1 & H2 & H3 & H4 & _ & _ & H7).
    exists s', d. auto.
  - intros unused.
    assert (forall x, x = 0 \/ x = 1 \/ x = 2 -> INT_MIN < x < INT_MAX) as Hr.
    { unfold INT_MIN, INT_MAX. lia. }
    destruct (enable_current_measure_step unused Hm)
      as (s1 & d1 & E1 & C1 & T1 & W1 & O1 & _).
    { apply Hr. left. reflexivity. }
    change (current_measure_enabled (drv unused)) with 0 in *.
    destruct (enable_current_measure_step s1 Hm)
      as (s2 & d2 & E2 & C2 & T2 & W2 & _ & I2).
    { apply Hr. rewrite C1. auto. }
    rewrite C1 in *.
    destruct (disable_current_measure_step s2 Hm)
      as (s3 & d3 & E3 & C3 & T3 & W3 & _ & O3 & _).
    { apply Hr. rewrite C2. auto. }
    rewrite C2 in *.
    destruct (disable_current_measure_step s3 Hm)
      as (s4 & d4 & E4 & C4 & T4 & W4 & O4 & _ & _).
    { apply Hr. rewrite C3. auto. }
    rewrite C3 in *.
    specialize (O1 eq_refl).
    assert (curmeas_on (hw s2)) as On2.
    { apply I2; [|lia]. unfold refcount_inv. rewrite C1. split; [lia|auto]. }
    exists s1, s2, s3, s4, d1, d2, d3, d4.
    conjs; auto.
    apply O3; [lia|assumption].
Qed.

(** *** Code that cannot reach the emergency path *)

Lemma calm_no_emergency v t :
  forallb (calm v) t = true -> emergency_calls t = 0%nat.
Proof.
  unfold emergency_calls. induction t as [|e t IH]; [reflexivity|].
  cbn [forallb List.filter]. intros H. apply andb_true_iff in H.
  destruct H as [He Ht]. destruct e; try discriminate He; auto.
Qed.

Lemma quiet_ret {A} v (a : A) : quiet v (ret (L := L) a).
Proof. intros s. exists a, s, []. rewrite app_nil_r. auto. Qed.

Lemma quiet_bind {A B} v (m : M A) (k : A -> M (L := L) B) :
  quiet v m -> (forall a, quiet v (k a)) -> quiet v (bind m k).
Proof.
  intros Hm Hk s. destruct (Hm s) as (a & s1 & t1 & E1 & T1 & C1).
  destruct (Hk a s1) as (b & s2 & t2 & E2 & T2 & C2).
  exists b, s2, (t1 ++ t2). unfold bind. rewrite E1. conjs.
  - assumption.
  - rewrite T2, T1. now rewrite app_assoc.
  - rewrite forallb_app, C1, C2. reflexivity.
Qed.

Lemma quiet_get_bm v : quiet v (get_bm (L := L)).
Proof. intros s. exists (drv s), s, []. rewrite app_nil_r. auto. Qed.

Lemma quiet_get_hw v : quiet v (get_hw (L := L)).
Proof. intros s. exists (hw s), s, []. rewrite app_nil_r. auto. Qed.

Lemma quiet_modify_bm v f : quiet v (modify_bm (L := L) f).
Proof.
  intros s. eexists. eexists. exists []. split; [reflexivity|].
  rewrite app_nil_r. auto.
Qed.

Lemma quiet_modify_hw v f :
  (forall w, trace (f w) = trace w) -> quiet v (modify_hw (L := L) f).
Proof.
  intros Hf s. eexists. eexists. exists []. split; [reflexivity|].
  cbn [hw]. rewrite Hf, app_nil_r. auto.
Qed.

Lemma quiet_emit v e : calm v e = true -> quiet v (emit (L := L) e).
Proof.
  intros He s. eexists. eexists. exists [e]. split; [reflexivity|].
  cbn [hw trace set_trace forallb]. rewrite He. auto.
Qed.

Lemma quiet_when v b (m : M (L := L) unit) :
  quiet v m -> quiet v (when b m).
Proof. intros Hm. destruct b; [assumption|apply quiet_ret]. Qed.

Create HintDb quiet.
#[local] Hint Resolve quiet_ret quiet_bind quiet_get_bm quiet_get_hw
  quiet_modify_bm quiet_when : quiet.
#[local] Hint Extern 1 (quiet _ (emit _)) =>
  apply quiet_emit; (reflexivity || assumption) : quiet.
#[local] Hint Extern 1 (quiet _ (modify_hw _)) =>
  apply quiet_modify_hw; intros w; destruct w; reflexivity : quiet.
#[local] Hint Extern 3 (quiet _ (if ?c then _ else _)) => destruct c : quiet.
#[local] Hint Extern 3 (quiet _ (match ?x with _ => _ end)) =>
  destruct x : quiet.
#[local] Hint Unfold dev_err dev_info dev_dbg WARN_ON mutex_lock mutex_unlock
  schedule_work schedule_delayed_work : quiet.

Ltac quiet_auto := autounfold with quiet; auto 50 with quiet.

Lemma quiet_tahvo_write v reg x : quiet v (tahvo_write (L := L) reg x).
Proof.
  unfold tahvo_write. apply quiet_bind; [|intros; quiet_auto].
  apply quiet_modify_hw. intros w. destruct w, reg; reflexivity.
Qed.

Lemma quiet_tahvo_set_clear v reg set clear :
  quiet v (tahvo_set_clear_reg_bits (L := L) reg set clear).
Proof.
  unfold tahvo_set_clear_reg_bits. apply quiet_bind; [|intros; quiet_auto].
  apply quiet_modify_hw. intros w. destruct w, reg; reflexivity.
Qed.
#[local] Hint Resolve quiet_tahvo_write quiet_tahvo_set_clear : quiet.
#[local] Hint Unfold tahvo_maskset tahvo_set tahvo_clear tahvo_enable_irq
  tahvo_disable_irq retu_read_status : quiet.

Lemma quiet_retu_read_adc v chan :
  calm v (EvAdcRead chan) = true -> quiet v (retu_read_adc (L := L) chan).
Proof. intros Hc. unfold retu_read_adc. quiet_auto. Qed.
#[local] Hint Resolve quiet_retu_read_adc : quiet.

Lemma quiet_retu_adc_average_loop v chan n :
  calm v (EvAdcRead chan) = true ->
  forall value, quiet v (retu_adc_average_loop (L := L) chan n value).
Proof. intros Hc. induction n; intros value; cbn; quiet_auto. Qed.
#[local] Hint Resolve quiet_retu_adc_average_loop : quiet.

Lemma quiet_retu_adc_average v chan n :
  calm v (EvAdcRead chan) = true ->
  quiet v (retu_adc_average (L := L) chan n).
Proof. intros Hc. unfold retu_adc_average. quiet_auto. Qed.

(** Measuring the battery voltage converts on its channel. *)
Lemma quiet_measure_batt_voltage :
  quiet true (n810bm_measure_batt_voltage (L := L)).
Proof.
  unfold n810bm_measure_batt_voltage.
  pose proof (quiet_retu_adc_average true RETU_ADC_BATTVOLT 5 eq_refl).
  quiet_auto.
Qed.

(** Everything else in a cycle leaves that channel alone. *)
Lemma quiet_read_batt_capacity :
  quiet false (n810bm_read_batt_capacity (L := L)).
Proof.
  unfold n810bm_read_batt_capacity.
  pose proof (quiet_retu_adc_average false RETU_ADC_BSI 5 eq_refl).
  quiet_auto.
Qed.

Lemma quiet_notify v flag : quiet v (n810bm_notify (L := L) flag).
Proof. unfold n810bm_notify. quiet_auto. Qed.
#[local] Hint Resolve quiet_read_batt_capacity quiet_notify : quiet.
#[local] Hint Unfold n810bm_notify_charger_present n810bm_notify_charger_state
  n810bm_notify_charger_pwm : quiet.

Lemma quiet_set_current_measure_timer v ms :
  quiet v (n810bm_set_current_measure_timer (L := L) ms).
Proof. unfold n810bm_set_current_measure_timer. quiet_auto. Qed.

Lemma quiet_enable_current_measure v :
  quiet v (n810bm_enable_current_measure (L := L)).
Proof. unfold n810bm_enable_current_measure. quiet_auto. Qed.

Lemma quiet_disable_current_measure v :
  quiet v (n810bm_disable_current_measure (L := L)).
Proof. unfold n810bm_disable_current_measure. quiet_auto. Qed.
#[local] Hint Resolve quiet_set_current_measure_timer
  quiet_enable_current_measure quiet_disable_current_measure : quiet.

Lemma quiet_start_charge v : quiet v (n810bm_start_charge (L := L)).
Proof. unfold n810bm_start_charge. quiet_auto. Qed.

Lemma quiet_stop_charge v : quiet v (n810bm_stop_charge (L := L)).
Proof. unfold n810bm_stop_charge. quiet_auto. Qed.
#[local] Hint Resolve quiet_start_charge quiet_stop_charge : quiet.

Lemma quiet_periodic_check_presence :
  quiet false (periodic_check_presence (L := L)).
Proof. unfold periodic_check_presence. quiet_auto. Qed.

Lemma quiet_periodic_check_charge :
  quiet false (periodic_check_charge (L := L)).
Proof. unfold periodic_check_charge. quiet_auto. Qed.

(** *** Averaged ADC readings and the capacity class *)

Lemma retu_read_adc_run chan s :
  retu_read_adc chan s =
  Returned (adc_sample (hw s) chan 0)
    (mk_system (drv s)
       (set_trace (trace (hw s) ++ [EvAdcRead chan])
          (set_adc_reads (S (adc_reads (hw s))) (hw s)))).
Proof.
  unfold retu_read_adc, adc_sample. run.
  rewrite Nat.add_0_r. destruct s as [b w], w. reflexivity.
Qed.

(** The loop reads the next conversions in order and folds them. *)
Lemma retu_adc_average_loop_fold chan n :
  forall value s, exists s',
    retu_adc_average_loop chan n value s =
    Returned (average_fold (map (adc_sample (hw s) chan) (seq 0 n)) value) s'.
Proof.
  induction n as [|n IH]; intros value s.
  - exists s. reflexivity.
  - cbn [retu_adc_average_loop seq map average_fold]. unfold bind.
    rewrite retu_read_adc_run.
    destruct (adc_sample (hw s) chan 0 <? 0).
    + eexists. reflexivity.
    + match goal with
      | |- context [retu_adc_average_loop chan n ?v ?s1] =>
          destruct (IH v s1) as (s' & E)
      end.
      exists s'. rewrite E. f_equal. f_equal.
      rewrite <- seq_shift, map_map. apply map_ext. intros k.
      unfold adc_sample. cbn. do 2 f_equal. lia.
Qed.

Lemma retu_adc_average_5 chan s :
  let x := adc_sample (hw s) chan in
  exists s',
    retu_adc_average chan 5 s =
    Returned
      (match average_fold [x 0%nat; x 1%nat; x 2%nat; x 3%nat; x 4%nat] 0 with
       | inl e => e
       | inr value => s32 (u32 (value / 5))
       end) s'.
Proof.
  intros x. unfold retu_adc_average. cbn [Z.eqb]. unfold bind.
  destruct (retu_adc_average_loop_fold chan 5 0 s) as (s' & E).
  change (Z.to_nat 5) with 5%nat. rewrite E.
  exists s'. cbn [seq map]. fold x.
  destruct (average_fold _ 0); reflexivity.
Qed.

Lemma average_fold_all_ok a b c d e :
  0 <= a -> 0 <= b -> 0 <= c -> 0 <= d -> 0 <= e ->
  average_fold [a; b; c; d; e] 0 = inr (u32 (a + b + c + d + e)).
Proof.
  intros Ha Hb Hc Hd He. cbn [average_fold].
  repeat match goal with
         | |- context [?v <? 0] =>
             destruct (Z.ltb_spec v 0); [lia|]
         end.
  assert (forall p q, u32 (u32 p + q) = u32 (p + q)) as Hadd.
  { intros p q. unfold u32. apply Zplus_mod_idemp_l. }
  rewrite (Hadd (0 + a) b), (Hadd (0 + a + b) c), (Hadd (0 + a + b + c) d),
    (Hadd (0 + a + b + c + d) e).
  reflexivity.
Qed.

Lemma average_fold_failure a b c d e :
  a < 0 \/ b < 0 \/ c < 0 \/ d < 0 \/ e < 0 ->
  exists r, average_fold [a; b; c; d; e] 0 = inl r /\ r < 0.
Proof.
  intros H. cbn [average_fold].
  repeat match goal with
         | |- context [?v <? 0] =>
             destruct (Z.ltb_spec v 0); [eexists; split; [reflexivity|lia]|]
         end.
  lia.
Qed.

(** C7: the capacity reader takes the average of five BSI conversions and
    answers 1500 mAh exactly when that average lies in
    [0x3B5 - 20, 0x3B5 + 20]; otherwise, and when a conversion failed, it
    answers Unknown.  With five successful conversions the average is
    their sum (as an [unsigned int]) divided by five. *)
Theorem n810bm_read_batt_capacity_band s :
  let x := adc_sample (hw s) RETU_ADC_BSI in
  exists avg s1 s',
    retu_adc_average RETU_ADC_BSI 5 s = Returned avg s1
    /\ n810bm_read_batt_capacity s =
       Returned (if bsi_in_band avg then N810BM_CAP_1500MAH
                 else N810BM_CAP_UNKNOWN) s'
    /\ ((forall k, (k < 5)%nat -> 0 <= x k) ->
        avg = u32 (x 0%nat + x 1%nat + x 2%nat + x 3%nat + x 4%nat) / 5)
    /\ ((exists k, (k < 5)%nat /\ x k < 0) ->
        avg < 0 /\ bsi_in_band avg = false).
Proof.
  intros x.
  destruct (retu_adc_average_5 RETU_ADC_BSI s) as (s1 & E). fold x in E.
  set (avg := match average_fold _ 0 with inl e => e | inr v => _ end) in E.
  assert (is_int avg) as Hint_avg.
  { subst avg. destruct (average_fold _ 0) as [e|v] eqn:Ef.
    - cbn [average_fold] in Ef.
      repeat match type of Ef with
             | context [?v <? 0] => destruct (v <? 0)
             end; inversion Ef; subst; apply s32_is_int.
    - apply s32_is_int. }
  exists avg, s1.
  assert (exists s', n810bm_read_batt_capacity s =
            Returned (if bsi_in_band avg then N810BM_CAP_1500MAH
                      else N810BM_CAP_UNKNOWN) s') as (s' & E').
  { unfold n810bm_read_batt_capacity, bind. rewrite E.
    unfold bsi_in_band.
    destruct (Z.ltb_spec avg 0) as [Hneg|Hpos].
    - eexists.
      replace (0x3B5 - 20 <=? avg) with false by (symmetry; apply Z.leb_gt; lia).
      reflexivity.
    - rewrite (u32_small avg)
        by (unfold is_int, INT_MIN, INT_MAX in Hint_avg; lia).
      rewrite !u32_small by lia. rewrite Z.geb_leb.
      destruct ((0x3B5 - 20 <=? avg) && (avg <=? 0x3B5 + 20));
        eexists; reflexivity. }
  exists s'. conjs; try assumption.
  - intros Hok. subst avg.
    rewrite average_fold_all_ok by (apply Hok; lia).
    pose proof (u32_range (x 0%nat + x 1%nat + x 2%nat + x 3%nat + x 4%nat)).
    set (sum := u32 _) in *.
    assert (0 <= sum / 5 < 2 ^ 31).
    { split; [apply Z.div_pos; lia|apply Z.div_lt_upper_bound; lia]. }
    rewrite u32_small by lia. apply s32_small.
    unfold is_int, INT_MIN, INT_MAX. lia.
  - intros (k & Hk & Hneg).
    assert (avg < 0) as Hlt.
    { subst avg.
      destruct (average_fold_failure (x 0%nat) (x 1%nat) (x 2%nat) (x 3%nat)
                  (x 4%nat)) as (r & -> & Hr); [|assumption].
      destruct k as [|[|[|[|[|k]]]]]; try lia; auto. }
    split; [assumption|].
    unfold bsi_in_band. apply andb_false_iff. left. apply Z.leb_gt. lia.
Qed.

(** *** The periodic check *)

(** A cycle of the periodic check, relative to what the presence step and
    the measurement return: the measurement is taken exactly when the
    device is draining, and the cycle ends in the emergency path (one call
    of [cbus_emergency()], nothing after it) exactly when the measured
    value is below 3200. *)
Lemma periodic_check_drain_cases s :
  exists s1 t1,
    periodic_check_presence s = Returned tt s1
    /\ trace (hw s1) = trace (hw s) ++ t1
    /\ forallb (calm false) t1 = true
    /\ if draining (drv s1) then
         exists mv s2 t2,
           n810bm_measure_batt_voltage s1 = Returned mv s2
           /\ trace (hw s2) = trace (hw s1) ++ t2
           /\ forallb (calm true) t2 = true
           /\ if mv <? N810BM_MIN_VOLTAGE_THRES then
                exists s',
                  n810bm_periodic_check_work s = Halted s'
                  /\ drv s' = drv s2
                  /\ trace (hw s') =
                     trace (hw s2)
                     ++ [EvLog KERN_EMERG
                           ("n810 battery management fatal fault: " +:+
                            (if mv <? 0
                             then "check: Failed to measure voltage"
                             else "check: Minimum voltage threshold reached"));
                         EvCbusEmergency]
                  /\ emergency_calls (trace (hw s')) =
                     S (emergency_calls (trace (hw s)))
              else
                exists s' t3,
                  n810bm_periodic_check_work s = Returned tt s'
                  /\ trace (hw s') = trace (hw s2) ++ t3
                  /\ forallb (calm false) t3 = true
                  /\ emergency_calls (trace (hw s')) =
                     emergency_calls (trace (hw s))
       else
         periodic_check_drain s1 = Returned tt s1
         /\ exists s' t3,
             n810bm_periodic_check_work s = Returned tt s'
             /\ trace (hw s') = trace (hw s1) ++ t3
             /\ forallb (calm false) t3 = true
             /\ emergency_calls (trace (hw s')) =
                emergency_calls (trace (hw s)).
Proof.
  destruct (quiet_periodic_check_presence s) as ([] & s1 & t1 & E1 & T1 & C1).
  exists s1, t1. conjs; try assumption.
  assert (emergency_calls (trace (hw s1)) = emergency_calls (trace (hw s)))
    as N1.
  { rewrite T1, emergency_calls_app, (calm_no_emergency _ _ C1). lia. }
  set (rest := bind (L := L) periodic_check_charge
                 (fun _ => bind mutex_unlock
                    (fun _ => schedule_delayed_work periodic_check_work))).
  assert (forall s2,
            emergency_calls (trace (hw s2)) = emergency_calls (trace (hw s)) ->
            exists s' t3,
              rest s2 = Returned tt s'
              /\ trace (hw s') = trace (hw s2) ++ t3
              /\ forallb (calm false) t3 = true
              /\ emergency_calls (trace (hw s')) =
                 emergency_calls (trace (hw s))) as Hrest.
  { intros s2 N2.
    assert (quiet false rest) as Hq.
    { pose proof quiet_periodic_check_charge. subst rest. quiet_auto. }
    destruct (Hq s2) as ([] & s' & t3 & E & T & C). exists s', t3.
    conjs; try assumption.
    rewrite T, emergency_calls_app, (calm_no_emergency _ _ C). lia. }
  assert (n810bm_periodic_check_work s =
          match periodic_check_drain s1 with
          | Returned _ s2 => rest s2
          | Halted s' => Halted s'
          end) as Hwork.
  { change (n810bm_periodic_check_work s)
      with (match periodic_check_presence s with
            | Returned _ s1 => bind periodic_check_drain (fun _ => rest) s1
            | Halted s' => Halted s'
            end).
    now rewrite E1. }
  assert (forall mv s2,
            draining (drv s1) = true ->
            n810bm_measure_batt_voltage s1 = Returned mv s2 ->
            periodic_check_drain s1 =
            if mv <? 3200 then
              Halted (mk_system (drv s2)
                (set_trace
                   (trace (hw s2)
                    ++ [EvLog KERN_EMERG
                          ("n810 battery management fatal fault: " +:+
                           (if mv <? 0
                            then "check: Failed to measure voltage"
                            else "check: Minimum voltage threshold reached"));
                        EvCbusEmergency]) (hw s2)))
            else Returned tt s2) as Hdrain.
  { intros mv s2 D E2. unfold periodic_check_drain, bind, get_bm, when.
    rewrite D, E2. unfold N810BM_MIN_VOLTAGE_THRES, ret.
    destruct (Z.ltb_spec mv 0) as [Hneg|Hpos].
    - replace (mv <? 3200) with true by (symmetry; apply Z.ltb_lt; lia).
      reflexivity.
    - destruct (mv <? 3200); reflexivity. }
  destruct (draining (drv s1)) eqn:D.
  - destruct (quiet_measure_batt_voltage s1)
      as (mv & s2 & t2 & E2 & T2 & C2).
    assert (emergency_calls (trace (hw s2)) = emergency_calls (trace (hw s)))
      as N2.
    { rewrite T2, emergency_calls_app, (calm_no_emergency _ _ C2). lia. }
    exists mv, s2, t2. conjs; try assumption.
    rewrite Hwork, (Hdrain mv s2 eq_refl E2).
    unfold N810BM_MIN_VOLTAGE_THRES.
    destruct (mv <? 3200).
    + eexists. split; [reflexivity|]. cbn [drv hw trace set_trace].
      split; [reflexivity|]. split; [reflexivity|].
      rewrite emergency_calls_app, N2. cbn. lia.
    + apply Hrest. assumption.
  - assert (periodic_check_drain s1 = Returned tt s1) as Hd.
    { unfold periodic_check_drain, bind, get_bm, when. now rewrite D. }
    split; [assumption|]. rewrite Hwork, Hd. apply Hrest. assumption.
Qed.

(** *** Starting and stopping the charge *)

(** Unfolds charge control down to the monad. *)
Ltac unfold_charge :=
  unfold n810bm_start_charge, n810bm_stop_charge,
    n810bm_enable_current_measure, n810bm_disable_current_measure,
    n810bm_set_current_measure_timer, n810bm_notify_charger_state,
    n810bm_notify_charger_pwm, n810bm_notify, tahvo_write, tahvo_maskset,
    tahvo_set, tahvo_clear, tahvo_set_clear_reg_bits, tahvo_enable_irq,
    tahvo_disable_irq;
  run.

Lemma start_charge_effect s :
  exists s',
    n810bm_start_charge s = Returned tt s'
    /\ active_current_pwm (drv s') = 0
    /\ current_measure_enabled (drv s') =
       s32 (current_measure_enabled (drv s) + 1)
    /\ charger (drv s') =
       snd (lipocharge_start
              (lipocharge_set_capacity (capacity (drv s)) (charger (drv s))))
    /\ battery_present (drv s') = battery_present (drv s)
    /\ charger_present (drv s') = charger_present (drv s)
    /\ capacity (drv s') = capacity (drv s).
Proof.
  unfold_charge. destruct s as [b w]; cbn [drv hw].
  destruct b; fields. unfold c_true.
  destruct (lipocharge_start (lipocharge_set_capacity _ _)) as [err c] eqn:Est.
  repeat first
    [ progress fields
    | rewrite Est
    | match goal with
      | |- context [if ?c then _ else _] => destruct c
      end ];
    eexists; (split; [reflexivity|]); fields; conjs; reflexivity.
Qed.

Lemma stop_charge_effect s :
  exists s',
    n810bm_stop_charge s = Returned tt s'
    /\ active_current_pwm (drv s') = 0
    /\ current_measure_enabled (drv s') =
       (if lipocharge_is_charging (charger (drv s))
        then s32 (current_measure_enabled (drv s) - 1)
        else current_measure_enabled (drv s))
    /\ charger (drv s') = lipocharge_stop (charger (drv s))
    /\ battery_present (drv s') = battery_present (drv s)
    /\ charger_present (drv s') = charger_present (drv s)
    /\ capacity (drv s') = capacity (drv s).
Proof.
  unfold_charge. destruct s as [b w]; cbn [drv hw].
  destruct b; fields. unfold c_true.
  repeat first
    [ progress fields
    | match goal with
      | |- context [if ?c then _ else _] => destruct c
      end ];
    eexists; (split; [reflexivity|]); fields; conjs; reflexivity.
Qed.


End Properties.

(** *** The round trip of starting and stopping the charge, with the
    charge algorithm of the specification *)



(** *** The properties above on concrete states *)

Lemma current_measure_strictly_refcounted_witness :
  exists s1,
    n810bm_enable_current_measure (CB := sample_bits)
      (fresh_system 0 (fun _ _ => 0)) = Returned tt s1
    /\ current_measure_enabled (drv s1) = 1.
Proof.
  assert (0 < TAHVO_REG_CHGCTL_CURMEAS (ChipBits := sample_bits) < 2 ^ 16)
    as Hm by (cbn; lia).
  assert (INT_MIN <
          current_measure_enabled (drv (fresh_system 0 (fun _ _ => 0)))
          < INT_MAX) as Hrc by (unfold INT_MIN, INT_MAX; cbn; lia).
  destruct (current_measure_strictly_refcounted (CB := sample_bits)
              (fresh_system 0 (fun _ _ => 0)) Hm Hrc)
    as [(s1 & d & E & C & _) _].
  exists s1. split; [exact E|exact C].
Defined.

Lemma n810bm_notify_work_drains_flags_witness :
  exists s2 s3 a1 a2,
    bind (n810bm_notify 0) (fun _ => n810bm_notify 2)
      (mk_system (set_notify_flags 0 (drv (fresh_system 0 (fun _ _ => 0))))
         (hw (fresh_system 0 (fun _ _ => 0)))) = Returned tt s2
    /\ n810bm_notify_work s2 = Returned tt s3
    /\ trace (hw s3) = trace (hw s2) ++ [EvSysfsNotify a1; EvSysfsNotify a2]
    /\ a1 <> a2
    /\ notify_flags (drv s3) = 0.
Proof.
  assert (In 0 (map snd notify_attrs)) as H1 by (cbn; auto).
  assert (In 2 (map snd notify_attrs)) as H2 by (cbn; auto).
  assert (0 <> 2) as Hne by lia.
  destruct (n810bm_notify_work_drains_flags
              (fresh_system 0 (fun _ _ => 0)) 0 2 H1 H2 Hne)
    as (_ & _ & Hrun & _).
  exact Hrun.
Defined.

Lemma n810bm_read_batt_capacity_band_witness :
  exists s',
    n810bm_read_batt_capacity (fresh_system 0 (fun _ _ => 0x3B5))
    = Returned N810BM_CAP_1500MAH s'.
Proof.
  destruct (n810bm_read_batt_capacity_band
              (fresh_system 0 (fun _ _ => 0x3B5)))
    as (avg & s1 & s' & _ & E & Hok & _).
  assert (avg = 0x3B5) as Havg.
  { rewrite Hok; [reflexivity|].
    intros k Hk. vm_compute. discriminate. }
  exists s'. rewrite E, Havg. reflexivity.
Defined.

(** C9 as stated fails: with the charge algorithm active, the attribute
    does not report not-available. *)
Lemma battery_level_not_available_while_charging_counterexample :
  ~ (forall s : system (L := lipocharge),
       lipocharge_is_charging (charger (drv s)) = true ->
       exists r s',
         n810bm_attr_battery_level_show s = Returned r s'
         /\ fst r = - ENODEV).
Proof.
  intros H.
  destruct (H charging_system) as (r & s' & E & Hr); [reflexivity|].
  vm_compute in E. inversion E; subst. discriminate Hr.
Qed.

(** *** The calibration block parser *)

Section ParserProperties.

Context {L : Type}.

Implicit Types (s : system (L := L)).

Lemma byte_val_range b : 0 <= byte_val b <= 255.
Proof. destruct b; vm_compute; split; discriminate. Qed.

Lemma byte_val_inj a b : byte_val a = byte_val b -> a = b.
Proof.
  unfold byte_val. intros H. apply N2Z.inj in H.
  assert (Byte.of_N (Byte.to_N a) = Byte.of_N (Byte.to_N b)) as E
    by now rewrite H.
  rewrite !Byte.of_to_N in E. now inversion E.
Qed.

(** [memcmp] returns 0 exactly on equal prefixes. *)
Lemma memcmp_0 n : forall a b,
  (n <= length a)%nat -> (n <= length b)%nat ->
  (memcmp a b n = 0 <-> take n a = take n b).
Proof.
  induction n as [|n IH]; intros a b Ha Hb.
  - cbn. rewrite !take_0. tauto.
  - destruct a as [|x a]; [cbn in Ha; lia|].
    destruct b as [|y b]; [cbn in Hb; lia|].
    cbn [memcmp hd tl take]. cbn in Ha, Hb.
    destruct (Z.eqb_spec (byte_val x) (byte_val y)) as [E|E].
    + apply byte_val_inj in E. subst y.
      rewrite IH by lia. split; intros H; [now rewrite H|now inversion H].
    + split; intros H; [lia|]. inversion H. subst. congruence.
Qed.

(** The lookup of a slot never changes the driver state and yields the
    index computed from the id alone. *)
Lemma get_adc_calib_spec adc_id s :
  exists s',
    n810bm_get_adc_calib adc_id s = Returned (calib_index adc_id) s'
    /\ drv s' = drv s.
Proof.
  unfold n810bm_get_adc_calib, calib_index. run.
  destruct (_ >=? Z.of_nat ARRAY_SIZE_adc).
  - exists s. auto.
  - destruct (calib (drv s) !! _) as [cal|].
    + destruct (c_true (id cal) && negb (id cal =? adc_id));
        eexists; split; reflexivity.
    + exists s. auto.
Qed.

Lemma calib_index_bound adc_id index :
  calib_index adc_id = Some index -> (index < ARRAY_SIZE_adc)%nat.
Proof.
  unfold calib_index. set (i := if negb _ then _ else _).
  assert (0 <= i) as Hi.
  { subst i. destruct (negb _); [apply u32_range|lia]. }
  destruct (Z.geb_spec i (Z.of_nat ARRAY_SIZE_adc)) as [Hge|Hlt];
    intros Hsome; inversion Hsome.
  lia.
Qed.

Lemma calib_index_byte adc_id :
  0 <= adc_id <= 255 ->
  calib_index adc_id =
  if adc_id =? 0xFE then Some 0%nat
  else if 25 <=? adc_id + 1 then None
  else Some (Z.to_nat (adc_id + 1)).
Proof.
  intros H. unfold calib_index, N810BM_PMM_ADC_0xFE, ARRAY_SIZE_adc.
  destruct (Z.eqb_spec adc_id 254); cbn [negb].
  - reflexivity.
  - rewrite (u32_small adc_id), u32_small by lia.
    rewrite Z.geb_leb. reflexivity.
Qed.

(** Reading a record leaves the driver state alone. *)
Lemma pmm_record_get_drv pmm_block len group element offset s :
  exists got s',
    pmm_record_get pmm_block len group element offset s = Returned got s'
    /\ drv s' = drv s.
Proof.
  unfold pmm_record_get. run.
  repeat match goal with
         | |- context [if ?c then _ else _] => destruct c
         end; eexists; eexists; split; reflexivity.
Qed.

(** A record of group 1 of a block of the right size with group 1
    active. *)
Lemma pmm_record_get_group1 pmm_block len element s :
  fw_size pmm_block = N810BM_PMM_BLOCK_SIZE ->
  Z.testbit (byte_at pmm_block 16) 1 = true ->
  0 <= element < 32 -> 0 <= len <= 16 ->
  pmm_record_get pmm_block len 1 element 0 s =
  Returned
    (0, take (Z.to_nat len)
          (drop (Z.to_nat (0x200 + element * 0x10)) pmm_block)) s.
Proof.
  intros Hsize Hact He Hl. unfold pmm_record_get. run.
  rewrite Hsize, Z.eqb_refl. cbn [negb].
  unfold N810BM_PMM_BLOCK_SIZE, N810BM_PMM_GROUP_SIZE, N810BM_PMM_ELEM_SIZE.
  change (1 >=? 0x600 / 0x200) with false. cbv beta iota.
  change (0x200 / 0x10) with 32.
  replace (element >=? 32) with false
    by (symmetry; rewrite Z.geb_leb; apply Z.leb_gt; lia).
  change (0 >=? 0x10) with false.
  replace (len >? 0x10) with false
    by (symmetry; rewrite Z.gtb_ltb; apply Z.ltb_ge; lia).
  replace (len + 0 >? 0x10) with false
    by (symmetry; rewrite Z.gtb_ltb; apply Z.ltb_ge; lia).
  cbn [orb]. rewrite c_true_land_bit, Hact by lia. cbn [negb].
  do 4 f_equal. lia.
Qed.

(** Otherwise reading a record of group 1 fails. *)
Lemma pmm_record_get_group1_fails pmm_block len element s :
  (fw_size pmm_block =? N810BM_PMM_BLOCK_SIZE)
  && Z.testbit (byte_at pmm_block 16) 1 = false ->
  exists err s',
    pmm_record_get pmm_block len 1 element 0 s = Returned (err, []) s'
    /\ drv s' = drv s
    /\ (err = - EINVAL \/ err = - ENOENT).
Proof.
  intros H. unfold pmm_record_get. run.
  destruct (fw_size pmm_block =? N810BM_PMM_BLOCK_SIZE); cbn [negb andb] in *.
  - rewrite c_true_land_bit, H by lia. cbn [negb].
    repeat match goal with
           | |- context [if ?c then _ else _] => destruct c
           end; eexists; eexists; (split; [reflexivity|]); auto.
  - eexists. eexists. split; [reflexivity|]. auto.
Qed.

Lemma set_defaults_run s :
  n810bm_adc_calib_set_defaults s =
  Returned tt (mk_system (set_calib default_table (drv s)) (hw s)).
Proof. destruct s as [b w]. vm_compute. reflexivity. Qed.

Lemma byte_at_take_drop (l : list byte) (n k : nat) (i : Z) :
  0 <= i < Z.of_nat n ->
  byte_at (take n (drop k l)) i = byte_at l (Z.of_nat k + i).
Proof.
  intros Hi. unfold byte_at. f_equal.
  rewrite !nth_lookup, lookup_take_lt by lia.
  rewrite lookup_drop. do 2 f_equal. lia.
Qed.

Lemma map_shape_alter f (index : nat) (tbl : n810bm_calib) :
  (forall c, shape (f c) = shape c) ->
  map shape (alter f index tbl) = map shape tbl.
Proof.
  intros Hf. revert index.
  induction tbl as [|c tbl IH]; intros [|index]; cbn; try reflexivity.
  - now rewrite Hf.
  - now rewrite IH.
Qed.

(** What every run of [extract_group1_elem] guarantees, whatever the
    block holds: it returns 0 or [-EINVAL], the table keeps its length,
    the id and flags of every slot, and everything at index 25 and
    beyond. *)
Lemma extract_group1_elem_frame pmm_block m1 m2 ids :
  forall s, exists err s',
    extract_group1_elem pmm_block ids m1 m2 s = Returned err s'
    /\ (err = 0 \/ err = - EINVAL)
    /\ length (calib (drv s')) = length (calib (drv s))
    /\ map shape (calib (drv s')) = map shape (calib (drv s))
    /\ (forall i : nat, (ARRAY_SIZE_adc <= i)%nat ->
          calib (drv s') !! i = calib (drv s) !! i).
Proof.
  induction ids as [|adc_id rest IH]; intros s.
  - exists 0, s. cbn. auto.
  - cbn [extract_group1_elem]. unfold bind at 1.
    destruct (pmm_record_get_drv pmm_block sizeof_group1_element 1
                (u32 (u32 adc_id + 3)) 0 s) as ([err buf] & s1 & E1 & D1).
    rewrite E1. destruct (c_true err).
    + destruct (IH s1) as (e & s' & E & He & Hl & Hs & Hf).
      exists e, s'. rewrite D1 in *. auto.
    + unfold bind at 1.
      destruct (get_adc_calib_spec
                  (elem_id (group1_element_of_bytes buf)) s1)
        as (s2 & E2 & D2).
      rewrite E2.
      destruct (calib_index _) as [index|] eqn:Hidx.
      * apply calib_index_bound in Hidx.
        unfold slot_flags. run. unfold modify_slot. run.
        match goal with
        | |- context [if ?c then _ else _] => destruct c
        end;
          match goal with
          | |- context [extract_group1_elem _ _ _ _ ?s3] =>
              destruct (IH s3) as (e & s' & E & He & Hl & Hs & Hf)
          end;
          exists e, s'; (split; [exact E|]); fields;
          rewrite D2, D1 in *; conjs; try assumption.
        -- now rewrite Hl, length_alter.
        -- rewrite Hs. apply map_shape_alter. reflexivity.
        -- intros i Hi. rewrite Hf by assumption.
           apply list_lookup_alter_ne. lia.
      * run. eexists. eexists. split; [reflexivity|]. fields.
        rewrite D2, D1. auto.
Qed.

(** With the right size and group 1 active, extraction fails exactly when
    one of the records read carries an id byte without a slot. *)
Lemma extract_group1_elem_result pmm_block m1 m2 ids :
  fw_size pmm_block = N810BM_PMM_BLOCK_SIZE ->
  Z.testbit (byte_at pmm_block 16) 1 = true ->
  Forall (fun adc_id => 0 <= adc_id <= 28) ids ->
  forall s, exists s',
    extract_group1_elem pmm_block ids m1 m2 s =
    Returned (if forallb (record_id_mappable pmm_block) ids then 0
              else - EINVAL) s'.
Proof.
  intros Hsize Hact Hids.
  induction Hids as [|adc_id rest Hid Hrest IH]; intros s.
  - exists s. reflexivity.
  - cbn [extract_group1_elem forallb]. unfold bind at 1.
    rewrite (u32_small adc_id), (u32_small (adc_id + 3)) by lia.
    rewrite pmm_record_get_group1
      by (assumption || (unfold sizeof_group1_element; lia)).
    cbn [c_true Z.eqb negb]. unfold bind at 1.
    match goal with
    | |- context [n810bm_get_adc_calib ?i s] =>
        destruct (get_adc_calib_spec i s) as (s2 & E2 & D2);
        rewrite E2;
        assert (i = byte_at pmm_block (0x200 + (adc_id + 3) * 0x10)) as ->
    end.
    { cbn [elem_id group1_element_of_bytes].
      unfold sizeof_group1_element.
      rewrite byte_at_take_drop by lia. f_equal. lia. }
    unfold record_id_mappable at 1. clear E2.
    destruct (calib_index (byte_at pmm_block (0x200 + (adc_id + 3) * 0x10)))
      as [index|].
    + unfold slot_flags, modify_slot. run.
      match goal with
      | |- context [if ?c then _ else _] => destruct c
      end; cbn [andb]; apply IH.
    + run. eexists. reflexivity.
Qed.

Lemma value_check_count c n :
  calib_value_check c = Some n ->
  n = if existsb (Z.eqb (id c)) required_ids then 1 else 0.
Proof.
  unfold calib_value_check, required_ids.
  unfold N810BM_PMM_ADC_BATVOLT, N810BM_PMM_ADC_BSI, N810BM_PMM_ADC_BATCURR,
    N810BM_PMM_ADC_0xFE, N810BM_PMM_ADC_CHGVOLT, N810BM_PMM_ADC_BATTEMP,
    N810BM_PMM_ADC_BKUPVOLT.
  cbn [existsb].
  destruct (id c =? 1), (id c =? 4), (id c =? 14), (id c =? 254),
    (id c =? 2), (id c =? 5), (id c =? 19); cbn [orb];
    repeat match goal with
           | |- context [if ?b then _ else _] => destruct b
           end;
    intros H; inversion H; reflexivity.
Qed.

(** The sanity loop fails exactly when a slot is out of bounds; otherwise
    it counts the populated required channels. *)
Lemma calib_sanity_loop_spec slots :
  forall count s,
    0 <= count < 2 ^ 32 ->
    exists s',
      calib_sanity_loop slots count s =
      Returned
        (if forallb slot_ok slots then
           inr (u32 (count +
                     Z.of_nat (length (List.filter required_populated
                                         (map shape slots)))))
         else inl tt) s'
      /\ drv s' = drv s.
Proof.
  induction slots as [|c rest IH]; intros count s Hc.
  - exists s. cbn. rewrite Z.add_0_r, u32_small by assumption. auto.
  - cbn [calib_sanity_loop forallb map List.filter].
    unfold slot_ok at 1, required_populated at 1. cbn [shape fst snd].
    destruct (flags c =? 0xFF); cbn [orb negb andb].
    + apply IH. assumption.
    + destruct (calib_value_check c) as [n|] eqn:Hv.
      * apply value_check_count in Hv. run.
        match goal with
        | |- context [calib_sanity_loop rest ?cnt ?s1] =>
            destruct (IH cnt s1) as (s' & E & D);
            [apply u32_range|]
        end.
        exists s'. split; [|exact D]. rewrite E.
        destruct (forallb slot_ok rest); [|reflexivity].
        f_equal. f_equal. unfold u32. rewrite Zplus_mod_idemp_l.
        f_equal. subst n.
        destruct (existsb _ required_ids); cbn [length]; lia.
      * exists s. auto.
Qed.

Lemma extract_group1_elem_spec pmm_block m1 m2 ids s :
  fw_size pmm_block = N810BM_PMM_BLOCK_SIZE ->
  Z.testbit (byte_at pmm_block 16) 1 = true ->
  Forall (fun adc_id => 0 <= adc_id <= 28) ids ->
  exists s',
    extract_group1_elem pmm_block ids m1 m2 s =
    Returned (if forallb (record_id_mappable pmm_block) ids then 0
              else - EINVAL) s'
    /\ map shape (calib (drv s')) = map shape (calib (drv s)).
Proof.
  intros Hsize Hact Hids.
  destruct (extract_group1_elem_frame pmm_block m1 m2 ids s)
    as (err & s' & E & _ & _ & Hs & _).
  destruct (extract_group1_elem_result pmm_block m1 m2 ids Hsize Hact Hids s)
    as (s'' & E').
  rewrite E in E'. inversion E'; subst. exists s''. split; [exact E|exact Hs].
Qed.

Lemma default_shape_slot0 (tbl : n810bm_calib) f1 f2 :
  map shape tbl = map shape default_table ->
  map shape
    (alter (store_fields f1 f2) 0%nat
       (alter (store_id_flags N810BM_PMM_ADC_0xFE 0x05) 0%nat tbl))
  = map shape default_table.
Proof.
  intros H. destruct tbl as [|c tbl]; [exact H|].
  cbn [alter list_alter map] in *. rewrite <- H.
  f_equal. replace (shape c) with (N810BM_PMM_ADC_0xFE, 0x05); [reflexivity|].
  vm_compute (map shape default_table) in H.
  inversion H. unfold shape, N810BM_PMM_ADC_0xFE. congruence.
Qed.

(** The group 1 parser keeps the id and flags of every slot as the
    defaults set them, and fails exactly when a record it reads carries
    an id byte without a slot. *)
Lemma parse_pmm_group1_spec pmm_block s :
  fw_size pmm_block = N810BM_PMM_BLOCK_SIZE ->
  Z.testbit (byte_at pmm_block 16) 1 = true ->
  map shape (calib (drv s)) = map shape default_table ->
  exists s',
    n810bm_parse_pmm_group1 pmm_block s =
    Returned (if group1_ids_mappable pmm_block then 0 else - EINVAL) s'
    /\ map shape (calib (drv s')) = map shape default_table.
Proof.
  intros Hsize Hact Hshape. unfold n810bm_parse_pmm_group1.
  unfold bind at 1.
  rewrite pmm_record_get_group1
    by (assumption || (unfold sizeof_group1_element; lia)).
  cbn [c_true Z.eqb negb]. unfold bind at 1.
  set (elem := group1_element_of_bytes _).
  assert (exists s1,
             (if (elem_id elem =? N810BM_PMM_ADC_0xFE)
                 && (elem_flags elem =? 0x05)
              then
                bind (n810bm_get_adc_calib (elem_id elem))
                  (fun adc_calib =>
                     match adc_calib with
                     | Some index =>
                         bind (modify_slot index
                                 (store_id_flags (elem_id elem)
                                    (elem_flags elem)))
                           (fun _ =>
                              bind (modify_slot index
                                      (store_fields (elem_field1 elem)
                                         (elem_field2 elem)))
                                (fun _ => ret 0))
                     | None =>
                         bind (dev_err
                                 "calib extract: Failed to get 0xFE calib")
                           (fun _ => ret (- EINVAL))
                     end)
              else ret 0) s = Returned 0 s1
             /\ map shape (calib (drv s1)) = map shape default_table)
    as (s1 & E1 & S1).
  { destruct (Z.eqb_spec (elem_id elem) N810BM_PMM_ADC_0xFE) as [Hi|Hi];
      [|exists s; auto].
    destruct (Z.eqb_spec (elem_flags elem) 0x05) as [Hf|Hf];
      [|exists s; auto].
    cbn [andb]. rewrite Hi, Hf. unfold bind at 1.
    destruct (get_adc_calib_spec N810BM_PMM_ADC_0xFE s) as (s0 & E0 & D0).
    rewrite E0. change (calib_index N810BM_PMM_ADC_0xFE) with (Some 0%nat).
    unfold modify_slot. run. eexists. split; [reflexivity|]. fields.
    rewrite D0. now apply default_shape_slot0. }
  rewrite E1. cbn [c_true Z.eqb negb].
  assert (forall ids, ids = pmm_adc_ids_1 \/ ids = pmm_adc_ids_2
                      \/ ids = pmm_adc_ids_3 ->
                      Forall (fun adc_id => 0 <= adc_id <= 28) ids) as Hids.
  { intros ids [-> | [-> | ->]]; repeat constructor; vm_compute;
      discriminate. }
  unfold group1_ids_mappable. rewrite !forallb_app.
  unfold bind at 1.
  destruct (extract_group1_elem_spec pmm_block 0xFFFFFFFF 0xFFFFFFFF
              pmm_adc_ids_1 s1 Hsize Hact (Hids _ (or_introl eq_refl)))
    as (s2 & E2 & S2).
  rewrite E2.
  destruct (forallb _ pmm_adc_ids_1); cbn [andb];
    [|exists s2; split; [reflexivity|congruence]].
  cbn [c_true Z.eqb negb]. unfold bind at 1.
  destruct (extract_group1_elem_spec pmm_block 0xFFFFFFFF 0
              pmm_adc_ids_2 s2 Hsize Hact
              (Hids _ (or_intror (or_introl eq_refl))))
    as (s3 & E3 & S3).
  rewrite E3.
  destruct (forallb _ pmm_adc_ids_2); cbn [andb];
    [|exists s3; split; [reflexivity|congruence]].
  cbn [c_true Z.eqb negb]. unfold bind at 1.
  destruct (extract_group1_elem_spec pmm_block 0xFFFFFFFF 0x0000FFFF
              pmm_adc_ids_3 s3 Hsize Hact
              (Hids _ (or_intror (or_intror eq_refl))))
    as (s4 & E4 & S4).
  rewrite E4.
  destruct (forallb _ pmm_adc_ids_3);
    exists s4; (split; [reflexivity|congruence]).
Qed.

Lemma hd_take_drop (l : list byte) (k : nat) d :
  (k < length l)%nat ->
  byte_val (hd d (take 1 (drop k l))) = byte_at l (Z.of_nat k).
Proof.
  intros Hk. unfold byte_at. rewrite Nat2Z.id, nth_lookup.
  destruct (drop k l) as [|x rest] eqn:Hd.
  - apply (f_equal length) in Hd. rewrite length_drop in Hd. cbn in Hd. lia.
  - cbn. f_equal.
    assert (drop k l !! 0%nat = Some x) as Hx by now rewrite Hd.
    rewrite lookup_drop, Nat.add_0_r in Hx. now rewrite Hx.
Qed.

(** Evaluates the truth value of closed error codes. *)
Ltac eval_err :=
  repeat match goal with
         | |- context [c_true ?x] =>
             let v := eval vm_compute in (c_true x) in
             match v with
             | true => change (c_true x) with true
             | false => change (c_true x) with false
             end
         end;
  cbv iota.

(** The outcome of [n810bm_parse_pmm_block] for every block. *)
Lemma parse_pmm_block_spec junk pmm_block s :
  exists err s',
    n810bm_parse_pmm_block junk pmm_block s = Returned err s'
    /\ err =
       (if negb (group1_markers pmm_block) then - EOPNOTSUPP
        else if negb (group1_ids_mappable pmm_block) then - EINVAL
        else if forallb slot_ok (calib (drv s')) then 0
        else - EILSEQ)
    /\ map shape (calib (drv s')) = map shape default_table.
Proof.
  unfold n810bm_parse_pmm_block. unfold bind at 1.
  rewrite set_defaults_run.
  set (s1 := mk_system (set_calib default_table (drv s)) (hw s)).
  assert (map shape (calib (drv s1)) = map shape default_table) as S1
    by reflexivity.
  clearbody s1. unfold group1_markers.
  destruct ((fw_size pmm_block =? N810BM_PMM_BLOCK_SIZE)
            && Z.testbit (byte_at pmm_block 16) 1) eqn:Hhead.
  - apply andb_true_iff in Hhead. destruct Hhead as [Hsize Hact].
    apply Z.eqb_eq in Hsize.
    assert (length pmm_block = 1536%nat) as Hlen.
    { unfold fw_size, N810BM_PMM_BLOCK_SIZE in Hsize. lia. }
    unfold bind at 1. rewrite pmm_record_get_group1 by (assumption || lia).
    cbn [c_true Z.eqb negb]. unfold bind at 1.
    rewrite pmm_record_get_group1 by (assumption || lia).
    cbn [c_true Z.eqb negb].
    change (Z.to_nat 1) with 1%nat.
    change (Z.to_nat (0x200 + 0 * 0x10)) with 512%nat.
    change (Z.to_nat (0x200 + 1 * 0x10)) with 528%nat.
    rewrite !hd_take_drop by lia.
    change (Z.of_nat 512) with 0x200. change (Z.of_nat 528) with 0x210.
    cbn [andb].
    destruct (byte_at pmm_block 0x200 =? 1), (byte_at pmm_block 0x210 =? 1);
      cbn [negb c_bool andb]; eval_err;
      try (unfold n810bm_parse_pmm_group2; run; eexists; eexists;
           split; [reflexivity|]; split; [reflexivity|exact S1]).
    unfold bind at 1.
    destruct (parse_pmm_group1_spec pmm_block s1 Hsize Hact S1)
      as (s2 & E2 & S2).
    rewrite E2.
    destruct (group1_ids_mappable pmm_block); cbn [negb c_true Z.eqb];
      [|exists (- EINVAL), s2; auto].
    run.
    destruct (calib_sanity_loop_spec (calib (drv s2)) 0 s2 ltac:(lia))
      as (s3 & E3 & D3).
    rewrite E3.
    destruct (forallb slot_ok (calib (drv s2))) eqn:Hok.
    + rewrite S2.
      change (u32 (0 + Z.of_nat (length (List.filter required_populated
                                            (map shape default_table)))))
        with 7.
      cbn [Z.eqb Pos.eqb negb].
      exists 0, s3. rewrite D3, Hok. auto.
    + eexists. eexists. split; [reflexivity|]. fields.
      rewrite D3, Hok. auto.
  - cbn [andb negb].
    unfold bind at 1.
    destruct (pmm_record_get_group1_fails pmm_block 1 0 s1 Hhead)
      as (e0 & s2 & E2 & D2 & He0).
    rewrite E2.
    unfold bind at 1.
    destruct (pmm_record_get_group1_fails pmm_block 1 1 s2 Hhead)
      as (e1 & s3 & E3 & D3 & He1).
    rewrite E3.
    assert (map shape (calib (drv s3)) = map shape default_table) as S3
      by (rewrite D3, D2; exact S1).
    unfold n810bm_parse_pmm_group2.
    destruct He0 as [-> | ->], He1 as [-> | ->];
      eval_err; destruct (byte_val junk =? 1);
      cbn [negb c_bool andb]; eval_err;
      run; eexists; eexists;
      (split; [reflexivity|]); (split; [reflexivity|exact S3]).
Qed.

(** C5: a firmware image whose size is not 0x600 or whose first 15 bytes
    are not "BME-PMM-BLOCK01" is rejected with the invalid-format message
    and released; nothing is parsed, the device is not initialised and
    the driver state, calibration table included, is untouched. *)
Theorem pmm_block_found_rejects_bad_header
  (device_init : M (L := L) Z) (junk : byte) (data : list byte) s :
  fw_size data <> N810BM_PMM_BLOCK_SIZE
  \/ take 15 data <> list_byte_of_string "BME-PMM-BLOCK01" ->
  exists s',
    n810bm_pmm_block_found device_init junk (Some data) s = Returned tt s'
    /\ drv s' = drv s
    /\ calib (drv s') = calib (drv s)
    /\ trace (hw s') =
       trace (hw s)
       ++ [EvLog KERN_ERR "CAL PMM block image file has an invalid format";
           EvReleaseFirmware].
Proof.
  intros Hbad. unfold n810bm_pmm_block_found.
  assert ((negb (fw_size data =? N810BM_PMM_BLOCK_SIZE)
           || negb (memcmp data (list_byte_of_string "BME-PMM-BLOCK01") 15
                    =? 0)) = true) as ->.
  { destruct (Z.eqb_spec (fw_size data) N810BM_PMM_BLOCK_SIZE) as [Hs|Hs];
      [|reflexivity].
    cbn [negb orb]. destruct Hbad as [Hbad|Hbad]; [contradiction|].
    apply negb_true_iff, Z.eqb_neq. intros Hm. apply Hbad.
    apply memcmp_0 in Hm.
    - rewrite Hm. reflexivity.
    - unfold fw_size, N810BM_PMM_BLOCK_SIZE in Hs. lia.
    - cbn. lia. }
  run. eexists. split; [reflexivity|]. fields. conjs; try reflexivity.
  flat_trace. reflexivity.
Qed.

(** **** The table the parser leaves *)

Lemma lor_add a c n :
  0 <= n -> 0 <= a < 2 ^ n -> Z.lor a (2 ^ n * c) = a + 2 ^ n * c.
Proof.
  intros Hn Ha.
  assert (Z.land a (2 ^ n * c) = 0) as Hland.
  { apply Z.bits_inj'. intros k Hk. rewrite Z.land_spec, Z.bits_0.
    destruct (Z.lt_ge_cases k n).
    - rewrite (Z.mul_comm (2 ^ n) c), Z.mul_pow2_bits_low by lia.
      apply andb_false_r.
    - rewrite <- (Z.mod_small a (2 ^ n)) by lia.
      rewrite Z.mod_pow2_bits_high by lia. reflexivity. }
  rewrite <- Z.lxor_lor, <- Z.add_nocarry_lxor by assumption. reflexivity.
Qed.

Lemma byte_at_range (data : list byte) (i : Z) : 0 <= byte_at data i <= 255.
Proof. apply byte_val_range. Qed.

(** [le32_to_cpu] as a number. *)
Lemma le32_at_word (data : list byte) (i : Z) :
  le32_at data i =
  byte_at data i + 2 ^ 8 * byte_at data (i + 1)
  + 2 ^ 16 * byte_at data (i + 2) + 2 ^ 24 * byte_at data (i + 3).
Proof.
  unfold le32_at.
  pose proof (byte_at_range data i).
  pose proof (byte_at_range data (i + 1)).
  pose proof (byte_at_range data (i + 2)).
  pose proof (byte_at_range data (i + 3)).
  set (b0 := byte_at data i) in *.
  set (b1 := byte_at data (i + 1)) in *.
  set (b2 := byte_at data (i + 2)) in *.
  set (b3 := byte_at data (i + 3)) in *.
  clearbody b0 b1 b2 b3.
  rewrite !Z.shiftl_mul_pow2 by lia.
  assert (Z.lor (b2 * 2 ^ 16) (b3 * 2 ^ 24) = b2 * 2 ^ 16 + 2 ^ 24 * b3)
    as ->.
  { rewrite (Z.mul_comm b3). apply lor_add; lia. }
  assert (Z.lor (b1 * 2 ^ 8) (b2 * 2 ^ 16 + 2 ^ 24 * b3)
          = b1 * 2 ^ 8 + 2 ^ 16 * (b2 + 2 ^ 8 * b3)) as ->.
  { replace (b2 * 2 ^ 16 + 2 ^ 24 * b3)
      with (2 ^ 16 * (b2 + 2 ^ 8 * b3)) by lia.
    apply lor_add; lia. }
  assert (Z.lor b0 (b1 * 2 ^ 8 + 2 ^ 16 * (b2 + 2 ^ 8 * b3))
          = b0 + 2 ^ 8 * (b1 + 2 ^ 8 * (b2 + 2 ^ 8 * b3))) as ->.
  { replace (b1 * 2 ^ 8 + 2 ^ 16 * (b2 + 2 ^ 8 * b3))
      with (2 ^ 8 * (b1 + 2 ^ 8 * (b2 + 2 ^ 8 * b3))) by lia.
    apply lor_add; lia. }
  lia.
Qed.

Lemma group1_word_range pmm_block element k :
  0 <= group1_word pmm_block element k < 2 ^ 32.
Proof.
  unfold group1_word, group1_byte.
  pose proof (byte_at_range pmm_block (0x200 + element * 0x10 + k)).
  pose proof (byte_at_range pmm_block (0x200 + element * 0x10 + (k + 1))).
  pose proof (byte_at_range pmm_block (0x200 + element * 0x10 + (k + 2))).
  pose proof (byte_at_range pmm_block (0x200 + element * 0x10 + (k + 3))).
  lia.
Qed.

(** The record the parser decodes from an element of group 1 holds the
    bytes and words of that element. *)
Lemma group1_record_fields pmm_block element :
  0 <= element < 32 ->
  let elem :=
    group1_element_of_bytes
      (take (Z.to_nat sizeof_group1_element)
         (drop (Z.to_nat (0x200 + element * 0x10)) pmm_block)) in
  elem_id elem = group1_byte pmm_block element 0
  /\ elem_flags elem = group1_byte pmm_block element 1
  /\ elem_field1 elem = group1_word pmm_block element 4
  /\ elem_field2 elem = group1_word pmm_block element 8.
Proof.
  intros He elem. subst elem.
  cbn [group1_element_of_bytes elem_id elem_flags elem_field1 elem_field2].
  rewrite !le32_at_word. unfold sizeof_group1_element.
  rewrite !byte_at_take_drop by lia.
  unfold group1_word, group1_byte.
  rewrite Z2Nat.id by lia.
  conjs; repeat (f_equal; try lia).
Qed.

Lemma write_records_app pmm_block l1 l2 : forall tbl,
  write_records pmm_block (l1 ++ l2) tbl =
  (if snd (write_records pmm_block l1 tbl)
   then write_records pmm_block l2 (fst (write_records pmm_block l1 tbl))
   else (fst (write_records pmm_block l1 tbl), false)).
Proof.
  induction l1 as [|rd l1 IH]; intros tbl; cbn [app write_records].
  - reflexivity.
  - destruct (write_record pmm_block tbl rd); [apply IH|reflexivity].
Qed.

(** Extraction writes the records of the ids it is given. *)
Lemma extract_group1_elem_table pmm_block m1 m2 ids :
  fw_size pmm_block = N810BM_PMM_BLOCK_SIZE ->
  Z.testbit (byte_at pmm_block 16) 1 = true ->
  Forall (fun adc_id => 0 <= adc_id <= 28) ids ->
  forall s, exists s',
    extract_group1_elem pmm_block ids m1 m2 s =
    Returned
      (if snd (write_records pmm_block
                 (map (fun a => (a + 3, m1, m2)) ids) (calib (drv s)))
       then 0 else - EINVAL) s'
    /\ calib (drv s') =
       fst (write_records pmm_block
              (map (fun a => (a + 3, m1, m2)) ids) (calib (drv s))).
Proof.
  intros Hsize Hact Hids.
  induction Hids as [|adc_id rest Hid Hrest IH]; intros s.
  - exists s. split; reflexivity.
  - cbn [extract_group1_elem map write_records]. unfold bind at 1.
    rewrite (u32_small adc_id), (u32_small (adc_id + 3)) by lia.
    rewrite pmm_record_get_group1
      by (assumption || (unfold sizeof_group1_element; lia)).
    cbn [c_true Z.eqb negb]. unfold bind at 1.
    destruct (group1_record_fields pmm_block (adc_id + 3) ltac:(lia))
      as (Fid & Ffl & Ff1 & Ff2).
    rewrite Fid, Ffl, Ff1, Ff2.
    destruct (get_adc_calib_spec (group1_byte pmm_block (adc_id + 3) 0) s)
      as (s2 & E2 & D2).
    rewrite E2. unfold write_record.
    destruct (calib_index (group1_byte pmm_block (adc_id + 3) 0))
      as [index|].
    + unfold slot_flags, modify_slot. run. rewrite D2.
      destruct (flags (default zero_calib (calib (drv s) !! index))
                =? group1_byte pmm_block (adc_id + 3) 1);
        match goal with
        | |- context [extract_group1_elem _ _ _ _ ?s3] =>
            destruct (IH s3) as (s' & E & T)
        end;
        exists s'; fields; rewrite ?D2 in *; (split; [exact E|exact T]).
    + run. eexists. split; [reflexivity|]. fields. rewrite D2. reflexivity.
Qed.

Lemma group1_reads_split :
  group1_reads =
  map (fun a => (a + 3, 0xFFFFFFFF, 0xFFFFFFFF)) pmm_adc_ids_1
  ++ map (fun a => (a + 3, 0xFFFFFFFF, 0)) pmm_adc_ids_2
  ++ map (fun a => (a + 3, 0xFFFFFFFF, 0x0000FFFF)) pmm_adc_ids_3.
Proof. reflexivity. Qed.

(** The group 1 parser writes element 2 and then the six records. *)
Lemma parse_pmm_group1_table pmm_block s :
  fw_size pmm_block = N810BM_PMM_BLOCK_SIZE ->
  Z.testbit (byte_at pmm_block 16) 1 = true ->
  exists err s',
    n810bm_parse_pmm_group1 pmm_block s = Returned err s'
    /\ calib (drv s') =
       fst (write_records pmm_block group1_reads
              (write_element2 pmm_block (calib (drv s)))).
Proof.
  intros Hsize Hact. unfold n810bm_parse_pmm_group1.
  unfold bind at 1.
  rewrite pmm_record_get_group1
    by (assumption || (unfold sizeof_group1_element; lia)).
  cbn [c_true Z.eqb negb]. unfold bind at 1.
  destruct (group1_record_fields pmm_block 2 ltac:(lia))
    as (Fid & Ffl & Ff1 & Ff2).
  rewrite Fid, Ffl, Ff1, Ff2.
  assert (exists s1,
             (if (group1_byte pmm_block 2 0 =? N810BM_PMM_ADC_0xFE)
                 && (group1_byte pmm_block 2 1 =? 0x05)
              then
                bind (n810bm_get_adc_calib (group1_byte pmm_block 2 0))
                  (fun adc_calib =>
                     match adc_calib with
                     | Some index =>
                         bind (modify_slot index
                                 (store_id_flags (group1_byte pmm_block 2 0)
                                    (group1_byte pmm_block 2 1)))
                           (fun _ =>
                              bind (modify_slot index
                                      (store_fields
                                         (group1_word pmm_block 2 4)
                                         (group1_word pmm_block 2 8)))
                                (fun _ => ret 0))
                     | None =>
                         bind (dev_err
                                 "calib extract: Failed to get 0xFE calib")
                           (fun _ => ret (- EINVAL))
                     end)
              else ret 0) s = Returned 0 s1
             /\ calib (drv s1) = write_element2 pmm_block (calib (drv s)))
    as (s1 & E1 & T1).
  { unfold write_element2.
    destruct (Z.eqb_spec (group1_byte pmm_block 2 0) N810BM_PMM_ADC_0xFE)
      as [Hi|Hi]; [|exists s; auto].
    destruct (Z.eqb_spec (group1_byte pmm_block 2 1) 0x05) as [Hf|Hf];
      [|exists s; auto].
    cbn [andb]. rewrite Hi, Hf. unfold bind at 1.
    destruct (get_adc_calib_spec N810BM_PMM_ADC_0xFE s) as (s0 & E0 & D0).
    rewrite E0. change (calib_index N810BM_PMM_ADC_0xFE) with (Some 0%nat).
    unfold modify_slot. run. eexists. split; [reflexivity|]. fields.
    rewrite D0. destruct (calib (drv s)); reflexivity. }
  rewrite E1. cbn [c_true Z.eqb negb].
  assert (forall ids, ids = pmm_adc_ids_1 \/ ids = pmm_adc_ids_2
                      \/ ids = pmm_adc_ids_3 ->
                      Forall (fun adc_id => 0 <= adc_id <= 28) ids) as Hids.
  { intros ids [-> | [-> | ->]]; repeat constructor; vm_compute;
      discriminate. }
  rewrite group1_reads_split, !write_records_app. rewrite <- T1.
  unfold bind at 1.
  destruct (extract_group1_elem_table pmm_block 0xFFFFFFFF 0xFFFFFFFF
              pmm_adc_ids_1 Hsize Hact (Hids _ (or_introl eq_refl)) s1)
    as (s2 & E2 & T2).
  rewrite E2, <- T2.
  destruct (snd (write_records pmm_block _ (calib (drv s1))));
    [|exists (- EINVAL), s2; split; reflexivity].
  cbn [c_true Z.eqb negb]. unfold bind at 1.
  destruct (extract_group1_elem_table pmm_block 0xFFFFFFFF 0
              pmm_adc_ids_2 Hsize Hact
              (Hids _ (or_intror (or_introl eq_refl))) s2)
    as (s3 & E3 & T3).
  rewrite E3, <- T3.
  destruct (snd (write_records pmm_block _ (calib (drv s2))));
    [|exists (- EINVAL), s3; split; reflexivity].
  cbn [c_true Z.eqb negb]. unfold bind at 1.
  destruct (extract_group1_elem_table pmm_block 0xFFFFFFFF 0x0000FFFF
              pmm_adc_ids_3 Hsize Hact
              (Hids _ (or_intror (or_intror eq_refl))) s3)
    as (s4 & E4 & T4).
  rewrite E4, <- T4.
  destruct (snd (write_records pmm_block _ (calib (drv s3))));
    eexists; exists s4; split; reflexivity.
Qed.

(** The table after parsing is the one the block calls for. *)
Lemma parse_pmm_block_table junk pmm_block s :
  exists err s',
    n810bm_parse_pmm_block junk pmm_block s = Returned err s'
    /\ calib (drv s') = expected_table pmm_block.
Proof.
  unfold n810bm_parse_pmm_block, expected_table. unfold bind at 1.
  rewrite set_defaults_run.
  set (s1 := mk_system (set_calib default_table (drv s)) (hw s)).
  assert (calib (drv s1) = default_table) as S1 by reflexivity.
  clearbody s1. unfold group1_markers.
  destruct ((fw_size pmm_block =? N810BM_PMM_BLOCK_SIZE)
            && Z.testbit (byte_at pmm_block 16) 1) eqn:Hhead.
  - apply andb_true_iff in Hhead. destruct Hhead as [Hsize Hact].
    apply Z.eqb_eq in Hsize.
    assert (length pmm_block = 1536%nat) as Hlen.
    { unfold fw_size, N810BM_PMM_BLOCK_SIZE in Hsize. lia. }
    unfold bind at 1. rewrite pmm_record_get_group1 by (assumption || lia).
    cbn [c_true Z.eqb negb]. unfold bind at 1.
    rewrite pmm_record_get_group1 by (assumption || lia).
    cbn [c_true Z.eqb negb].
    change (Z.to_nat 1) with 1%nat.
    change (Z.to_nat (0x200 + 0 * 0x10)) with 512%nat.
    change (Z.to_nat (0x200 + 1 * 0x10)) with 528%nat.
    rewrite !hd_take_drop by lia.
    change (Z.of_nat 512) with 0x200. change (Z.of_nat 528) with 0x210.
    cbn [andb].
    destruct (byte_at pmm_block 0x200 =? 1), (byte_at pmm_block 0x210 =? 1);
      cbn [negb c_bool andb]; eval_err;
      try (unfold n810bm_parse_pmm_group2; run; eexists; eexists;
           split; [reflexivity|]; exact S1).
    unfold bind at 1.
    destruct (parse_pmm_group1_table pmm_block s1 Hsize Hact)
      as (err & s2 & E2 & T2).
    rewrite E2. rewrite S1 in T2.
    destruct (c_true err); [exists err, s2; auto|].
    run.
    destruct (calib_sanity_loop_spec (calib (drv s2)) 0 s2 ltac:(lia))
      as (s3 & E3 & D3).
    rewrite E3.
    destruct (forallb slot_ok (calib (drv s2)));
      [destruct (negb (_ =? 7))|];
      eexists; eexists; (split; [reflexivity|]); fields;
      rewrite ?D3; exact T2.
  - cbn [andb negb].
    unfold bind at 1.
    destruct (pmm_record_get_group1_fails pmm_block 1 0 s1 Hhead)
      as (e0 & s2 & E2 & D2 & He0).
    rewrite E2.
    unfold bind at 1.
    destruct (pmm_record_get_group1_fails pmm_block 1 1 s2 Hhead)
      as (e1 & s3 & E3 & D3 & He1).
    rewrite E3.
    assert (calib (drv s3) = default_table) as S3
      by (rewrite D3, D2; exact S1).
    unfold n810bm_parse_pmm_group2.
    destruct He0 as [-> | ->], He1 as [-> | ->];
      eval_err; destruct (byte_val junk =? 1);
      cbn [negb c_bool andb]; eval_err;
      run; eexists; eexists;
      (split; [reflexivity|]); exact S3.
Qed.

Lemma default_table_defaults_and_records pmm_block :
  defaults_and_records pmm_block default_table.
Proof.
  split; [reflexivity|]. intros i c Hc. exists c. conjs; auto.
Qed.

Lemma write_element2_defaults_and_records pmm_block tbl :
  defaults_and_records pmm_block tbl ->
  defaults_and_records pmm_block (write_element2 pmm_block tbl).
Proof.
  intros [Hlen Hslots]. unfold write_element2.
  destruct (Z.eqb_spec (group1_byte pmm_block 2 0) N810BM_PMM_ADC_0xFE)
    as [Hi|Hi]; [|split; assumption].
  destruct (Z.eqb_spec (group1_byte pmm_block 2 1) 0x05) as [Hf|Hf];
    [|split; assumption].
  cbn [andb]. split; [now rewrite length_alter|].
  intros j c Hc. destruct (Nat.eq_dec j 0%nat) as [->|Hne].
  - rewrite list_lookup_alter in Hc.
    destruct (tbl !! 0%nat) as [c0|] eqn:Hc0; [|discriminate].
    cbn in Hc. inversion Hc; subst c. clear Hc.
    destruct (Hslots 0%nat c0 Hc0) as (d & Hd & _ & _ & Hg & H3 & H4 & _).
    exists d. split; [exact Hd|].
    vm_compute in Hd. inversion Hd; subst d. clear Hd.
    cbn [id flags adc_groupnr field1 field2 field3 field4] in *.
    conjs; auto. right. exists 2, 0xFFFFFFFF, 0xFFFFFFFF.
    pose proof (group1_word_range pmm_block 2 4).
    pose proof (group1_word_range pmm_block 2 8).
    change 0xFFFFFFFF with (Z.ones 32).
    rewrite !Z.land_ones, !Z.mod_small by lia.
    conjs; auto.
    + left. reflexivity.
    + rewrite Hi. reflexivity.
  - rewrite list_lookup_alter_ne in Hc by auto. apply Hslots. assumption.
Qed.

Lemma write_record_defaults_and_records pmm_block tbl rd tbl' :
  defaults_and_records pmm_block tbl ->
  In rd group1_reads ->
  write_record pmm_block tbl rd = Some tbl' ->
  defaults_and_records pmm_block tbl'.
Proof.
  intros [Hlen Hslots] Hin. destruct rd as [[element m1] m2].
  unfold write_record.
  destruct (calib_index (group1_byte pmm_block element 0)) as [i|] eqn:Hidx;
    [|discriminate].
  destruct (Z.eqb_spec (flags (default zero_calib (tbl !! i)))
              (group1_byte pmm_block element 1)) as [Hfl|Hfl];
    intros H; inversion H; subst tbl'; clear H; [|split; assumption].
  split; [now rewrite length_alter|].
  intros j c Hc. destruct (Nat.eq_dec j i) as [->|Hne].
  - rewrite list_lookup_alter, decide_True in Hc by reflexivity.
    destruct (tbl !! i) as [c0|] eqn:Hc0; [|discriminate].
    cbn in Hc. inversion Hc; subst c. clear Hc.
    destruct (Hslots i c0 Hc0) as (d & Hd & Hid & Hflags & Hg & H3 & H4 & _).
    exists d. cbn [id flags adc_groupnr field1 field2 field3 field4].
    conjs; auto. right. exists element, m1, m2.
    cbn in Hfl. conjs; auto.
    + right. assumption.
    + congruence.
  - rewrite list_lookup_alter_ne in Hc by auto. apply Hslots. assumption.
Qed.

Lemma write_records_defaults_and_records pmm_block rds :
  (forall rd, In rd rds -> In rd group1_reads) ->
  forall tbl,
    defaults_and_records pmm_block tbl ->
    defaults_and_records pmm_block (fst (write_records pmm_block rds tbl)).
Proof.
  induction rds as [|rd rds IH]; intros Hsub tbl Hinv;
    cbn [write_records].
  - assumption.
  - destruct (write_record pmm_block tbl rd) as [tbl'|] eqn:Hw;
      [|assumption].
    apply IH.
    + intros rd' Hrd'. apply Hsub. right. assumption.
    + eapply write_record_defaults_and_records; eauto.
      apply Hsub. left. reflexivity.
Qed.

Lemma expected_table_defaults_and_records pmm_block :
  defaults_and_records pmm_block (expected_table pmm_block).
Proof.
  unfold expected_table. destruct (group1_markers pmm_block).
  - apply write_records_defaults_and_records; [auto|].
    apply write_element2_defaults_and_records,
      default_table_defaults_and_records.
  - apply default_table_defaults_and_records.
Qed.

(** The switch of the sanity checks tests the bounds of the channels. *)
Lemma slot_ok_bounds c : slot_ok c = negb (populated c) || within_bounds c.
Proof.
  unfold slot_ok, populated, within_bounds, calib_value_check.
  rewrite negb_involutive. destruct (flags c =? 0xFF); [reflexivity|].
  cbn [orb]. rewrite !Z.gtb_ltb, !Z.ltb_antisym.
  destruct (id c =? N810BM_PMM_ADC_BATVOLT).
  { destruct (2400 <=? field1 c), (field1 c <=? 2700),
      (20000 <=? field2 c), (field2 c <=? 23000); reflexivity. }
  destruct (id c =? N810BM_PMM_ADC_BSI).
  { destruct (1100 <=? field1 c), (field1 c <=? 1300); reflexivity. }
  destruct (id c =? N810BM_PMM_ADC_BATCURR).
  { destruct (7000 <=? field2 c), (field2 c <=? 12000); reflexivity. }
  destruct (id c =? N810BM_PMM_ADC_0xFE).
  { destruct (-14 <=? s32 (field1 c)), (s32 (field1 c) <=? 14),
      (13000 <=? field2 c), (field2 c <=? 13350); reflexivity. }
  destruct ((id c =? N810BM_PMM_ADC_CHGVOLT)
            || (id c =? N810BM_PMM_ADC_BATTEMP)
            || (id c =? N810BM_PMM_ADC_BKUPVOLT)); reflexivity.
Qed.

Lemma table_within_bounds_ok tbl :
  forallb slot_ok tbl = table_within_bounds tbl.
Proof.
  unfold table_within_bounds. induction tbl as [|c tbl IH]; cbn [forallb].
  - reflexivity.
  - now rewrite slot_ok_bounds, IH.
Qed.

(** C2 (as the code has it): the table held by the controller after
    parsing is a function of the block alone, whatever it held before and
    whatever is returned.  It is the default table when the block has not
    size 0x600, group 1 active and both markers 0x01, and the result is
    then [-EOPNOTSUPP].  Otherwise it is the default table with element 2
    and then the six records of group 1 written over it in place, up to
    the first record whose id byte has no slot, the result then being
    [-EINVAL]; so every slot keeps the id, flags and group of the
    defaults, exactly the seven required channels are populated, and the
    two fields of a slot are those of the defaults or those of a record
    with the id and flags of the slot.  With all records written the
    result is 0 exactly when every populated slot of that table is within
    the bounds of its channel, and [-EILSEQ] when one is not. *)
Theorem parse_pmm_block_outcome junk pmm_block s :
  exists err s',
    n810bm_parse_pmm_block junk pmm_block s = Returned err s'
    /\ err =
       (if negb (group1_markers pmm_block) then - EOPNOTSUPP
        else if negb (group1_ids_mappable pmm_block) then - EINVAL
        else if table_within_bounds (calib (drv s')) then 0
        else - EILSEQ)
    /\ calib (drv s') = expected_table pmm_block
    /\ (group1_markers pmm_block = false ->
        calib (drv s') = default_table)
    /\ defaults_and_records pmm_block (calib (drv s'))
    /\ map shape (calib (drv s')) = map shape default_table
    /\ length (calib (drv s')) = ARRAY_SIZE_adc
    /\ populated_required (calib (drv s')) =
       [N810BM_PMM_ADC_0xFE; N810BM_PMM_ADC_BATVOLT; N810BM_PMM_ADC_CHGVOLT;
        N810BM_PMM_ADC_BSI; N810BM_PMM_ADC_BATTEMP; N810BM_PMM_ADC_BATCURR;
        N810BM_PMM_ADC_BKUPVOLT].
Proof.
  destruct (parse_pmm_block_spec junk pmm_block s) as (err & s' & E & He & S).
  destruct (parse_pmm_block_table junk pmm_block s) as (err' & s'' & E' & T).
  rewrite E in E'. injection E' as Herr Hs. subst err' s''.
  exists err, s'. conjs; try assumption.
  - rewrite <- table_within_bounds_ok. exact He.
  - intros Hm. rewrite T. unfold expected_table. now rewrite Hm.
  - rewrite T. apply expected_table_defaults_and_records.
  - apply (f_equal length) in S. rewrite !length_map in S. rewrite S.
    reflexivity.
  - unfold populated_required. rewrite S. reflexivity.
Qed.

(** C10: the slot lookup is total; for an id byte other than 0xFE it
    uses index id + 1 and yields no slot once that index reaches 25, and
    0xFE uses index 0, so every slot it yields lies inside the 25-entry
    table.  Extraction always returns, touches nothing at index 25 or
    beyond, and fails with [-EINVAL] when a record it reads carries an id
    byte without a slot. *)
Theorem get_adc_calib_total_in_bounds (adc_id : Z) s
  (pmm_block : list byte) (ids : list Z) (m1 m2 : Z) :
  0 <= adc_id <= 255 ->
  (exists s',
      n810bm_get_adc_calib adc_id s = Returned (calib_index adc_id) s'
      /\ drv s' = drv s)
  /\ calib_index adc_id =
     (if adc_id =? 0xFE then Some 0%nat
      else if 25 <=? adc_id + 1 then None
      else Some (Z.to_nat (adc_id + 1)))
  /\ (forall index,
        calib_index adc_id = Some index -> (index < ARRAY_SIZE_adc)%nat)
  /\ (exists err s',
        extract_group1_elem pmm_block ids m1 m2 s = Returned err s'
        /\ (err = 0 \/ err = - EINVAL)
        /\ length (calib (drv s')) = length (calib (drv s))
        /\ (forall i : nat, (ARRAY_SIZE_adc <= i)%nat ->
              calib (drv s') !! i = calib (drv s) !! i))
  /\ (fw_size pmm_block = N810BM_PMM_BLOCK_SIZE ->
      Z.testbit (byte_at pmm_block 16) 1 = true ->
      Forall (fun a => 0 <= a <= 28) ids ->
      exists s',
        extract_group1_elem pmm_block ids m1 m2 s =
        Returned (if forallb (record_id_mappable pmm_block) ids then 0
                  else - EINVAL) s').
Proof.
  intros Hid. conjs.
  - apply get_adc_calib_spec.
  - now apply calib_index_byte.
  - intros index. apply calib_index_bound.
  - destruct (extract_group1_elem_frame pmm_block m1 m2 ids s)
      as (err & s' & E & He & Hl & _ & Hf).
    exists err, s'. auto.
  - intros Hsize Hact Hids.
    now apply extract_group1_elem_result.
Qed.

End ParserProperties.

Lemma get_adc_calib_total_in_bounds_witness :
  calib_index 0xFF = None
  /\ calib_index 0x17 = Some 24%nat
  /\ exists s',
      n810bm_get_adc_calib 0x17 fresh_system_0 = Returned (Some 24%nat) s'.
Proof.
  assert (0 <= 0x17 <= 255) as H by lia.
  destruct (get_adc_calib_total_in_bounds 0x17 fresh_system_0 [] [] 0 0 H)
    as ((s' & E & _) & _).
  split; [reflexivity|]. split; [reflexivity|]. exists s'. exact E.
Defined.

Lemma pmm_block_found_rejects_bad_header_witness :
  exists s',
    n810bm_pmm_block_found (ret 0) x00
      (Some (list_byte_of_string "BME-PMM-BLOCK01")) fresh_system_0
    = Returned tt s'
    /\ drv s' = drv fresh_system_0.
Proof.
  assert (fw_size (list_byte_of_string "BME-PMM-BLOCK01")
          <> N810BM_PMM_BLOCK_SIZE
          \/ take 15 (list_byte_of_string "BME-PMM-BLOCK01")
             <> list_byte_of_string "BME-PMM-BLOCK01") as H.
  { left. vm_compute. discriminate. }
  destruct (pmm_block_found_rejects_bad_header (ret 0) x00
              (list_byte_of_string "BME-PMM-BLOCK01") fresh_system_0 H)
    as (s' & E & D & _).
  exists s'. split; [exact E|exact D].
Defined.

(** The parser on the two sample blocks. *)
Example parse_good_block :
  exists s',
    n810bm_parse_pmm_block x00 good_block fresh_system_0 = Returned 0 s'
    /\ calib (drv s') !! 2%nat
       = Some (mk_adc_calib N810BM_PMM_ADC_BATVOLT 0x01 1 2500 21000 0 0).
Proof. eexists. split; vm_compute; reflexivity. Qed.

(** C2 as stated fails on its last part: a block whose battery voltage
    record is out of bounds is rejected with [-EILSEQ], and the table of
    the controller is then no longer the one it held before the call; it
    holds the defaults and the rejected record. *)
Lemma parse_pmm_block_not_atomic_counterexample :
  exists s',
    n810bm_parse_pmm_block x00 bad_range_block fresh_system_0
    = Returned (- EILSEQ) s'
    /\ calib (drv fresh_system_0) !! 2%nat = Some zero_calib
    /\ calib (drv s') !! 2%nat
       = Some (mk_adc_calib N810BM_PMM_ADC_BATVOLT 0x01 1 0 21000 0 0)
    /\ calib (drv s') <> calib (drv fresh_system_0).
Proof.
  eexists. split; [vm_compute; reflexivity|].
  split; [reflexivity|]. split; [vm_compute; reflexivity|].
  vm_compute. discriminate.
Qed.

(** The periodic check without a battery or charger, at the two ADC
    readings around the threshold: 201 converts to 3199 mV and ends in the
    emergency path, 202 converts to 3202 mV and completes. *)
Example periodic_check_at_3199 :
  exists s1 s',
    n810bm_measure_batt_voltage (fresh_system 0 (fun _ _ => 201))
    = Returned 3199 s1
    /\ n810bm_periodic_check_work (CB := sample_bits)
         (fresh_system 0 (fun _ _ => 201)) = Halted s'
    /\ emergency_calls (trace (hw s')) = 1%nat.
Proof. eexists. eexists. conjs; vm_compute; reflexivity. Qed.

Example periodic_check_at_3202 :
  exists s1 s',
    n810bm_measure_batt_voltage (fresh_system 0 (fun _ _ => 202))
    = Returned 3202 s1
    /\ n810bm_periodic_check_work (CB := sample_bits)
         (fresh_system 0 (fun _ _ => 202)) = Returned tt s'
    /\ emergency_calls (trace (hw s')) = 0%nat.
Proof. eexists. eexists. conjs; vm_compute; reflexivity. Qed.

(** ** Further properties of the driver *)

(** *** Bits of the charge control register *)

(** Turns hypotheses on masks into facts about bit [n]. *)
Ltac bit_facts n :=
  repeat match goal with
  | H : Z.land ?a ?b = 0 |- _ =>
      let H' := fresh "Hb" in
      assert (H' : Z.testbit a n && Z.testbit b n = false)
        by (rewrite <- Z.land_spec, H; apply Z.bits_0);
      clear H
  | H : 0 < ?m < 2 ^ 16 |- _ =>
      let H' := fresh "Hb" in
      assert (H' : (n <? 16) = false -> Z.testbit m n = false)
        by (rewrite <- (Z.mod_small m (2 ^ 16)) by lia;
            rewrite Z.testbit_mod_pow2 by lia; intros ->; reflexivity);
      clear H
  end.

(** Decides an equation between register values bit by bit. *)
Ltac bits :=
  apply Z.bits_inj'; let n := fresh "n" in let Hn := fresh "Hn" in
  intros n Hn;
  bit_facts n;
  unfold u16;
  repeat rewrite ?Z.testbit_mod_pow2, ?Z.land_spec, ?Z.lor_spec,
    ?Z.lnot_spec, ?Z.bits_0 by lia;
  repeat match goal with
         | H : _ = false |- _ => revert H
         | H : _ -> _ = false |- _ => revert H
         end;
  destruct (n <? 16);
  repeat match goal with
         | |- context [Z.testbit ?x n] => destruct (Z.testbit x n)
         end;
  cbn; intros;
  repeat match goal with
         | H : false = false -> _ |- _ => specialize (H eq_refl)
         end;
  congruence.

(** Decides the conditions that are closed terms. *)
Ltac closed_ifs :=
  repeat match goal with
         | |- context [if ?c then _ else _] =>
             let v := eval vm_compute in c in
             let H := fresh in
             match v with
             | true => assert (H : c = true) by (vm_compute; reflexivity)
             | false => assert (H : c = false) by (vm_compute; reflexivity)
             end;
             rewrite H; clear H
         end.

(** Unfolds charge control down to the monad, keeping the warnings and
    the timer folded. *)
Ltac charge_calls :=
  unfold n810bm_start_charge, n810bm_stop_charge,
    n810bm_enable_current_measure, n810bm_disable_current_measure,
    n810bm_notify_charger_state,
    n810bm_notify_charger_pwm, n810bm_notify, tahvo_write, tahvo_maskset,
    tahvo_set, tahvo_clear, tahvo_set_clear_reg_bits;
  unfold dev_err, dev_info, dev_dbg, mutex_lock, mutex_unlock,
    schedule_work, schedule_delayed_work, when, emit in *;
  unfold bind, ret, get_bm, get_hw, modify_bm, modify_hw in *;
  cbn [drv hw] in *.

(** Finds an event in a trace given by its parts. *)
Ltac in_tail :=
  repeat first [rewrite in_app_iff | progress cbn [In]];
  repeat (first [left; reflexivity | right]).

(** Names the parts of [chgctl_layout]. *)
Ltac layout H :=
  destruct H as ((? & ? & ? & ? & ?) & (? & ? & ? & ? & ? & ? & ? & ? & ? & ?)).

(** Settles "powered iff the count is positive" after a step. *)
Ltac refcount_goal :=
  match goal with
  | |- Z.land ?c' ?m = ?m <-> _ =>
      first
        [ let Hset := fresh "Hset" in
          assert (Z.land c' m = m) as Hset by bits;
          split; intros; [lia | exact Hset]
        | match goal with
          | H : Z.land ?c m = m <-> _ |- _ =>
              let E := fresh "E" in
              assert (Z.land c' m = Z.land c m) as E by bits;
              rewrite E; destruct H; split; intros;
              first
                [ lia
                | match goal with H1 : _ -> ?G |- ?G => apply H1; lia end
                | match goal with
                  | H1 : ?P -> _, HP : ?P |- _ => apply H1 in HP; lia
                  end ]
          end
        | let Hclr := fresh "Hclr" in
          assert (Z.land c' m = 0) as Hclr by bits;
          rewrite Hclr; split; intros; lia ]
  end.

(** The multiplication by 0x10624DD3 and the two shifts divide by 250. *)
Lemma timer_value ms :
  0 <= ms <= 0xF905 ->
  Z.land
    (u16 (u16 (Z.shiftr (u64 (u64 0x10624DD3 * u64 (ms + 0xF9))) 32) / 16))
    0xFF
  = (ms + 249) / 250.
Proof.
  intros H. unfold u64, u16.
  rewrite (Z.mod_small 0x10624DD3) by lia.
  rewrite (Z.mod_small (ms + 0xF9)) by lia.
  rewrite (Z.mod_small (0x10624DD3 * (ms + 0xF9))) by lia.
  rewrite Z.shiftr_div_pow2 by lia.
  assert (0x10624DD3 * (ms + 0xF9) / 2 ^ 32 / 16 = (ms + 249) / 250) as E.
  { rewrite Z.div_div by lia.
    change (2 ^ 32 * 16) with 68719476736.
    Z.div_mod_to_equations. lia. }
  assert (0 <= (ms + 249) / 250 <= 255) as Hr.
  { split; [apply Z.div_pos; lia|].
    assert ((ms + 249) / 250 < 256); [|lia].
    apply Z.div_lt_upper_bound; lia. }
  assert (0 <= 0x10624DD3 * (ms + 0xF9) / 2 ^ 32 < 2 ^ 16) as Hq.
  { split; [apply Z.div_pos; lia|].
    apply Z.div_lt_upper_bound; lia. }
  set (q := 0x10624DD3 * (ms + 0xF9) / 2 ^ 32) in *.
  rewrite (Z.mod_small q (2 ^ 16)) by lia.
  rewrite E. rewrite (Z.mod_small _ (2 ^ 16)) by lia.
  change 0xFF with (Z.ones 8). rewrite Z.land_ones by lia.
  apply Z.mod_small. lia.
Qed.

Section ChargeHardware.

Context {L : Type} {LC : Lipocharge L} {CB : ChipBits}.

Implicit Types (s : system (L := L)).

(** A warning adds at most its line to the log. *)
Lemma WARN_ON_run cond s :
  WARN_ON cond s =
  Returned tt
    (mk_system (drv s)
       (set_trace
          (trace (hw s) ++ (if cond then [EvLog KERN_ERR "WARNING"] else []))
          (hw s))).
Proof.
  destruct s as [b w], w, cond; cbn; rewrite ?app_nil_r; reflexivity.
Qed.

(** The state [n810bm_set_current_measure_timer] leaves. *)
Lemma set_current_measure_timer_run (ms : Z) s :
  0 <= ms < 2 ^ 16 ->
  n810bm_set_current_measure_timer ms s =
  Returned tt
    (mk_system (drv s)
       (mk_world (chgcurr (hw s))
          (u16 (Z.lor
             (Z.land
                (u16 (Z.lor
                   (Z.land (chgctl (hw s))
                      (Z.lnot TAHVO_REG_CHGCTL_CURTIMRST))
                   TAHVO_REG_CHGCTL_CURTIMRST))
                (Z.lnot TAHVO_REG_CHGCTL_CURTIMRST)) 0))
          (Z.min 255 ((ms + 249) / 250)) (negb (ms =? 0))
          (retu_status (hw s)) (adc_source (hw s)) (adc_reads (hw s))
          (batcurr_source (hw s)) (batcurr_reads (hw s))
          (trace (hw s)
           ++ [EvTahvoWrite TAHVO_REG_BATCURRTIMER
                 (Z.min 255 ((ms + 249) / 250));
               EvTahvoSetClear TAHVO_REG_CHGCTL TAHVO_REG_CHGCTL_CURTIMRST
                 TAHVO_REG_CHGCTL_CURTIMRST;
               EvTahvoSetClear TAHVO_REG_CHGCTL 0 TAHVO_REG_CHGCTL_CURTIMRST;
               EvTahvoIrq (negb (ms =? 0))]))).
Proof.
  intros Hms.
  unfold n810bm_set_current_measure_timer, tahvo_write, tahvo_set, tahvo_clear,
    tahvo_set_clear_reg_bits, tahvo_enable_irq, tahvo_disable_irq.
  run. unfold c_true.
  assert (u16 ms = ms) as -> by (apply Z.mod_small; lia).
  set (value := Z.land (if ms <=? 0xF905 then _ else 0xFF) 0xFF).
  assert (value = Z.min 255 ((ms + 249) / 250)) as Hv.
  { subst value. destruct (Z.leb_spec ms 0xF905) as [Hle|Hgt].
    - rewrite timer_value by lia.
      assert ((ms + 249) / 250 < 256) by (apply Z.div_lt_upper_bound; lia).
      lia.
    - assert (255 <= (ms + 249) / 250) by (apply Z.div_le_lower_bound; lia).
      rewrite Z.min_l by lia. reflexivity. }
  assert (u16 value = value) as Hu.
  { apply Z.mod_small. rewrite Hv.
    assert (0 <= (ms + 249) / 250) by (apply Z.div_pos; lia). lia. }
  rewrite Hu, Hv.
  destruct s as [b w], w; cbn [drv hw].
  destruct (ms =? 0); cbn [negb]; fields; flat_trace; reflexivity.
Qed.

(** X1: n810bm_set_current_measure_timer, for a period below 2^16 ms: the
    timer register receives the period in units of 250 ms, rounded up and
    capped at 255; the reset bit of the charge control register is pulsed
    and left clear, its other bits and the PWM register keep their values;
    the current interrupt is enabled exactly when the period is not zero. *)
Theorem set_current_measure_timer_units (ms : Z) s :
  0 <= ms < 2 ^ 16 ->
  exists s',
    n810bm_set_current_measure_timer ms s = Returned tt s'
    /\ drv s' = drv s
    /\ batcurrtimer (hw s') = Z.min 255 ((ms + 249) / 250)
    /\ batcurr_irq (hw s') = negb (ms =? 0)
    /\ Z.land (chgctl (hw s')) TAHVO_REG_CHGCTL_CURTIMRST = 0
    /\ Z.land (chgctl (hw s')) (Z.lnot TAHVO_REG_CHGCTL_CURTIMRST)
       = Z.land (u16 (chgctl (hw s))) (Z.lnot TAHVO_REG_CHGCTL_CURTIMRST)
    /\ chgcurr (hw s') = chgcurr (hw s)
    /\ trace (hw s') =
       trace (hw s)
       ++ [EvTahvoWrite TAHVO_REG_BATCURRTIMER
             (Z.min 255 ((ms + 249) / 250));
           EvTahvoSetClear TAHVO_REG_CHGCTL TAHVO_REG_CHGCTL_CURTIMRST
             TAHVO_REG_CHGCTL_CURTIMRST;
           EvTahvoSetClear TAHVO_REG_CHGCTL 0 TAHVO_REG_CHGCTL_CURTIMRST;
           EvTahvoIrq (negb (ms =? 0))].
Proof.
  intros Hms. eexists.
  split; [apply set_current_measure_timer_run; assumption|].
  fields. conjs; try reflexivity; bits.
Qed.

Lemma set_bits_1_2 x :
  Z.testbit (set_bit 2 (set_bit 1 x)) 1 = true
  /\ Z.testbit (set_bit 2 (set_bit 1 x)) 2 = true.
Proof.
  unfold set_bit. rewrite !Z.lor_spec. cbn. rewrite !orb_true_r. auto.
Qed.

(** The state [n810bm_start_charge] leaves, up to the lines logged. *)
Lemma start_charge_run s :
  let b := drv s in
  let w := hw s in
  let mode :=
    Z.lor TAHVO_REG_CHGCTL_EN
      (Z.lor TAHVO_REG_CHGCTL_PWMOVR TAHVO_REG_CHGCTL_PWMOVRZERO) in
  let c1 := u16 (Z.lor (Z.land (chgctl w) (Z.lnot mode)) TAHVO_REG_CHGCTL_EN) in
  let c2 :=
    if current_measure_enabled b =? 0
    then u16 (Z.lor (Z.land c1 (Z.lnot TAHVO_REG_CHGCTL_CURMEAS))
                TAHVO_REG_CHGCTL_CURMEAS)
    else c1 in
  let c3 :=
    u16 (Z.lor (Z.land c2 (Z.lnot TAHVO_REG_CHGCTL_CURTIMRST))
           TAHVO_REG_CHGCTL_CURTIMRST) in
  let c4 := u16 (Z.lor (Z.land c3 (Z.lnot TAHVO_REG_CHGCTL_CURTIMRST)) 0) in
  exists t,
    n810bm_start_charge s =
    Returned tt
      (mk_system
         (mk_n810bm (battery_present b) (charger_present b) (capacity b)
            (charger_enabled b)
            (snd (lipocharge_start
                    (lipocharge_set_capacity (capacity b) (charger b))))
            0 (s32 (current_measure_enabled b + 1)) (calib b)
            (verbose_charge_log b)
            (set_bit N810BM_NOTIFY_charger_pwm
               (set_bit N810BM_NOTIFY_charger_state (notify_flags b)))
            (initialized b))
         (mk_world 0 c4 1 true (retu_status w) (adc_source w) (adc_reads w)
            (batcurr_source w) (batcurr_reads w)
            (trace w ++ t)))
    /\ In (EvSchedule notify_work) t.
Proof.
  intros b w mode c1 c2 c3 c4. subst b w mode c1 c2 c3 c4.
  destruct (lipocharge_start
              (lipocharge_set_capacity (capacity (drv s)) (charger (drv s))))
    as [err c] eqn:Est.
  charge_calls. destruct s as [b w]; cbn [drv hw] in *.
  destruct b, w; fields. unfold c_true. cbn [snd].
  change (u16 0) with 0.
  repeat first
    [ progress fields
    | rewrite WARN_ON_run
    | rewrite set_current_measure_timer_run by lia
    | rewrite Est
    | rewrite negb_involutive
    | match goal with
      | |- context [if ?c then _ else _ ] =>
          lazymatch c with
          | (_ =? _) => destruct c
          end
      end ];
    eexists; (split; [flat_trace; reflexivity|]); in_tail.
Qed.

(** The state [n810bm_stop_charge] leaves, up to the lines logged. *)
Lemma stop_charge_run s :
  let b := drv s in
  let w := hw s in
  let charging := lipocharge_is_charging (charger b) in
  let mode :=
    Z.lor TAHVO_REG_CHGCTL_EN
      (Z.lor TAHVO_REG_CHGCTL_PWMOVR TAHVO_REG_CHGCTL_PWMOVRZERO) in
  let c1 :=
    u16 (Z.lor
      (Z.land
         (u16 (Z.lor
            (Z.land (chgctl w) (Z.lnot TAHVO_REG_CHGCTL_CURTIMRST))
            TAHVO_REG_CHGCTL_CURTIMRST))
         (Z.lnot TAHVO_REG_CHGCTL_CURTIMRST)) 0) in
  let c2 :=
    if s32 (current_measure_enabled b - 1) =? 0
    then u16 (Z.lor (Z.land c1 (Z.lnot TAHVO_REG_CHGCTL_CURMEAS)) 0)
    else c1 in
  let c3 := if charging then c2 else chgctl w in
  exists t,
    n810bm_stop_charge s =
    Returned tt
      (mk_system
         (mk_n810bm (battery_present b) (charger_present b) (capacity b)
            (charger_enabled b) (lipocharge_stop (charger b)) 0
            (if charging then s32 (current_measure_enabled b - 1)
             else current_measure_enabled b)
            (calib b) (verbose_charge_log b)
            (set_bit N810BM_NOTIFY_charger_pwm
               (set_bit N810BM_NOTIFY_charger_state (notify_flags b)))
            (initialized b))
         (mk_world 0 (u16 (Z.lor (Z.land c3 (Z.lnot mode)) 0))
            (if charging then 0 else batcurrtimer w)
            (if charging then false else batcurr_irq w)
            (retu_status w) (adc_source w) (adc_reads w)
            (batcurr_source w) (batcurr_reads w)
            (trace w ++ t)))
    /\ In (EvSchedule notify_work) t.
Proof.
  intros b w charging mode c1 c2 c3. subst b w charging mode c1 c2 c3.
  charge_calls. destruct s as [b w]; cbn [drv hw] in *.
  destruct b as [? ? ? ? chg ? ? ? ? ? ?], w; fields. unfold c_true.
  change (u16 0) with 0.
  destruct (lipocharge_is_charging chg);
  repeat first
    [ progress fields
    | rewrite WARN_ON_run
    | rewrite set_current_measure_timer_run by lia
    | rewrite negb_involutive
    | match goal with
      | |- context [if ?c then _ else _ ] =>
          lazymatch c with
          | (_ =? _) => destruct c
          end
      end ];
    eexists; (split; [flat_trace; reflexivity|]); in_tail.
Qed.

End ChargeHardware.

Section ChargeControl.

Context {L : Type} {LC : Lipocharge L} {CB : ChipBits}.

Implicit Types (s : system (L := L)).

(** X2: n810bm_stop_charge always returns and leaves the charger off: the
    duty cycle is 0 in the driver and in the PWM register, the enable bit
    and both PWM override bits are clear, the algorithm is stopped. The
    measurement timer and its interrupt are switched off exactly when the
    algorithm was charging; otherwise timer, interrupt and enable count are
    untouched. Both charger notifications are flagged and the notify work is
    scheduled. *)
Theorem stop_charge_switches_off s :
  exists s',
    n810bm_stop_charge s = Returned tt s'
    /\ active_current_pwm (drv s') = 0
    /\ chgcurr (hw s') = 0
    /\ Z.land (chgctl (hw s')) TAHVO_REG_CHGCTL_EN = 0
    /\ Z.land (chgctl (hw s')) TAHVO_REG_CHGCTL_PWMOVR = 0
    /\ Z.land (chgctl (hw s')) TAHVO_REG_CHGCTL_PWMOVRZERO = 0
    /\ charger (drv s') = lipocharge_stop (charger (drv s))
    /\ (if lipocharge_is_charging (charger (drv s))
        then batcurr_irq (hw s') = false /\ batcurrtimer (hw s') = 0
        else batcurr_irq (hw s') = batcurr_irq (hw s)
             /\ batcurrtimer (hw s') = batcurrtimer (hw s)
             /\ current_measure_enabled (drv s')
                = current_measure_enabled (drv s))
    /\ Z.testbit (notify_flags (drv s')) N810BM_NOTIFY_charger_state = true
    /\ Z.testbit (notify_flags (drv s')) N810BM_NOTIFY_charger_pwm = true
    /\ In (EvSchedule notify_work) (trace (hw s')).
Proof.
  destruct (stop_charge_run s) as (t & E & Ht). eexists. split; [exact E|].
  fields. conjs; try reflexivity; try apply set_bits_1_2; try bits.
  - destruct (lipocharge_is_charging (charger (drv s))); auto.
  - apply in_or_app. right. exact Ht.
Qed.

(** X3: n810bm_start_charge, when the five masks of the charge control
    register are disjoint 16-bit masks and the enable count is inside int:
    it returns with duty cycle 0, the enable bit set, both PWM override bits
    clear, the measurement timer at one unit (250 ms) with its interrupt
    enabled, the enable count one higher, and both charger notifications
    flagged and scheduled. *)
Theorem start_charge_switches_on s :
  chgctl_layout ->
  INT_MIN < current_measure_enabled (drv s) < INT_MAX ->
  exists s',
    n810bm_start_charge s = Returned tt s'
    /\ active_current_pwm (drv s') = 0
    /\ chgcurr (hw s') = 0
    /\ Z.land (chgctl (hw s')) TAHVO_REG_CHGCTL_EN = TAHVO_REG_CHGCTL_EN
    /\ Z.land (chgctl (hw s')) TAHVO_REG_CHGCTL_PWMOVR = 0
    /\ Z.land (chgctl (hw s')) TAHVO_REG_CHGCTL_PWMOVRZERO = 0
    /\ batcurrtimer (hw s') = 1
    /\ batcurr_irq (hw s') = true
    /\ current_measure_enabled (drv s') = current_measure_enabled (drv s) + 1
    /\ Z.testbit (notify_flags (drv s')) N810BM_NOTIFY_charger_state = true
    /\ Z.testbit (notify_flags (drv s')) N810BM_NOTIFY_charger_pwm = true
    /\ In (EvSchedule notify_work) (trace (hw s')).
Proof.
  intros Hl Hrc. layout Hl.
  destruct (start_charge_run s) as (t & E & Ht). eexists. split; [exact E|].
  fields. conjs; try reflexivity; try apply set_bits_1_2.
  - destruct (current_measure_enabled (drv s) =? 0); bits.
  - destruct (current_measure_enabled (drv s) =? 0); bits.
  - destruct (current_measure_enabled (drv s) =? 0); bits.
  - apply s32_small. unfold is_int, INT_MIN, INT_MAX in *. lia.
  - apply in_or_app. right. exact Ht.
Qed.

(** Starting and stopping the charge keep "powered iff the count is
    positive". *)
Lemma start_charge_refcount_inv s :
  chgctl_layout ->
  INT_MIN < current_measure_enabled (drv s) < INT_MAX ->
  refcount_inv s ->
  exists s', n810bm_start_charge s = Returned tt s' /\ refcount_inv s'.
Proof.
  intros Hl Hrc Hinv. layout Hl.
  assert (s32 (current_measure_enabled (drv s) + 1)
          = current_measure_enabled (drv s) + 1) as Hs1.
  { apply s32_small. unfold is_int, INT_MIN, INT_MAX in *. lia. }
  unfold refcount_inv, curmeas_on in *.
  destruct (start_charge_run s) as (t & E & _). eexists. split; [exact E|].
  fields. rewrite Hs1.
  destruct (Z.eqb_spec (current_measure_enabled (drv s)) 0); refcount_goal.
Qed.

Lemma stop_charge_refcount_inv s :
  chgctl_layout ->
  INT_MIN < current_measure_enabled (drv s) < INT_MAX ->
  refcount_inv s ->
  exists s', n810bm_stop_charge s = Returned tt s' /\ refcount_inv s'.
Proof.
  intros Hl Hrc Hinv. layout Hl.
  assert (s32 (current_measure_enabled (drv s) - 1)
          = current_measure_enabled (drv s) - 1) as Hs2.
  { apply s32_small. unfold is_int, INT_MIN, INT_MAX in *. lia. }
  unfold refcount_inv, curmeas_on in *.
  destruct (stop_charge_run s) as (t & E & _). eexists. split; [exact E|].
  fields. rewrite Hs2.
  destruct (lipocharge_is_charging (charger (drv s)));
    [destruct (Z.eqb_spec (current_measure_enabled (drv s) - 1) 0)|];
    refcount_goal.
Qed.

(** X4: starting and stopping the charge both keep the invariant that the
    current-measurement circuitry is powered exactly when the enable count
    is positive. *)
Theorem charge_control_keeps_refcount_inv s :
  chgctl_layout ->
  INT_MIN < current_measure_enabled (drv s) < INT_MAX ->
  refcount_inv s ->
  (exists s', n810bm_start_charge s = Returned tt s' /\ refcount_inv s')
  /\ (exists s', n810bm_stop_charge s = Returned tt s' /\ refcount_inv s').
Proof.
  intros Hl Hrc Hinv. split.
  - now apply start_charge_refcount_inv.
  - now apply stop_charge_refcount_inv.
Qed.

(** The charge part of the check starts the charge, stops it, or does
    nothing. *)
Lemma periodic_check_charge_cases s :
  periodic_check_charge s =
  (if ready_to_charge (drv s) then n810bm_start_charge s
   else if charger_unplugged (drv s) then n810bm_stop_charge s
   else Returned tt s).
Proof.
  unfold periodic_check_charge, ready_to_charge, charger_unplugged.
  unfold bind at 1. unfold get_bm at 1.
  destruct (charger_present (drv s)) eqn:Hcp; cbn [andb negb];
    [destruct (n810bm_known_battery_present (drv s)); cbn [andb];
     [destruct (charger_enabled (drv s)); cbn [andb];
      [destruct (lipocharge_is_charging (charger (drv s))) eqn:Hch;
       cbn [andb negb]|]|]|];
    unfold when, bind, ret, get_bm;
    rewrite ?Hcp, ?Hch, ?andb_false_r; cbn [andb negb]; try reflexivity.
  - destruct (start_charge_run s) as (t & E & _). rewrite E. fields.
    rewrite Hcp, andb_false_r. reflexivity.
  - destruct (lipocharge_is_charging (charger (drv s))); reflexivity.
Qed.

(** X5: the charge decision of the periodic check: it starts the charge when
    a known battery and the charger are present, charging is enabled and the
    algorithm is idle; otherwise it stops the charge when the algorithm is
    charging and the charger is gone; otherwise it does nothing. So while
    the charger stays plugged a running charge is not stopped by this step,
    whatever the enable switch and the battery say. *)
Theorem periodic_check_charge_decision s :
  periodic_check_charge s =
  (if ready_to_charge (drv s) then n810bm_start_charge s
   else if charger_unplugged (drv s) then n810bm_stop_charge s
   else Returned tt s)
  /\ (lipocharge_is_charging (charger (drv s)) = true ->
      charger_present (drv s) = true ->
      periodic_check_charge s = Returned tt s).
Proof.
  split; [apply periodic_check_charge_cases|].
  intros Hch Hcp. rewrite periodic_check_charge_cases.
  unfold ready_to_charge, charger_unplugged.
  rewrite Hch, Hcp, !andb_false_r. reflexivity.
Qed.

End ChargeControl.

Lemma sample_bits_layout : chgctl_layout (H := sample_bits).
Proof. unfold chgctl_layout. cbn. repeat split; lia. Qed.

Lemma start_charge_switches_on_witness :
  exists s',
    n810bm_start_charge (CB := sample_bits) ready_system = Returned tt s'
    /\ batcurr_irq (hw s') = true
    /\ current_measure_enabled (drv s') = 1.
Proof.
  assert (INT_MIN < current_measure_enabled (drv ready_system) < INT_MAX)
    as Hrc by (unfold INT_MIN, INT_MAX; cbn; lia).
  destruct (start_charge_switches_on (CB := sample_bits) ready_system
              sample_bits_layout Hrc)
    as (s' & E & _ & _ & _ & _ & _ & _ & Hirq & Hc & _).
  exists s'. split; [exact E|]. split; [exact Hirq|exact Hc].
Defined.

Lemma charge_control_keeps_refcount_inv_witness :
  exists s',
    n810bm_start_charge (CB := sample_bits) ready_system = Returned tt s'
    /\ refcount_inv (H := sample_bits) s'.
Proof.
  assert (INT_MIN < current_measure_enabled (drv ready_system) < INT_MAX)
    as Hrc by (unfold INT_MIN, INT_MAX; cbn; lia).
  assert (refcount_inv (H := sample_bits) ready_system) as Hinv.
  { unfold refcount_inv, curmeas_on.
    split; intros H; vm_compute in H; discriminate H. }
  destruct (charge_control_keeps_refcount_inv (CB := sample_bits)
              ready_system sample_bits_layout Hrc Hinv) as [Hstart _].
  exact Hstart.
Defined.

(** *** Averaged conversions *)

Lemma average_fold_ok (l : list Z) : forall value,
  Forall (fun r => 0 <= r) l ->
  0 <= value < 2 ^ 32 ->
  average_fold l value = inr (u32 (value + zsum l))
  /\ reads_needed l = length l.
Proof.
  induction l as [|r l IH]; intros value Hl Hv.
  - cbn. rewrite Z.add_0_r, u32_small by assumption. auto.
  - inversion Hl as [|? ? Hr Hl']; subst.
    cbn [average_fold reads_needed zsum fold_right length].
    destruct (Z.ltb_spec r 0) as [Hneg|_]; [lia|].
    destruct (IH (u32 (value + r)) Hl' (u32_range _)) as [E1 E2].
    rewrite E1, E2. split; [|reflexivity].
    f_equal. unfold u32, zsum. rewrite Zplus_mod_idemp_l. f_equal. lia.
Qed.

Lemma average_fold_fails (l1 l2 : list Z) (e : Z) : forall value,
  Forall (fun r => 0 <= r) l1 ->
  e < 0 ->
  average_fold (l1 ++ e :: l2) value = inl e
  /\ reads_needed (l1 ++ e :: l2) = S (length l1).
Proof.
  induction l1 as [|r l1 IH]; intros value Hl He.
  - cbn. destruct (Z.ltb_spec e 0); [auto|lia].
  - inversion Hl as [|? ? Hr Hl']; subst.
    cbn [app average_fold reads_needed length].
    destruct (Z.ltb_spec r 0) as [Hneg|_]; [lia|].
    destruct (IH (u32 (value + r)) Hl' He) as [E1 E2].
    rewrite E1, E2. auto.
Qed.

Section Measurements.

Context {L : Type}.

Implicit Types (s : system (L := L)).

Lemma same_registers_refl (w : world) : same_registers w w.
Proof. unfold same_registers. auto 10. Qed.

Lemma same_registers_trans (w1 w2 w3 : world) :
  same_registers w1 w2 -> same_registers w2 w3 -> same_registers w1 w3.
Proof. unfold same_registers. intuition congruence. Qed.

(** The loop reads the next conversions in order, up to the first that
    failed, and touches nothing else. *)
Lemma retu_adc_average_loop_spec chan n : forall value s,
  let samples := map (adc_sample (hw s) chan) (seq 0 n) in
  exists s',
    retu_adc_average_loop chan n value s =
    Returned (average_fold samples value) s'
    /\ drv s' = drv s
    /\ same_registers (hw s) (hw s')
    /\ adc_reads (hw s') = (adc_reads (hw s) + reads_needed samples)%nat
    /\ trace (hw s') =
       trace (hw s) ++ replicate (reads_needed samples) (EvAdcRead chan).
Proof.
  induction n as [|n IH]; intros value s samples; subst samples.
  - exists s. cbn. rewrite Nat.add_0_r, app_nil_r.
    auto using same_registers_refl.
  - cbn [retu_adc_average_loop seq map average_fold reads_needed].
    unfold bind. rewrite retu_read_adc_run.
    destruct (adc_sample (hw s) chan 0 <? 0).
    + eexists. split; [reflexivity|]. destruct s as [b w], w. cbn.
      unfold same_registers. cbn. conjs; auto. lia.
    + match goal with
      | |- context [retu_adc_average_loop chan n ?v ?s1] =>
          destruct (IH v s1) as (s' & E & D & R & N & T)
      end.
      assert (map (adc_sample
                     (hw (mk_system (drv s)
                            (set_trace
                               (trace (hw s) ++ [EvAdcRead chan])
                               (set_adc_reads (S (adc_reads (hw s)))
                                  (hw s))))) chan) (seq 0 n)
              = map (adc_sample (hw s) chan) (seq 1 n)) as Hshift.
      { rewrite <- seq_shift, map_map. apply map_ext. intros k.
        unfold adc_sample. destruct s as [b w], w. cbn. do 2 f_equal. lia. }
      rewrite Hshift in *.
      exists s'. split; [exact E|]. destruct s as [b w], w.
      cbn [drv hw] in *. fields. conjs.
      * exact D.
      * eapply same_registers_trans; [|exact R].
        unfold same_registers. cbn. auto 10.
      * rewrite N. lia.
      * rewrite T. cbn [replicate]. now rewrite <- app_assoc.
Qed.

Lemma average_fold_is_int (x : nat -> Z) (l : list nat) : forall value e,
  (forall k, is_int (x k)) ->
  average_fold (map x l) value = inl e -> is_int e /\ e < 0.
Proof.
  induction l as [|k l IH]; intros value e Hx; cbn [map average_fold].
  - discriminate.
  - destruct (Z.ltb_spec (x k) 0) as [Hneg|_].
    + intros H. inversion H; subst. auto.
    + apply IH. assumption.
Qed.

(** Averaging always returns an [int], changes nothing in the driver and
    no register. *)
Lemma retu_adc_average_frame chan n s :
  exists r s',
    retu_adc_average chan n s = Returned r s'
    /\ drv s' = drv s
    /\ same_registers (hw s) (hw s')
    /\ is_int r.
Proof.
  unfold retu_adc_average. destruct (n =? 0).
  - unfold bind. rewrite WARN_ON_run. eexists. eexists.
    split; [reflexivity|]. destruct s as [b w], w. cbn.
    unfold same_registers, is_int, INT_MIN, INT_MAX. cbn. conjs; auto; lia.
  - unfold bind.
    destruct (retu_adc_average_loop_spec chan (Z.to_nat n) 0 s)
      as (s' & E & D & R & _).
    rewrite E.
    destruct (average_fold _ 0) as [e|v] eqn:Ef.
    + exists e, s'. conjs; auto.
      apply average_fold_is_int in Ef; [tauto|].
      intros k. apply s32_is_int.
    + eexists. exists s'. conjs; auto. apply s32_is_int.
Qed.

(** What averaging returns and how many conversions it makes. *)
Lemma retu_adc_average_spec chan (n : Z) s :
  0 < n < 2 ^ 32 ->
  let x := adc_sample (hw s) chan in
  exists r s' (k : nat),
    retu_adc_average chan n s = Returned r s'
    /\ drv s' = drv s
    /\ same_registers (hw s) (hw s')
    /\ adc_reads (hw s') = (adc_reads (hw s) + k)%nat
    /\ trace (hw s') = trace (hw s) ++ replicate k (EvAdcRead chan)
    /\ ((forall j, (j < Z.to_nat n)%nat -> 0 <= x j) ->
        k = Z.to_nat n
        /\ r = u32 (zsum (map x (seq 0 (Z.to_nat n)))) / n
        /\ 0 <= r)
    /\ (forall i, (i < Z.to_nat n)%nat -> x i < 0 ->
        (forall j, (j < i)%nat -> 0 <= x j) ->
        k = S i /\ r = x i).
Proof.
  intros Hn x. unfold retu_adc_average.
  destruct (Z.eqb_spec n 0) as [H0|_]; [lia|]. unfold bind.
  destruct (retu_adc_average_loop_spec chan (Z.to_nat n) 0 s)
    as (s' & E & D & R & N & T).
  rewrite E. fold x in E, N, T |- *.
  set (samples := map x (seq 0 (Z.to_nat n))) in *.
  exists (match average_fold samples 0 with
          | inl e => e
          | inr value => s32 (u32 (value / n))
          end), s', (reads_needed samples).
  split; [destruct (average_fold samples 0); reflexivity|].
  conjs; auto.
  - intros Hok.
    assert (Forall (fun r => 0 <= r) samples) as Hall.
    { subst samples. apply List.Forall_forall. intros r Hr.
      apply in_map_iff in Hr. destruct Hr as (j & <- & Hj).
      apply in_seq in Hj. apply Hok. lia. }
    destruct (average_fold_ok samples 0 Hall ltac:(lia)) as [Ef Er].
    rewrite Ef, Er. subst samples. rewrite length_map, length_seq.
    split; [reflexivity|]. cbn [Z.add].
    pose proof (u32_range (zsum (map x (seq 0 (Z.to_nat n))))) as Hv.
    set (v := u32 _) in *.
    assert (v / n < 2 ^ 31) as Hq.
    { destruct (Z.eq_dec n 1) as [->|Hn1].
      - rewrite Z.div_1_r. subst v. change (Z.to_nat 1) with 1%nat.
        cbn [seq map zsum fold_right]. rewrite Z.add_0_r.
        pose proof (s32_is_int
                      (adc_source (hw s) (adc_reads (hw s) + 0)%nat chan))
          as Hi.
        specialize (Hok 0%nat ltac:(lia)).
        unfold x, adc_sample in *. unfold is_int, INT_MIN, INT_MAX in Hi.
        rewrite u32_small; lia.
      - apply Z.div_lt_upper_bound; lia. }
    assert (0 <= v / n) by (apply Z.div_pos; lia).
    rewrite u32_small by lia.
    rewrite s32_small by (unfold is_int, INT_MIN, INT_MAX; lia). auto.
  - intros i Hi Hneg Hbefore.
    assert (samples =
            map x (seq 0 i) ++ x i :: map x (seq (S i) (Z.to_nat n - S i)))
      as Hsplit.
    { subst samples.
      replace (Z.to_nat n) with (i + S (Z.to_nat n - S i))%nat at 1 by lia.
      rewrite seq_app, map_app. cbn [seq map Nat.add]. reflexivity. }
    assert (Forall (fun r => 0 <= r) (map x (seq 0 i))) as Hall.
    { apply List.Forall_forall. intros r Hr.
      apply in_map_iff in Hr. destruct Hr as (j & <- & Hj).
      apply in_seq in Hj. apply Hbefore. lia. }
    destruct (average_fold_fails (map x (seq 0 i))
                (map x (seq (S i) (Z.to_nat n - S i))) (x i) 0 Hall Hneg)
      as [Ef Er].
    rewrite Hsplit, Ef, Er, length_map, length_seq. auto.
Qed.

(** X6: retu_adc_average chan n, for 0 < n < 2^32: the driver state and the
    registers are unchanged and k conversions of the channel are made. If
    the first n samples are all non-negative, k = n and the result is the
    32-bit sum of the samples divided by n; at the first negative sample the
    loop stops and returns that sample, after exactly that many conversions. *)
Theorem retu_adc_average_stops_at_first_failure chan (n : Z) s :
  0 < n < 2 ^ 32 ->
  let x := adc_sample (hw s) chan in
  exists r s' (k : nat),
    retu_adc_average chan n s = Returned r s'
    /\ drv s' = drv s
    /\ same_registers (hw s) (hw s')
    /\ adc_reads (hw s') = (adc_reads (hw s) + k)%nat
    /\ trace (hw s') = trace (hw s) ++ replicate k (EvAdcRead chan)
    /\ ((forall j, (j < Z.to_nat n)%nat -> 0 <= x j) ->
        k = Z.to_nat n
        /\ r = u32 (zsum (map x (seq 0 (Z.to_nat n)))) / n
        /\ 0 <= r)
    /\ (forall i, (i < Z.to_nat n)%nat -> x i < 0 ->
        (forall j, (j < i)%nat -> 0 <= x j) ->
        k = S i /\ r = x i).
Proof. apply retu_adc_average_spec. Qed.

(** The two measurements of the periodic check read the ADC and nothing
    else. *)
Lemma measure_batt_voltage_frame s :
  exists mv s',
    n810bm_measure_batt_voltage s = Returned mv s'
    /\ drv s' = drv s
    /\ same_registers (hw s) (hw s').
Proof.
  unfold n810bm_measure_batt_voltage, bind.
  destruct (retu_adc_average_frame RETU_ADC_BATTVOLT 5 s)
    as (r & s' & E & D & R & _).
  rewrite E. destruct (r <? 0); [|destruct (r <=? 0x37)];
    eexists; exists s'; (split; [reflexivity|]); auto.
Qed.

Lemma read_batt_capacity_frame s :
  exists cap s',
    n810bm_read_batt_capacity s = Returned cap s'
    /\ (cap = N810BM_CAP_1500MAH \/ cap = N810BM_CAP_UNKNOWN)
    /\ drv s' = drv s
    /\ same_registers (hw s) (hw s').
Proof.
  unfold n810bm_read_batt_capacity, bind.
  destruct (retu_adc_average_frame RETU_ADC_BSI 5 s)
    as (r & s' & E & D & R & _).
  rewrite E. unfold dev_err, emit, modify_hw, ret.
  destruct s' as [b' w']. cbn [drv hw] in *.
  destruct (r <? 0); [|destruct (_ && _)];
    eexists; eexists; (split; [reflexivity|]); cbn [drv hw];
    (split; [auto|]); (split; [assumption|]);
    destruct w'; unfold same_registers in *; cbn in *; assumption.
Qed.

(** The conversion of the averaged reading to millivolts. *)
Lemma measure_batt_voltage_spec s :
  exists avg mv s',
    retu_adc_average RETU_ADC_BATTVOLT 5 s = Returned avg s'
    /\ n810bm_measure_batt_voltage s = Returned mv s'
    /\ (avg < 0 -> mv = avg)
    /\ (0 <= avg -> 2800 <= mv)
    /\ (0 <= avg <= 0x37 -> mv = 2800)
    /\ (0x37 <= avg <= 1568133 ->
        mv = 2800 + (avg - 0x37) * 2739 / 1000)
    /\ (avg <= 1568133 -> (mv < N810BM_MIN_VOLTAGE_THRES <-> avg < 202)).
Proof.
  destruct (retu_adc_average_frame RETU_ADC_BATTVOLT 5 s)
    as (avg & s' & E & _ & _ & Hint).
  unfold n810bm_measure_batt_voltage, bind. rewrite E.
  unfold is_int, INT_MIN, INT_MAX in Hint. unfold N810BM_MIN_VOLTAGE_THRES.
  destruct (Z.ltb_spec avg 0) as [Hneg|Hpos].
  { exists avg, avg, s'. conjs; auto; try lia. }
  destruct (Z.leb_spec avg 0x37) as [Hlow|Hhigh].
  { exists avg, 2800, s'. conjs; auto; try lia.
    intros [Hge _]. replace avg with 0x37 by lia. reflexivity. }
  eexists avg, _, s'. split; [reflexivity|]. split; [reflexivity|].
  change (u32 (u32 ((4200 - 2800) * 1000) / u32 (0x236 - 0x37))) with 2739.
  rewrite (u32_small (avg - 0x37)) by lia.
  pose proof (u32_range ((avg - 0x37) * 2739)) as Hu.
  set (p := u32 ((avg - 0x37) * 2739)) in *.
  assert (0 <= p / 1000 <= 4294967) as Hq.
  { split; [apply Z.div_pos; lia|].
    assert (p / 1000 < 4294968); [|lia].
    apply Z.div_lt_upper_bound; lia. }
  rewrite (u32_small (p / 1000)) by lia.
  rewrite (u32_small (2800 + p / 1000)) by lia.
  rewrite s32_small by (unfold is_int, INT_MIN, INT_MAX; lia).
  assert (avg <= 1568133 -> p = (avg - 0x37) * 2739) as Hp.
  { intros Hle. subst p. apply u32_small. lia. }
  conjs; try lia.
  - intros [_ Hle]. rewrite (Hp Hle). reflexivity.
  - intros Hle. rewrite (Hp Hle). clear Hp Hq Hu. clearbody p.
    split; intros H.
    + assert ((avg - 55) * 2739 / 1000 < 400) as Hd by lia.
      destruct (Z.lt_ge_cases avg 202) as [|Hge]; [assumption|exfalso].
      assert (400 <= (avg - 55) * 2739 / 1000); [|lia].
      apply Z.div_le_lower_bound; lia.
    + assert ((avg - 55) * 2739 / 1000 < 400); [|lia].
      apply Z.div_lt_upper_bound; lia.
Qed.

(** X7: n810bm_measure_batt_voltage takes the average of five conversions: a
    negative average is passed through as the error; otherwise the result is
    at least 2800 mV, exactly 2800 up to raw value 0x37 and 2800 + (avg -
    0x37) * 2739 / 1000 above (while the 32-bit product does not wrap), so
    that the low-voltage threshold of 3200 mV corresponds to a raw average
    below 202. *)
Theorem measure_batt_voltage_scale s :
  exists avg mv s',
    retu_adc_average RETU_ADC_BATTVOLT 5 s = Returned avg s'
    /\ n810bm_measure_batt_voltage s = Returned mv s'
    /\ (avg < 0 -> mv = avg)
    /\ (0 <= avg -> 2800 <= mv)
    /\ (0 <= avg <= 0x37 -> mv = 2800)
    /\ (0x37 <= avg <= 1568133 ->
        mv = 2800 + (avg - 0x37) * 2739 / 1000)
    /\ (avg <= 1568133 -> (mv < N810BM_MIN_VOLTAGE_THRES <-> avg < 202)).
Proof. apply measure_batt_voltage_spec. Qed.

(** Above the raw value 0x37 the millivolts are 2800 plus the scaled
    excess, the product being taken in 32 bits. *)
Lemma measure_batt_voltage_high s avg s' :
  retu_adc_average RETU_ADC_BATTVOLT 5 s = Returned avg s' ->
  0x37 < avg ->
  n810bm_measure_batt_voltage s =
  Returned (2800 + u32 ((avg - 0x37) * 2739) / 1000) s'.
Proof.
  intros E Hhigh.
  destruct (retu_adc_average_frame RETU_ADC_BATTVOLT 5 s)
    as (avg' & s'' & E' & _ & _ & Hint).
  rewrite E in E'. injection E' as Ha Hs. subst avg' s''.
  unfold n810bm_measure_batt_voltage, bind. rewrite E.
  unfold is_int, INT_MIN, INT_MAX in Hint.
  destruct (Z.ltb_spec avg 0) as [Hneg|Hpos]; [lia|].
  destruct (Z.leb_spec avg 0x37) as [Hlow|_]; [lia|].
  change (u32 (u32 ((4200 - 2800) * 1000) / u32 (0x236 - 0x37))) with 2739.
  rewrite (u32_small (avg - 0x37)) by lia.
  pose proof (u32_range ((avg - 0x37) * 2739)) as Hu.
  set (p := u32 ((avg - 0x37) * 2739)) in *.
  assert (0 <= p / 1000 <= 4294967) as Hq.
  { split; [apply Z.div_pos; lia|].
    assert (p / 1000 < 4294968); [|lia].
    apply Z.div_lt_upper_bound; lia. }
  rewrite (u32_small (p / 1000)) by lia.
  rewrite (u32_small (2800 + p / 1000)) by lia.
  rewrite s32_small by (unfold is_int, INT_MIN, INT_MAX; lia).
  reflexivity.
Qed.

(** Either the first [n] samples are all good, or there is a first bad
    one. *)
Lemma first_negative (x : nat -> Z) (n : nat) :
  (forall j, (j < n)%nat -> 0 <= x j)
  \/ exists i, (i < n)%nat /\ x i < 0 /\ forall j, (j < i)%nat -> 0 <= x j.
Proof.
  induction n as [|n IH].
  - left. intros j Hj. lia.
  - destruct IH as [Hok|(i & Hi & Hneg & Hb)].
    + destruct (Z.lt_ge_cases (x n) 0) as [Hn|Hn].
      * right. exists n. split; [lia|]. split; [assumption|].
        intros j Hj. apply Hok. assumption.
      * left. intros j Hj. destruct (Nat.eq_dec j n) as [->|Hne].
        -- assumption.
        -- apply Hok. lia.
    + right. exists i. split; [lia|]. split; assumption.
Qed.

(** A measurement of the battery voltage against the conversions it takes:
    five good ones, or the good ones before the first bad one and that
    one. *)
Lemma measure_batt_voltage_run s :
  let x := adc_sample (hw s) RETU_ADC_BATTVOLT in
  exists avg mv s' (k : nat),
    retu_adc_average RETU_ADC_BATTVOLT 5 s = Returned avg s'
    /\ n810bm_measure_batt_voltage s = Returned mv s'
    /\ drv s' = drv s
    /\ same_registers (hw s) (hw s')
    /\ adc_reads (hw s') = (adc_reads (hw s) + k)%nat
    /\ trace (hw s') =
       trace (hw s) ++ replicate k (EvAdcRead RETU_ADC_BATTVOLT)
    /\ ((k = 5%nat
         /\ (forall j, (j < 5)%nat -> 0 <= x j)
         /\ avg = u32 (x 0%nat + x 1%nat + x 2%nat + x 3%nat + x 4%nat) / 5
         /\ 0 <= avg)
        \/ (exists i,
              (i < 5)%nat /\ k = S i /\ x i < 0
              /\ (forall j, (j < i)%nat -> 0 <= x j)
              /\ avg = x i))
    /\ (avg < 0 -> mv = avg)
    /\ (0 <= avg -> 2800 <= mv)
    /\ (0 <= avg <= 0x37 -> mv = 2800)
    /\ (0x37 <= avg <= 1568133 ->
        mv = 2800 + (avg - 0x37) * 2739 / 1000)
    /\ (avg <= 1568133 -> (mv < N810BM_MIN_VOLTAGE_THRES <-> avg < 202))
    /\ (0x37 < avg -> mv = 2800 + u32 ((avg - 0x37) * 2739) / 1000).
Proof.
  intros x.
  destruct (retu_adc_average_spec RETU_ADC_BATTVOLT 5 s ltac:(lia))
    as (r & s' & k & E & D & R & N & T & Hok & Hfail).
  destruct (measure_batt_voltage_spec s)
    as (avg & mv & s'' & E' & Em & H1 & H2 & H3 & H4 & H5).
  rewrite E in E'. injection E' as Hr Hs. subst avg s''.
  fold x in Hok, Hfail. change (Z.to_nat 5) with 5%nat in Hok, Hfail.
  exists r, mv, s', k. conjs; try assumption.
  2: { intros Hhigh.
       rewrite (measure_batt_voltage_high s r s' E Hhigh) in Em.
       now injection Em. }
  destruct (first_negative x 5) as [Hall|(i & Hi & Hneg & Hb)].
  - left. destruct (Hok Hall) as (-> & -> & Hpos).
    conjs; try assumption; try reflexivity.
    cbn [seq map zsum fold_right]. do 2 f_equal. lia.
  - right. exists i. destruct (Hfail i Hi Hneg Hb) as (-> & ->). auto.
Qed.

End Measurements.

(** *** The presence bits and the capacity *)

Section Presence.

Context {L : Type} {LC : Lipocharge L} {CB : ChipBits}.

Implicit Types (s : system (L := L)).

(** What the presence part of the check does to the driver. *)
Lemma periodic_check_presence_spec s :
  let status := u16 (retu_status (hw s)) in
  let bp := c_true (Z.land status RETU_REG_STATUS_BATAVAIL) in
  let cp := c_true (Z.land status RETU_REG_STATUS_CHGPLUG) in
  exists s',
    periodic_check_presence s = Returned tt s'
    /\ battery_present (drv s') = bp
    /\ charger_present (drv s') = cp
    /\ (bp = battery_present (drv s) ->
        capacity (drv s') = capacity (drv s)
        /\ adc_reads (hw s') = adc_reads (hw s))
    /\ (battery_present (drv s) = true -> bp = false ->
        capacity (drv s') = N810BM_CAP_NONE)
    /\ (battery_present (drv s) = false -> bp = true ->
        capacity (drv s') = N810BM_CAP_1500MAH
        \/ capacity (drv s') = N810BM_CAP_UNKNOWN)
    /\ ((battery_present (drv s) = false ->
         capacity (drv s) = N810BM_CAP_NONE) ->
        battery_present (drv s') = false ->
        capacity (drv s') = N810BM_CAP_NONE)
    /\ charger (drv s') = charger (drv s)
    /\ charger_enabled (drv s') = charger_enabled (drv s)
    /\ active_current_pwm (drv s') = active_current_pwm (drv s)
    /\ current_measure_enabled (drv s') = current_measure_enabled (drv s)
    /\ same_registers (hw s) (hw s')
    /\ notify_flags (drv s') =
       (if eqb cp (charger_present (drv s)) then notify_flags (drv s)
        else set_bit N810BM_NOTIFY_charger_present (notify_flags (drv s))).
Proof.
  intros status bp cp.
  unfold periodic_check_presence, retu_read_status,
    n810bm_notify_charger_present, n810bm_notify.
  run. fold status. fold bp. fold cp. clearbody bp cp. clear status.
  destruct s as [b w]. cbn [drv hw].
  destruct b as [bpres cpres ? ? ? ? ? ? ? ? ?], w. fields.
  destruct bp, bpres; cbn [eqb negb];
    try match goal with
        | |- context [n810bm_read_batt_capacity ?s1] =>
            destruct (read_batt_capacity_frame s1)
              as (cap & [b2 w2] & E & Hcap & D & R);
            rewrite E; cbn [drv hw] in D, R; subst b2; destruct w2;
            unfold same_registers in R; cbn in R;
            destruct R as (? & ? & ? & ? & ? & ?); subst;
            destruct (cap =? N810BM_CAP_UNKNOWN)
        end;
    destruct cp, cpres; cbn [eqb negb]; fields;
    eexists; (split; [reflexivity|]); fields;
    unfold same_registers; fields;
    conjs; try reflexivity; try tauto; try discriminate; auto.
Qed.

(** X8: the presence step of the periodic check: both presence flags are
    what the status register says; the capacity is kept and no conversion is
    made when the battery presence did not change, becomes NONE when the
    battery went away, and is 1500 mAh or UNKNOWN when a battery appeared;
    the charger state, the enable switch, the duty cycle, the enable count
    and the registers are untouched, and the charger-present notification is
    flagged exactly when the charger presence changed. *)
Theorem periodic_check_presence_effect s :
  let status := u16 (retu_status (hw s)) in
  let bp := c_true (Z.land status RETU_REG_STATUS_BATAVAIL) in
  let cp := c_true (Z.land status RETU_REG_STATUS_CHGPLUG) in
  exists s',
    periodic_check_presence s = Returned tt s'
    /\ battery_present (drv s') = bp
    /\ charger_present (drv s') = cp
    /\ (bp = battery_present (drv s) ->
        capacity (drv s') = capacity (drv s)
        /\ adc_reads (hw s') = adc_reads (hw s))
    /\ (battery_present (drv s) = true -> bp = false ->
        capacity (drv s') = N810BM_CAP_NONE)
    /\ (battery_present (drv s) = false -> bp = true ->
        capacity (drv s') = N810BM_CAP_1500MAH
        \/ capacity (drv s') = N810BM_CAP_UNKNOWN)
    /\ ((battery_present (drv s) = false ->
         capacity (drv s) = N810BM_CAP_NONE) ->
        battery_present (drv s') = false ->
        capacity (drv s') = N810BM_CAP_NONE)
    /\ charger (drv s') = charger (drv s)
    /\ charger_enabled (drv s') = charger_enabled (drv s)
    /\ active_current_pwm (drv s') = active_current_pwm (drv s)
    /\ current_measure_enabled (drv s') = current_measure_enabled (drv s)
    /\ same_registers (hw s) (hw s')
    /\ notify_flags (drv s') =
       (if eqb cp (charger_present (drv s)) then notify_flags (drv s)
        else set_bit N810BM_NOTIFY_charger_present (notify_flags (drv s))).
Proof. apply periodic_check_presence_spec. Qed.

(** X9: the battery_level attribute never changes the driver state or the
    registers; it answers -ENODEV with no text, or the text of a percentage
    between 0 and 100 with its length; with no battery it answers 0 without
    touching the hardware. *)
Theorem battery_level_show_range s :
  exists r s',
    n810bm_attr_battery_level_show s = Returned r s'
    /\ drv s' = drv s
    /\ same_registers (hw s) (hw s')
    /\ (r = (- ENODEV, EmptyString)
        \/ exists percent,
             0 <= percent <= 100
             /\ r = (Z.of_nat (String.length (snprintf_u percent)),
                     snprintf_u percent))
    /\ (battery_present (drv s) = false -> r = (2, snprintf_u 0) /\ s' = s).
Proof.
  assert (forall mv, 0 <= n810bm_mvolt2percent mv <= 100) as Hp.
  { intros mv. rewrite mvolt2percent_linear.
    assert (3700 <= clamp mv 3700 4150 <= 4150) as Hc.
    { unfold clamp. destruct (mv <? 3700) eqn:E1.
      - simpl. lia.
      - apply Z.ltb_ge in E1. destruct (mv >? 4150) eqn:E2; lia. }
    split; [apply Z.div_pos; lia|apply Z.div_le_upper_bound; lia]. }
  unfold n810bm_attr_battery_level_show. run.
  destruct (battery_present (drv s)) eqn:Hb; cbn [negb orb].
  - destruct (lipocharge_is_charging (charger (drv s))).
    + eexists. exists s. split; [reflexivity|].
      conjs; auto using same_registers_refl.
      right. exists (n810bm_mvolt2percent (u32 0)). auto.
    + destruct (measure_batt_voltage_frame s) as (mv & s' & E & D & R).
      rewrite E.
      destruct (mv >=? 0); eexists; exists s'; (split; [reflexivity|]);
        conjs; auto; try discriminate.
      right. exists (n810bm_mvolt2percent (u32 mv)). auto.
  - eexists. exists s. split; [reflexivity|].
    conjs; auto using same_registers_refl.
    right. exists (n810bm_mvolt2percent (u32 0)). auto.
Qed.

(** X10: raising a notification twice is the same as raising it once: the
    second call changes no flag, and the notify work then emits the same
    events; and two notifications may be raised in either order. *)
Theorem n810bm_notify_coalesces (f g : Z) s :
  exists s1 s2 s1' s2' events,
    n810bm_notify f s = Returned tt s1
    /\ n810bm_notify f s1 = Returned tt s2
    /\ notify_flags (drv s2) = notify_flags (drv s1)
    /\ n810bm_notify_work s1 = Returned tt s1'
    /\ n810bm_notify_work s2 = Returned tt s2'
    /\ trace (hw s1') = trace (hw s1) ++ events
    /\ trace (hw s2') = trace (hw s2) ++ events
    /\ bind (n810bm_notify f) (fun _ => n810bm_notify g) s
       = bind (n810bm_notify g) (fun _ => n810bm_notify f) s.
Proof.
  assert (forall w, set_bit f (set_bit f w) = set_bit f w) as Hidem.
  { intros w. unfold set_bit. rewrite <- Z.lor_assoc, Z.lor_diag.
    reflexivity. }
  assert (forall w, set_bit g (set_bit f w) = set_bit f (set_bit g w))
    as Hcomm.
  { intros w. unfold set_bit. rewrite <- !Z.lor_assoc.
    f_equal. apply Z.lor_comm. }
  eexists. eexists. eexists. eexists. eexists.
  split; [apply notify_run|].
  split; [apply notify_run|].
  split; [cbn [drv notify_flags set_notify_flags]; apply Hidem|].
  split; [apply notify_work_run|].
  split; [apply notify_work_run|].
  split; [reflexivity|].
  split; [fields; rewrite Hidem; reflexivity|].
  unfold n810bm_notify. run.
  destruct s as [b w], b, w. fields. rewrite Hcomm. reflexivity.
Qed.

End Presence.

(** *** The voltage monitor and the battery level, against the hardware *)

Section Monitor.

Context {L : Type} {LC : Lipocharge L} {CB : ChipBits}.

Implicit Types (s : system (L := L)).

(** C1: in a cycle of the periodic check the presence flags are the two
    bits of the status register, and the device is taken as draining
    unless both are set and the capacity is a known one.  When draining,
    the check converts on the battery voltage channel, five times or up to
    the first conversion that fails, and nowhere else in the cycle; the
    measured value is the failed conversion, or the millivolts computed
    from the average of the five.  The cycle then ends in the emergency
    path (one call of [cbus_emergency()], nothing after it) exactly when
    the measured value is below 3200, a failed measurement being a
    negative value; otherwise, and when not draining, it completes without
    any emergency call. *)
Theorem periodic_check_enforces_min_voltage s :
  let status := u16 (retu_status (hw s)) in
  let bp := c_true (Z.land status RETU_REG_STATUS_BATAVAIL) in
  let cp := c_true (Z.land status RETU_REG_STATUS_CHGPLUG) in
  exists s1 t1,
    periodic_check_presence s = Returned tt s1
    /\ trace (hw s1) = trace (hw s) ++ t1
    /\ forallb (calm false) t1 = true
    /\ same_registers (hw s) (hw s1)
    /\ battery_present (drv s1) = bp
    /\ charger_present (drv s1) = cp
    /\ (bp = battery_present (drv s) ->
        capacity (drv s1) = capacity (drv s)
        /\ adc_reads (hw s1) = adc_reads (hw s))
    /\ (battery_present (drv s) = true -> bp = false ->
        capacity (drv s1) = N810BM_CAP_NONE)
    /\ (battery_present (drv s) = false -> bp = true ->
        capacity (drv s1) = N810BM_CAP_1500MAH
        \/ capacity (drv s1) = N810BM_CAP_UNKNOWN)
    /\ draining (drv s1) =
       negb (bp && cp
             && negb (capacity (drv s1) =? N810BM_CAP_UNKNOWN)
             && negb (capacity (drv s1) =? N810BM_CAP_NONE))
    /\ if draining (drv s1) then
         let x := adc_sample (hw s1) RETU_ADC_BATTVOLT in
         exists avg mv s2 (k : nat),
           n810bm_measure_batt_voltage s1 = Returned mv s2
           /\ drv s2 = drv s1
           /\ same_registers (hw s1) (hw s2)
           /\ adc_reads (hw s2) = (adc_reads (hw s1) + k)%nat
           /\ trace (hw s2) =
              trace (hw s1) ++ replicate k (EvAdcRead RETU_ADC_BATTVOLT)
           /\ ((k = 5%nat
                /\ (forall j, (j < 5)%nat -> 0 <= x j)
                /\ avg = u32 (x 0%nat + x 1%nat + x 2%nat + x 3%nat
                              + x 4%nat) / 5
                /\ 0 <= avg)
               \/ (exists i,
                     (i < 5)%nat /\ k = S i /\ x i < 0
                     /\ (forall j, (j < i)%nat -> 0 <= x j)
                     /\ avg = x i))
           /\ (avg < 0 -> mv = avg)
           /\ (0 <= avg -> 2800 <= mv)
           /\ (0 <= avg <= 0x37 -> mv = 2800)
           /\ (0x37 <= avg <= 1568133 ->
               mv = 2800 + (avg - 0x37) * 2739 / 1000)
           /\ (avg <= 1568133 ->
               (mv < N810BM_MIN_VOLTAGE_THRES <-> avg < 202))
           /\ (0x37 < avg ->
               mv = 2800 + u32 ((avg - 0x37) * 2739) / 1000)
           /\ if mv <? N810BM_MIN_VOLTAGE_THRES then
                exists s',
                  n810bm_periodic_check_work s = Halted s'
                  /\ drv s' = drv s2
                  /\ trace (hw s') =
                     trace (hw s2)
                     ++ [EvLog KERN_EMERG
                           ("n810 battery management fatal fault: " +:+
                            (if mv <? 0
                             then "check: Failed to measure voltage"
                             else "check: Minimum voltage threshold reached"));
                         EvCbusEmergency]
                  /\ emergency_calls (trace (hw s')) =
                     S (emergency_calls (trace (hw s)))
              else
                exists s' t3,
                  n810bm_periodic_check_work s = Returned tt s'
                  /\ trace (hw s') = trace (hw s2) ++ t3
                  /\ forallb (calm false) t3 = true
                  /\ emergency_calls (trace (hw s')) =
                     emergency_calls (trace (hw s))
       else
         periodic_check_drain s1 = Returned tt s1
         /\ exists s' t3,
             n810bm_periodic_check_work s = Returned tt s'
             /\ trace (hw s') = trace (hw s1) ++ t3
             /\ forallb (calm false) t3 = true
             /\ emergency_calls (trace (hw s')) =
                emergency_calls (trace (hw s)).
Proof.
  intros status bp cp.
  destruct (periodic_check_drain_cases s) as (s1 & t1 & E1 & T1 & C1 & Hcase).
  pose proof (periodic_check_presence_spec s) as P. cbv zeta in P.
  fold status in P. fold bp in P. fold cp in P.
  destruct P as (s1' & E1' & Hbp & Hcp & Hsame & Hgone & Hnew & _ & _ & _
                 & _ & _ & R1 & _).
  rewrite E1 in E1'. injection E1' as Hs. subst s1'.
  exists s1, t1. conjs; try assumption.
  - unfold draining, n810bm_known_battery_present. rewrite Hbp, Hcp.
    destruct bp, cp, (capacity (drv s1) =? N810BM_CAP_UNKNOWN),
      (capacity (drv s1) =? N810BM_CAP_NONE); reflexivity.
  - destruct (draining (drv s1)); [|exact Hcase].
    destruct Hcase as (mv & s2 & t2 & Em & _ & _ & Hif).
    destruct (measure_batt_voltage_run s1)
      as (avg & mv' & s2' & k & _ & Em' & D & R & N & T & Hdis & H1 & H2
          & H3 & H4 & H5 & H6).
    rewrite Em in Em'. injection Em' as Hmv Hs2. subst mv' s2'.
    exists avg, mv, s2, k. conjs; assumption.
Qed.

(** C9 (as the code has it): while the charge algorithm reports charging,
    reading [battery_level] measures nothing and yields the text "0"
    followed by a newline (count 2), not an error.  In any state the
    error [-ENODEV] is returned exactly when a battery is present, the
    charge algorithm is idle and one of the five conversions of the
    voltage measurement fails; the measurement has then been made, up to
    that conversion, and has returned its negative value. *)
Theorem battery_level_show_while_charging s :
  lipocharge_is_charging (charger (drv s)) = true ->
  n810bm_attr_battery_level_show s = Returned (2, snprintf_u 0) s
  /\ forall s0,
       let x := adc_sample (hw s0) RETU_ADC_BATTVOLT in
       exists r s',
         n810bm_attr_battery_level_show s0 = Returned r s'
         /\ (fst r = - ENODEV <->
             battery_present (drv s0) = true
             /\ lipocharge_is_charging (charger (drv s0)) = false
             /\ exists i, (i < 5)%nat /\ x i < 0)
         /\ (fst r = - ENODEV ->
             r = (- ENODEV, EmptyString)
             /\ exists mv i,
                  n810bm_measure_batt_voltage s0 = Returned mv s'
                  /\ mv < 0
                  /\ (i < 5)%nat /\ x i < 0
                  /\ (forall j, (j < i)%nat -> 0 <= x j)
                  /\ mv = x i
                  /\ trace (hw s') =
                     trace (hw s0)
                     ++ replicate (S i) (EvAdcRead RETU_ADC_BATTVOLT)).
Proof.
  intros Hc. split.
  - unfold n810bm_attr_battery_level_show. run.
    rewrite Hc, orb_true_r. reflexivity.
  - intros s0 x.
    assert (forall n : nat, Z.of_nat n <> - ENODEV) as Hlen
      by (intros n; unfold ENODEV; lia).
    unfold n810bm_attr_battery_level_show. run.
    destruct (battery_present (drv s0)) eqn:Hb;
      [destruct (lipocharge_is_charging (charger (drv s0))) eqn:Hch|];
      cbn [negb orb];
      try (eexists; exists s0; split; [reflexivity|]; cbn [fst];
           split; [split|]; intros H;
           solve [ exfalso; exact (Hlen _ H)
                 | destruct H as (H1 & H2 & _); discriminate ]).
    destruct (measure_batt_voltage_run s0)
      as (avg & mv & s' & k & _ & Em & D & R & N & T & Hdis & H1 & H2 & _).
    fold x in Hdis. rewrite Em.
    destruct Hdis as [(-> & Hall & _ & Hpos)|(i & Hi & -> & Hneg & Hb' & ->)].
    + specialize (H2 Hpos).
      replace (mv >=? 0) with true
        by (symmetry; rewrite Z.geb_leb; apply Z.leb_le; lia).
      eexists. exists s'. split; [reflexivity|]. cbn [fst].
      split; [split|]; intros H.
      * exfalso. exact (Hlen _ H).
      * destruct H as (_ & _ & j & Hj & Hxj). specialize (Hall j Hj). lia.
      * exfalso. exact (Hlen _ H).
    + specialize (H1 Hneg). subst mv.
      replace (x i >=? 0) with false
        by (symmetry; rewrite Z.geb_leb; apply Z.leb_gt; lia).
      eexists. exists s'. split; [reflexivity|]. cbn [fst].
      split; [split|]; intros H.
      * conjs; auto. exists i. auto.
      * reflexivity.
      * split; [reflexivity|]. exists (x i), i. conjs; auto.
Qed.

End Monitor.

Lemma battery_level_show_while_charging_witness :
  lipocharge_is_charging (charger (drv charging_system)) = true
  /\ n810bm_attr_battery_level_show charging_system
     = Returned (2, snprintf_u 0) charging_system.
Proof.
  split; [reflexivity|].
  apply (battery_level_show_while_charging (LC := lipocharge_model)
           charging_system).
  reflexivity.
Defined.

(** *** More on the calibration block parser *)

Section ParserExtras.

Context {L : Type}.

Implicit Types (s : system (L := L)).

(** X11: pmm_record_get with non-negative arguments never reads outside the
    image: it returns 0, -EINVAL or -ENOENT, an empty buffer on error, and
    on success the group, element and span are inside their limits, the
    group bit of byte 16 is set, the span ends inside the image, and the
    buffer is that span of the image byte for byte. *)
Theorem pmm_record_get_in_bounds (pmm_block : list byte)
  (len group element offset : Z) s :
  0 <= len -> 0 <= group -> 0 <= element -> 0 <= offset ->
  let start := group * N810BM_PMM_GROUP_SIZE
               + element * N810BM_PMM_ELEM_SIZE + offset in
  exists err buf s',
    pmm_record_get pmm_block len group element offset s
    = Returned (err, buf) s'
    /\ drv s' = drv s
    /\ (err = 0 \/ err = - EINVAL \/ err = - ENOENT)
    /\ (err <> 0 -> buf = [])
    /\ (err = 0 ->
        fw_size pmm_block = N810BM_PMM_BLOCK_SIZE
        /\ group < 3 /\ element < 32 /\ offset + len <= 16
        /\ Z.testbit (byte_at pmm_block 16) group = true
        /\ start + len <= fw_size pmm_block
        /\ Z.of_nat (length buf) = len
        /\ forall i, 0 <= i < len ->
             byte_at buf i = byte_at pmm_block (start + i))
    /\ (err = - ENOENT ->
        fw_size pmm_block = N810BM_PMM_BLOCK_SIZE
        /\ Z.testbit (byte_at pmm_block 16) group = false).
Proof.
  intros Hl Hg He Ho start. unfold pmm_record_get. run.
  unfold N810BM_PMM_BLOCK_SIZE, N810BM_PMM_GROUP_SIZE, N810BM_PMM_ELEM_SIZE
    in *.
  change (0x600 / 0x200) with 3. change (0x200 / 0x10) with 32.
  destruct (Z.eqb_spec (fw_size pmm_block) 0x600) as [Hsize|Hsize];
    cbn [negb];
    [|exists (- EINVAL), [], s; conjs; auto; discriminate].
  destruct (Z.geb_spec group 3) as [Hgr|Hgr];
    [exists (- EINVAL), [], s; conjs; auto; discriminate|].
  destruct (Z.geb_spec element 32) as [Hel|Hel];
    [exists (- EINVAL), [], s; conjs; auto; discriminate|].
  destruct (Z.geb_spec offset 0x10) as [Hof|Hof]; cbn [orb];
    [exists (- EINVAL), [], s; conjs; auto; discriminate|].
  destruct (Z.gtb_spec len 0x10) as [Hle|Hle]; cbn [orb];
    [exists (- EINVAL), [], s; conjs; auto; discriminate|].
  destruct (Z.gtb_spec (len + offset) 0x10) as [Hlo|Hlo];
    [exists (- EINVAL), [], s; conjs; auto; discriminate|].
  rewrite c_true_land_bit by assumption.
  destruct (Z.testbit (byte_at pmm_block 16) group) eqn:Hact; cbn [negb].
  - eexists 0, _, s. split; [reflexivity|].
    conjs; auto; try discriminate; [congruence|]. intros _.
    assert (0 <= start /\ start + len <= 0x600) as Hst by (subst start; lia).
    unfold fw_size in *.
    conjs; auto; try lia.
    + rewrite length_take, length_drop. lia.
    + intros i Hi. rewrite byte_at_take_drop by lia. f_equal. lia.
  - eexists (- ENOENT), [], _. split; [reflexivity|].
    conjs; auto; discriminate.
Qed.

(** The ids and flags the defaults give to each slot. *)
Lemma default_table_indexed (i : nat) (sh : Z * Z) :
  map shape default_table !! i = Some sh ->
  (snd sh = 0xFF /\ fst sh = 0)
  \/ (snd sh <> 0xFF /\ calib_index (fst sh) = Some i).
Proof.
  let v := eval vm_compute in (map shape default_table) in
  assert (map shape default_table = v) as -> by (vm_compute; reflexivity).
  do 25 (destruct i as [|i];
         [cbn; intros H; inversion H; subst; cbn [fst snd];
          first [ left; split; reflexivity
                | right; split; [discriminate|vm_compute; reflexivity] ]|]).
  cbn. discriminate.
Qed.

(** X12: after n810bm_parse_pmm_block, whatever it returned, every slot of
    the calibration table is at a position below 25; an unused slot has id
    0, a used slot sits at the position its channel id is mapped to, and no
    two used slots carry the same id. *)
Theorem parsed_table_slots_indexed junk (pmm_block : list byte) s :
  exists err s',
    n810bm_parse_pmm_block junk pmm_block s = Returned err s'
    /\ forall (i : nat) c,
         calib (drv s') !! i = Some c ->
         (i < ARRAY_SIZE_adc)%nat
         /\ (flags c = 0xFF -> id c = 0)
         /\ (flags c <> 0xFF -> calib_index (id c) = Some i)
         /\ (forall j c',
               calib (drv s') !! j = Some c' ->
               flags c <> 0xFF -> flags c' <> 0xFF ->
               id c' = id c -> j = i).
Proof.
  destruct (parse_pmm_block_spec junk pmm_block s) as (err & s' & E & _ & S).
  exists err, s'. split; [exact E|].
  assert (forall (i : nat) c,
             calib (drv s') !! i = Some c ->
             map shape default_table !! i = Some (shape c)) as Hsh.
  { intros i c Hc. rewrite <- S, list_lookup_fmap, Hc. reflexivity. }
  intros i c Hc. pose proof (Hsh i c Hc) as Hi.
  conjs.
  - apply lookup_lt_Some in Hi. rewrite length_map in Hi. exact Hi.
  - intros Hf. apply default_table_indexed in Hi.
    cbn [shape fst snd] in Hi. tauto.
  - intros Hf. apply default_table_indexed in Hi.
    cbn [shape fst snd] in Hi. tauto.
  - intros j c' Hc' Hf Hf' Hid.
    apply default_table_indexed in Hi.
    apply Hsh, default_table_indexed in Hc'.
    cbn [shape fst snd] in *.
    destruct Hi as [[? _]|[_ Hi]]; [contradiction|].
    destruct Hc' as [[? _]|[_ Hj]]; [contradiction|].
    rewrite Hid, Hi in Hj. now inversion Hj.
Qed.

(** X13: the result of n810bm_parse_pmm_block does not depend on what the
    local byte holds before the first record is copied into it: whenever it
    is compared while still uninitialised, the error code is already not
    zero and the comparison cannot change the branch taken. *)
Theorem parse_pmm_block_ignores_junk (junk1 junk2 : byte)
  (pmm_block : list byte) s :
  n810bm_parse_pmm_block junk1 pmm_block s
  = n810bm_parse_pmm_block junk2 pmm_block s.
Proof.
  unfold n810bm_parse_pmm_block, bind.
  rewrite set_defaults_run.
  set (s1 := mk_system (set_calib default_table (drv s)) (hw s)).
  clearbody s1.
  destruct ((fw_size pmm_block =? N810BM_PMM_BLOCK_SIZE)
            && Z.testbit (byte_at pmm_block 16) 1) eqn:Hhead.
  - apply andb_true_iff in Hhead. destruct Hhead as [Hsize Hact].
    apply Z.eqb_eq in Hsize.
    assert (length pmm_block = 1536%nat) as Hlen.
    { unfold fw_size, N810BM_PMM_BLOCK_SIZE in Hsize. lia. }
    rewrite pmm_record_get_group1 by (assumption || lia).
    rewrite pmm_record_get_group1 by (assumption || lia).
    cbn [c_true Z.eqb negb].
    change (Z.to_nat 1) with 1%nat.
    change (Z.to_nat (0x200 + 0 * 0x10)) with 512%nat.
    change (Z.to_nat (0x200 + 1 * 0x10)) with 528%nat.
    rewrite !hd_take_drop by lia. reflexivity.
  - destruct (pmm_record_get_group1_fails pmm_block 1 0 s1 Hhead)
      as (e0 & s2 & E2 & _ & He0).
    rewrite E2.
    destruct (pmm_record_get_group1_fails pmm_block 1 1 s2 Hhead)
      as (e1 & s3 & E3 & _ & He1).
    rewrite E3.
    destruct He0 as [-> | ->], He1 as [-> | ->];
      closed_ifs;
      destruct (byte_val junk1 =? 1), (byte_val junk2 =? 1);
      cbn [negb c_bool]; closed_ifs; reflexivity.
Qed.

(** X14: n810bm_get_adc_calib sends different channel ids (bytes) to
    different slots of the calibration table: two lookups that return the
    same slot were made with the same id. *)
Theorem get_adc_calib_injective (a b : Z) (i : nat) s s1 s2 :
  0 <= a <= 255 -> 0 <= b <= 255 ->
  n810bm_get_adc_calib a s = Returned (Some i) s1 ->
  n810bm_get_adc_calib b s = Returned (Some i) s2 ->
  a = b.
Proof.
  intros Ha Hb E1 E2.
  destruct (get_adc_calib_spec a s) as (s1' & F1 & _).
  destruct (get_adc_calib_spec b s) as (s2' & F2 & _).
  rewrite E1 in F1. rewrite E2 in F2.
  injection F1 as H1 _. injection F2 as H2 _. symmetry in H1, H2.
  revert H1 H2. rewrite !calib_index_byte by assumption.
  destruct (Z.eqb_spec a 0xFE), (Z.eqb_spec b 0xFE);
    destruct (Z.leb_spec 25 (a + 1)), (Z.leb_spec 25 (b + 1));
    intros H1 H2; inversion H1; inversion H2; subst; lia.
Qed.

End ParserExtras.

Lemma pmm_record_get_in_bounds_witness :
  exists buf s',
    pmm_record_get good_block 12 1 4 0 fresh_system_0 = Returned (0, buf) s'
    /\ length buf = 12%nat.
Proof.
  destruct (pmm_record_get_in_bounds good_block 12 1 4 0 fresh_system_0
              ltac:(lia) ltac:(lia) ltac:(lia) ltac:(lia))
    as (err & buf & s' & E & _ & _ & _ & Hok & _).
  assert (err = 0) as ->.
  { vm_compute in E. inversion E. reflexivity. }
  exists buf, s'. split; [exact E|].
  destruct (Hok eq_refl) as (_ & _ & _ & _ & _ & _ & Hlen & _). lia.
Defined.

Lemma get_adc_calib_injective_witness :
  exists s1,
    n810bm_get_adc_calib 0x13 fresh_system_0 = Returned (Some 20%nat) s1
    /\ 0x13 = 0x13.
Proof.
  eexists. split; [reflexivity|].
  apply (get_adc_calib_injective 0x13 0x13 20 fresh_system_0
           fresh_system_0 fresh_system_0); try lia; reflexivity.
Defined.

(** *** Battery current, self test and the measurement task *)

Section Platform.

Context {L : Type} {LC : Lipocharge L} {CB : ChipBits} {PF : Platform L}.

Implicit Types (s : system (L := L)).

Lemma tahvo_maskset_run reg mask set s :
  tahvo_maskset reg mask set s =
  Returned tt
    (mk_system (drv s)
       (set_trace (trace (hw s) ++ [EvTahvoSetClear reg set mask])
          (tahvo_reg_put reg
             (u16 (Z.lor (Z.land (tahvo_reg_get reg (hw s)) (Z.lnot mask))
                     set))
             (hw s)))).
Proof. destruct s as [b w], w, reg; reflexivity. Qed.

Lemma s16_range x : - 2 ^ 15 <= s16 x < 2 ^ 15.
Proof.
  unfold s16. pose proof (Z.mod_pos_bound (x + 2 ^ 15) (2 ^ 16) ltac:(lia)).
  lia.
Qed.

(** Three reads of the register, one after the other, and the truncated
    mean of the three signed values. *)
Lemma measure_batt_current_run s :
  let x := batcurr_sample (hw s) in
  exists t,
    n810bm_measure_batt_current s =
    Returned
      (if current_measure_enabled (drv s) <=? 0 then 0
       else Z.quot (x 0%nat + x 1%nat + x 2%nat) 3)
      (mk_system (drv s)
         (set_trace (trace (hw s) ++ t)
            (if current_measure_enabled (drv s) <=? 0 then hw s
             else set_batcurr_reads (batcurr_reads (hw s) + 3)%nat (hw s))))
    /\ tahvo_writes t = [].
Proof.
  intros x. unfold n810bm_measure_batt_current, bind, get_bm.
  rewrite WARN_ON_run.
  destruct (current_measure_enabled (drv s) <=? 0).
  - eexists. split; [reflexivity|]. reflexivity.
  - exists []. split; [|reflexivity].
    pose proof (s16_range (u16 (batcurr_source (hw s)
                                  (batcurr_reads (hw s) + 0)%nat))) as H0.
    pose proof (s16_range (u16 (batcurr_source (hw s)
                                  (batcurr_reads (hw s) + 1)%nat))) as H1.
    pose proof (s16_range (u16 (batcurr_source (hw s)
                                  (batcurr_reads (hw s) + 2)%nat))) as H2.
    subst x. unfold batcurr_sample.
    cbn [batt_current_loop].
    unfold tahvo_read_BATCURR, bind, get_hw, modify_hw, ret.
    destruct s as [b w], w. fields.
    rewrite app_nil_r.
    replace (S (S (S batcurr_reads0))) with (batcurr_reads0 + 3)%nat by lia.
    replace (S batcurr_reads0) with (batcurr_reads0 + 1)%nat by lia.
    replace (S (batcurr_reads0 + 1)) with (batcurr_reads0 + 2)%nat by lia.
    replace (batcurr_source0 batcurr_reads0)
      with (batcurr_source0 (batcurr_reads0 + 0)%nat)
      by (f_equal; lia).
    set (v0 := s16 (u16 (batcurr_source0 (batcurr_reads0 + 0)%nat))) in *.
    set (v1 := s16 (u16 (batcurr_source0 (batcurr_reads0 + 1)%nat))) in *.
    set (v2 := s16 (u16 (batcurr_source0 (batcurr_reads0 + 2)%nat))) in *.
    rewrite (s32_small (0 + v0)) by (unfold is_int, INT_MIN, INT_MAX; lia).
    rewrite (s32_small (0 + v0 + v1))
      by (unfold is_int, INT_MIN, INT_MAX; lia).
    rewrite (s32_small (0 + v0 + v1 + v2))
      by (unfold is_int, INT_MIN, INT_MAX; lia).
    reflexivity.
Qed.

(** The truncated mean of three signed 16-bit values is one. *)
Lemma quot3_range a b c :
  - 2 ^ 15 <= a < 2 ^ 15 -> - 2 ^ 15 <= b < 2 ^ 15 ->
  - 2 ^ 15 <= c < 2 ^ 15 ->
  - 2 ^ 15 <= Z.quot (a + b + c) 3 < 2 ^ 15.
Proof.
  intros Ha Hb Hc. set (t := a + b + c).
  assert (- (3 * 2 ^ 15) <= t < 3 * 2 ^ 15) as Ht by (subst t; lia).
  clearbody t. destruct (Z.le_gt_cases 0 t) as [Hpos|Hneg].
  - rewrite Z.quot_div_nonneg by lia.
    assert (0 <= t / 3) by (apply Z.div_pos; lia).
    assert (t / 3 < 2 ^ 15) by (apply Z.div_lt_upper_bound; lia).
    lia.
  - replace t with (- - t) by lia. rewrite Z.quot_opp_l by lia.
    rewrite Z.quot_div_nonneg by lia.
    assert (0 <= - t / 3) by (apply Z.div_pos; lia).
    assert (- t / 3 <= 2 ^ 15) by (apply Z.div_le_upper_bound; lia).
    lia.
Qed.

(** The state [n810bm_enable_current_measure] leaves, up to the lines
    logged. *)
Lemma enable_current_measure_run s :
  exists t,
    n810bm_enable_current_measure s =
    Returned tt
      (mk_system
         (set_current_measure_enabled
            (s32 (current_measure_enabled (drv s) + 1)) (drv s))
         (set_trace (trace (hw s) ++ t)
            (if current_measure_enabled (drv s) =? 0
             then tahvo_reg_put TAHVO_REG_CHGCTL
                    (u16 (Z.lor
                       (Z.land (chgctl (hw s))
                          (Z.lnot TAHVO_REG_CHGCTL_CURMEAS))
                       TAHVO_REG_CHGCTL_CURMEAS)) (hw s)
             else hw s))).
Proof.
  unfold n810bm_enable_current_measure, tahvo_set, tahvo_set_clear_reg_bits,
    dev_dbg, emit, when, bind, get_bm, modify_bm, modify_hw, ret.
  rewrite WARN_ON_run. unfold c_true. rewrite negb_involutive.
  destruct s as [b w], w. cbn [drv hw].
  destruct (current_measure_enabled b =? 0); fields;
    eexists; flat_trace; reflexivity.
Qed.

(** The state [n810bm_disable_current_measure] leaves, up to the lines
    logged. *)
Lemma disable_current_measure_run s :
  exists t,
    n810bm_disable_current_measure s =
    Returned tt
      (mk_system
         (set_current_measure_enabled
            (s32 (current_measure_enabled (drv s) - 1)) (drv s))
         (set_trace (trace (hw s) ++ t)
            (if s32 (current_measure_enabled (drv s) - 1) =? 0
             then tahvo_reg_put TAHVO_REG_CHGCTL
                    (u16 (Z.lor
                       (Z.land (chgctl (hw s))
                          (Z.lnot TAHVO_REG_CHGCTL_CURMEAS))
                       0)) (hw s)
             else hw s))).
Proof.
  unfold n810bm_disable_current_measure, tahvo_clear,
    tahvo_set_clear_reg_bits, dev_dbg, emit, when, bind, get_bm, modify_bm,
    modify_hw, ret.
  cbn [drv hw]. rewrite WARN_ON_run. unfold c_true.
  rewrite negb_involutive.
  destruct s as [b w], w, b as [? ? ? ? ? ? cme ? ? ? ?]. fields.
  destruct (s32 (cme - 1) =? 0); fields;
    eexists; flat_trace; reflexivity.
Qed.

(** What a measurement of the battery current outside the task returns
    and leaves behind. *)
Lemma measure_batt_current_async_spec s :
  chgctl_layout ->
  INT_MIN < current_measure_enabled (drv s) < INT_MAX ->
  let charging := lipocharge_is_charging (charger (drv s)) in
  let x := batcurr_sample (hw s) in
  let off := current_measure_enabled (drv s) <? 0 in
  exists ma s',
    n810bm_measure_batt_current_async s = Returned ma s'
    /\ drv s' = drv s
    /\ ma = (if off then 0 else Z.quot (x 0%nat + x 1%nat + x 2%nat) 3)
    /\ batcurr_reads (hw s')
       = (if off then batcurr_reads (hw s)
          else (batcurr_reads (hw s) + 3)%nat)
    /\ batcurr_source (hw s') = batcurr_source (hw s)
    /\ - 2 ^ 15 <= ma < 2 ^ 15
    /\ Z.land (chgctl (hw s')) TAHVO_REG_CHGCTL_EN
       = (if charging then TAHVO_REG_CHGCTL_EN else 0)
    /\ Z.land (chgctl (hw s')) TAHVO_REG_CHGCTL_PWMOVR = 0
    /\ Z.land (chgctl (hw s')) TAHVO_REG_CHGCTL_PWMOVRZERO = 0
    /\ (refcount_inv s -> refcount_inv s')
    /\ chgcurr (hw s') = chgcurr (hw s)
    /\ batcurrtimer (hw s') = batcurrtimer (hw s)
    /\ batcurr_irq (hw s') = batcurr_irq (hw s)
    /\ adc_reads (hw s') = adc_reads (hw s).
Proof.
  intros Hl Hrc charging x off. layout Hl.
  assert (s32 (current_measure_enabled (drv s) + 1)
          = current_measure_enabled (drv s) + 1) as Hs1.
  { apply s32_small. unfold is_int, INT_MIN, INT_MAX in *. lia. }
  assert (s32 (current_measure_enabled (drv s) + 1 - 1)
          = current_measure_enabled (drv s)) as Hs2.
  { replace (current_measure_enabled (drv s) + 1 - 1)
      with (current_measure_enabled (drv s)) by lia.
    apply s32_small. unfold is_int, INT_MIN, INT_MAX in *. lia. }
  assert ((current_measure_enabled (drv s) + 1 <=? 0) = off) as Hoff.
  { subst off. destruct (Z.leb_spec (current_measure_enabled (drv s) + 1) 0),
      (Z.ltb_spec (current_measure_enabled (drv s)) 0); lia || reflexivity. }
  assert (- 2 ^ 15 <= Z.quot (x 0%nat + x 1%nat + x 2%nat) 3 < 2 ^ 15)
    as Hq by (apply quot3_range; apply s16_range).
  unfold n810bm_measure_batt_current_async, bind, get_bm, when.
  destruct (enable_current_measure_run s) as (t1 & E1). rewrite E1.
  cbn [drv hw]. fold charging.
  assert (forall c (s0 : system (L := L)),
             exists t,
               (if negb charging then WARN_ON c else ret tt) s0 =
               Returned tt
                 (mk_system (drv s0)
                    (set_trace (trace (hw s0) ++ t) (hw s0)))) as Hw.
  { intros c s0. destruct charging; cbn [negb].
    - exists []. destruct s0 as [b0 w0], w0. cbn. now rewrite app_nil_r.
    - eexists. apply WARN_ON_run. }
  match goal with
  | |- context [(if negb charging then WARN_ON ?c else ret tt) ?s0] =>
      destruct (Hw c s0) as (t2 & E2); rewrite E2
  end.
  rewrite tahvo_maskset_run.
  match goal with
  | |- context [n810bm_measure_batt_current ?s0] =>
      destruct (measure_batt_current_run s0) as (t3 & E3 & _); rewrite E3;
      assert (forall k, batcurr_sample (hw s0) k = x k) as Hx
  end.
  { intros k. subst x. unfold batcurr_sample.
    destruct s as [b w], w. fields.
    destruct (_ =? 0); reflexivity. }
  rewrite !Hx. clear Hx.
  rewrite tahvo_maskset_run.
  match goal with
  | |- context [n810bm_disable_current_measure ?s0] =>
      destruct (disable_current_measure_run s0) as (t4 & E4); rewrite E4
  end.
  clear E1 E2 E3 E4 Hw. unfold ret.
  set (q := Z.quot _ 3) in *. clearbody q. clear x.
  destruct s as [b w]. cbn [drv hw] in *.
  destruct b as [? ? ? ? ? ? cme ? ? ? ?], w. fields.
  rewrite Hs1, Hs2, Hoff in *. unfold chgctl_mode_mask.
  eexists. eexists. split; [reflexivity|]. fields.
  unfold refcount_inv, curmeas_on. fields.
  clearbody off.
  conjs.
  - reflexivity.
  - destruct off; reflexivity.
  - destruct (cme =? 0), off; reflexivity.
  - destruct (cme =? 0), off; reflexivity.
  - destruct off; lia.
  - destruct off; lia.
  - destruct (cme =? 0), off, charging; fields; bits.
  - destruct (cme =? 0), off, charging; fields; bits.
  - destruct (cme =? 0), off, charging; fields; bits.
  - intros Hinv.
    destruct (Z.eqb_spec cme 0), off, charging; fields;
      refcount_goal.
  - destruct (cme =? 0), off; reflexivity.
  - destruct (cme =? 0), off; reflexivity.
  - destruct (cme =? 0), off; reflexivity.
  - destruct (cme =? 0), off; reflexivity.
Qed.

(** X15: n810bm_measure_batt_current_async, under the register layout and an
    enable count inside int: it reads the battery current register three
    times in a row and returns the truncated mean of the three signed
    16-bit values read (it reads nothing and returns 0 when the enable
    count was negative); it restores the driver state, keeps the enable
    bit exactly when the algorithm is charging, leaves both PWM override
    bits clear, keeps the circuitry invariant and does not touch the PWM
    register, the timer, the interrupt or the ADC.  The battery_current
    attribute prints exactly the value so returned and leaves the same
    state, and prints 0 without touching anything when no battery is
    present. *)
Theorem measure_batt_current_async_balanced s :
  chgctl_layout ->
  INT_MIN < current_measure_enabled (drv s) < INT_MAX ->
  let charging := lipocharge_is_charging (charger (drv s)) in
  let x := batcurr_sample (hw s) in
  let off := current_measure_enabled (drv s) <? 0 in
  exists ma s',
    n810bm_measure_batt_current_async s = Returned ma s'
    /\ drv s' = drv s
    /\ ma = (if off then 0 else Z.quot (x 0%nat + x 1%nat + x 2%nat) 3)
    /\ batcurr_reads (hw s')
       = (if off then batcurr_reads (hw s)
          else (batcurr_reads (hw s) + 3)%nat)
    /\ batcurr_source (hw s') = batcurr_source (hw s)
    /\ - 2 ^ 15 <= ma < 2 ^ 15
    /\ Z.land (chgctl (hw s')) TAHVO_REG_CHGCTL_EN
       = (if charging then TAHVO_REG_CHGCTL_EN else 0)
    /\ Z.land (chgctl (hw s')) TAHVO_REG_CHGCTL_PWMOVR = 0
    /\ Z.land (chgctl (hw s')) TAHVO_REG_CHGCTL_PWMOVRZERO = 0
    /\ (refcount_inv s -> refcount_inv s')
    /\ chgcurr (hw s') = chgcurr (hw s)
    /\ batcurrtimer (hw s') = batcurrtimer (hw s)
    /\ batcurr_irq (hw s') = batcurr_irq (hw s)
    /\ adc_reads (hw s') = adc_reads (hw s)
    /\ n810bm_attr_battery_current_show s
       = (if battery_present (drv s)
          then Returned
                 (Z.of_nat (String.length (snprintf_d ma)), snprintf_d ma) s'
          else Returned (2, snprintf_d 0) s).
Proof.
  intros Hl Hrc charging x off.
  destruct (measure_batt_current_async_spec s Hl Hrc)
    as (ma & s' & E & D & Hma & Hr & Hsrc & Hrange & Hen & Hp & Hpz & Hinv
        & Hc & Ht & Hi & Ha).
  exists ma, s'. conjs; try assumption; try apply Hrange.
  unfold n810bm_attr_battery_current_show, mutex_lock, mutex_unlock, bind,
    get_bm, ret, show_result.
  destruct (battery_present (drv s)); [rewrite E|]; reflexivity.
Qed.

End Platform.

Section Platform2.

Context {L : Type} {LC : Lipocharge L} {CB : ChipBits} {PF : Platform L}.

Implicit Types (s : system (L := L)).

(** The ADC self test reads twice and decides on the second reading. *)
Lemma check_adc_sanity_run s :
  adcscr_inert ->
  let v := adc_sample (hw s) RETU_ADC_GND2 1 in
  let s2 t :=
    mk_system (drv s)
      (set_trace
         (trace (hw s)
          ++ [EvAdcRead RETU_ADC_GND2; EvAdcRead RETU_ADC_GND2] ++ t)
         (set_adc_reads (S (S (adc_reads (hw s)))) (hw s))) in
  n810bm_check_adc_sanity s =
  if v <? 0 then
    Returned (- EIO)
      (s2 [EvLog KERN_ERR "Failed to read GND ADC channel %u"])
  else if v >? 5 then
    Halted
      (s2 [EvLog KERN_DEBUG "GND ADC channel %u sanity check got value: %d";
           EvLog KERN_EMERG
             ("n810 battery management fatal fault: " +:+
              "GND ADC sanity check failed");
           EvCbusEmergency])
  else
    Returned 0
      (s2 [EvLog KERN_DEBUG "GND ADC channel %u sanity check got value: %d"]).
Proof.
  intros Hinert v s2. subst s2.
  unfold n810bm_check_adc_sanity, adc_sanity_check, retu_write_ADCSCR,
    n810bm_emergency, dev_err, dev_dbg, emit, bind, modify_hw, ret.
  rewrite Hinert. rewrite retu_read_adc_run. cbn [drv hw].
  rewrite retu_read_adc_run.
  assert (adc_sample
            (hw (mk_system (drv s)
                   (set_trace (trace (hw s) ++ [EvAdcRead RETU_ADC_GND2])
                      (set_adc_reads (S (adc_reads (hw s))) (hw s)))))
            RETU_ADC_GND2 0
          = v) as ->.
  { unfold v, adc_sample. destruct s as [b w], w. cbn. do 2 f_equal. lia. }
  clearbody v. destruct s as [b w], w. fields.
  destruct (v <? 0); [|destruct (v >? 5)];
    fields; flat_trace; reflexivity.
Qed.

(** X16: n810bm_hw_init, when writing the ADC control register has no other
    effect: with v the second conversion of the ground reference, v < 0
    gives -EIO with driver state and registers unchanged; v > 5 ends in the
    emergency shutdown (called once); 0 <= v <= 5 gives 0 after exactly two
    conversions, with the charge stopped. n810bm_hw_exit stops the charge as
    well. *)
Theorem hw_init_checks_ground_reference s :
  adcscr_inert ->
  let v := adc_sample (hw s) RETU_ADC_GND2 1 in
  (v < 0 ->
   exists s',
     n810bm_hw_init s = Returned (- EIO) s'
     /\ drv s' = drv s
     /\ same_registers (hw s) (hw s')
     /\ emergency_calls (trace (hw s')) = emergency_calls (trace (hw s)))
  /\ (5 < v ->
      exists s',
        n810bm_hw_init s = Halted s'
        /\ drv s' = drv s
        /\ same_registers (hw s) (hw s')
        /\ emergency_calls (trace (hw s'))
           = S (emergency_calls (trace (hw s))))
  /\ (0 <= v <= 5 ->
      exists s1 s',
        n810bm_check_adc_sanity s = Returned 0 s1
        /\ n810bm_stop_charge s1 = Returned tt s'
        /\ n810bm_hw_init s = Returned 0 s'
        /\ active_current_pwm (drv s') = 0
        /\ chgcurr (hw s') = 0
        /\ Z.land (chgctl (hw s')) TAHVO_REG_CHGCTL_EN = 0
        /\ charger (drv s') = lipocharge_stop (charger (drv s))
        /\ emergency_calls (trace (hw s'))
           = emergency_calls (trace (hw s))
        /\ adc_reads (hw s') = S (S (adc_reads (hw s))))
  /\ (exists s',
        n810bm_hw_exit s = Returned tt s'
        /\ active_current_pwm (drv s') = 0
        /\ chgcurr (hw s') = 0
        /\ Z.land (chgctl (hw s')) TAHVO_REG_CHGCTL_EN = 0
        /\ charger (drv s') = lipocharge_stop (charger (drv s))).
Proof.
  intros Hinert v.
  pose proof (check_adc_sanity_run s Hinert) as Hrun. cbv zeta in Hrun.
  fold v in Hrun. unfold n810bm_hw_init, bind. rewrite Hrun. clear Hrun.
  conjs.
  - intros Hv. destruct (Z.ltb_spec v 0); [|lia].
    eexists. split; [reflexivity|]. destruct s as [b w], w.
    unfold same_registers. fields. conjs; try reflexivity.
    rewrite emergency_calls_app. cbn. lia.
  - intros Hv. destruct (Z.ltb_spec v 0); [lia|].
    destruct (Z.gtb_spec v 5); [|lia].
    eexists. split; [reflexivity|]. destruct s as [b w], w.
    unfold same_registers. fields. conjs; try reflexivity.
    rewrite emergency_calls_app. cbn. lia.
  - intros Hv. destruct (Z.ltb_spec v 0); [lia|].
    destruct (Z.gtb_spec v 5); [lia|].
    replace (c_true 0) with false by reflexivity.
    match goal with
    | |- context [n810bm_stop_charge ?s1] =>
        destruct (stop_charge_run s1) as (t & E & Ht);
        destruct (quiet_stop_charge false s1)
          as ([] & sq & tq & Eq & Tq & Cq)
    end.
    cbv zeta in E. rewrite E in Eq. injection Eq as Hsq. subst sq.
    eexists. eexists. split; [reflexivity|].
    split; [exact E|]. rewrite E. split; [reflexivity|].
    clear E. fields.
    conjs; try reflexivity; try bits.
    cbn [app] in *. apply app_inv_head in Tq. subst tq.
    rewrite !emergency_calls_app, (calm_no_emergency _ _ Cq). cbn. lia.
  - unfold n810bm_hw_exit, retu_write_ADCSCR, bind, modify_hw.
    destruct (stop_charge_run s) as (t & E & _). cbv zeta in E. rewrite E.
    rewrite Hinert. eexists. split; [reflexivity|].
    fields. conjs; try reflexivity; bits.
Qed.

End Platform2.

Section Platform3.

Context {L : Type} {LC : Lipocharge L} {CB : ChipBits} {PF : Platform L}.

Implicit Types (s : system (L := L)).

(** X17: n810bm_charger_set_current_pwm, for a duty cycle that is not
    negative: it returns 0 when the duty cycle is at most 0xFF and charging
    is enabled with battery and charger present, and -EINVAL otherwise,
    after a warning. The PWM register is written, once and with the given
    duty cycle, exactly when the request is accepted and differs from the
    active duty cycle; then the charger PWM notification is flagged and
    scheduled. In every other case driver state and registers are unchanged. *)
Theorem charger_set_current_pwm_guarded (locked : bool) (duty_cycle : Z) s :
  0 <= duty_cycle ->
  let bm := drv s in
  let ok :=
    (duty_cycle <=? 0xFF) && charger_enabled bm
    && battery_present bm && charger_present bm in
  let change := ok && negb (duty_cycle =? active_current_pwm bm) in
  exists s' t,
    n810bm_charger_set_current_pwm locked duty_cycle s
    = Returned (if ok then 0 else - EINVAL) s'
    /\ trace (hw s') = trace (hw s) ++ t
    /\ tahvo_writes t =
       (if change then [EvTahvoWrite TAHVO_REG_CHGCURR duty_cycle] else [])
    /\ (change = false ->
        drv s' = drv s /\ same_registers (hw s) (hw s'))
    /\ (change = true ->
        active_current_pwm (drv s') = duty_cycle
        /\ chgcurr (hw s') = duty_cycle
        /\ chgctl (hw s') = chgctl (hw s)
        /\ Z.testbit (notify_flags (drv s')) N810BM_NOTIFY_charger_pwm = true
        /\ In (EvSchedule notify_work) t)
    /\ (ok = false -> In (EvLog KERN_ERR "WARNING") t).
Proof.
  intros Hd bm ok change. subst bm ok change.
  unfold n810bm_charger_set_current_pwm, n810bm_notify_charger_pwm,
    n810bm_notify, tahvo_write, schedule_work, emit, when, bind, get_bm,
    modify_bm, modify_hw, ret.
  rewrite !WARN_ON_run. cbn [drv hw].
  assert (Z.testbit (set_bit N810BM_NOTIFY_charger_pwm
                       (notify_flags (drv s)))
            N810BM_NOTIFY_charger_pwm = true) as Hbit.
  { unfold set_bit, N810BM_NOTIFY_charger_pwm. rewrite Z.lor_spec.
    cbn. apply orb_true_r. }
  destruct (Z.leb_spec duty_cycle 0xFF) as [Hle|Hgt].
  - replace (duty_cycle >? 0xFF) with false
      by (symmetry; rewrite Z.gtb_ltb; apply Z.ltb_ge; lia).
    assert (u16 duty_cycle = duty_cycle) as Hu
      by (apply Z.mod_small; lia).
    rewrite !WARN_ON_run. cbn [drv hw]. fields.
    destruct s as [b w], b as [bpres cpres ? ce ? pwm ? ? ? ? ?], w. fields.
    destruct ce; cbn [negb andb];
      [rewrite !WARN_ON_run; fields;
       destruct bpres, cpres; cbn [negb andb orb];
       [destruct (duty_cycle =? pwm); cbn [negb]|..]|];
      rewrite ?Hu;
      eexists; eexists; (split; [reflexivity|]); fields;
      (split; [flat_trace; reflexivity|]);
      unfold same_registers; fields;
      conjs; try reflexivity; try discriminate; try assumption;
      try (destruct locked; reflexivity);
      try (intros _; conjs; try reflexivity; try assumption);
      try (intros _); in_tail.
  - replace (duty_cycle >? 0xFF) with true
      by (symmetry; apply Z.gtb_lt; lia).
    destruct s as [b w], b, w. fields.
    eexists. eexists. split; [reflexivity|]. fields.
    split; [flat_trace; reflexivity|].
    unfold same_registers. fields.
    conjs; try reflexivity; try discriminate;
      try (destruct locked; reflexivity);
      try (intros _; conjs; reflexivity).
    intros _. in_tail.
Qed.

End Platform3.

Section Platform4.

Context {L : Type} {LC : Lipocharge L} {CB : ChipBits} {PF : Platform L}.

Implicit Types (s : system (L := L)).

Lemma measure_batt_temp_frame s :
  exists k s',
    n810bm_measure_batt_temp s = Returned k s'
    /\ drv s' = drv s
    /\ same_registers (hw s) (hw s').
Proof.
  unfold n810bm_measure_batt_temp, bind.
  destruct (retu_adc_average_frame RETU_ADC_BATTEMP 3 s)
    as (r & s' & E & D & R & _).
  rewrite E. destruct (r <? 0);
    eexists; exists s'; (split; [reflexivity|]); auto.
Qed.

(** The measurements of the task leave the driver alone and end with
    both override bits cleared by the third write. *)
Lemma currmeas_measure_run s :
  let ovr :=
    Z.lor TAHVO_REG_CHGCTL_PWMOVR TAHVO_REG_CHGCTL_PWMOVRZERO in
  exists ma mv temp s1 c,
    currmeas_measure s = Returned (ma, mv, temp) s1
    /\ drv s1 = drv s
    /\ chgctl (hw s1) = u16 (Z.lor (Z.land c (Z.lnot ovr)) 0)
    /\ Z.land c (Z.lnot ovr) = Z.land (u16 (chgctl (hw s))) (Z.lnot ovr)
    /\ chgcurr (hw s1) = chgcurr (hw s)
    /\ batcurrtimer (hw s1) = batcurrtimer (hw s)
    /\ batcurr_irq (hw s1) = batcurr_irq (hw s).
Proof.
  intros ovr. subst ovr. unfold currmeas_measure, bind, msleep, ret.
  rewrite tahvo_maskset_run.
  match goal with
  | |- context [n810bm_measure_batt_current ?s0] =>
      destruct (measure_batt_current_run s0) as (t1 & E1 & _); rewrite E1
  end.
  rewrite tahvo_maskset_run. cbn [drv hw].
  match goal with
  | |- context [n810bm_measure_batt_voltage ?s0] =>
      destruct (measure_batt_voltage_frame s0)
        as (mv & sD & E2 & D2 & R2); rewrite E2
  end.
  rewrite tahvo_maskset_run.
  match goal with
  | |- context [n810bm_measure_batt_temp ?s0] =>
      destruct (measure_batt_temp_frame s0)
        as (temp & sF & E3 & D3 & R3); rewrite E3
  end.
  clear E1 E2 E3. cbn [drv hw] in *.
  destruct (current_measure_enabled (drv s) <=? 0);
    (eexists; exists mv, temp, sF, (chgctl (hw sD));
     split; [reflexivity|];
     unfold same_registers in *; fields;
     destruct R2 as (R21 & R22 & R23 & R24 & _);
     destruct R3 as (R31 & R32 & R33 & R34 & _);
     destruct s as [b w], w; fields;
     rewrite D3, D2, R31, R32, R33, R34, R21, R22, R23, R24;
     conjs; try reflexivity; bits).
Qed.

(** X18: the current measurement work does nothing when the algorithm is not
    charging. Otherwise it clears both PWM override bits of the charge
    control register before it looks at the measurements; a failed voltage
    or temperature measurement then only warns; else the charge algorithm is
    asked, result 0 ends the work, and any other result stops the charge, a
    positive one with the message that the battery is full. *)
Theorem current_measure_work_clears_override s :
  if lipocharge_is_charging (charger (drv s)) then
    exists ma mv temp s1 sv,
      currmeas_measure s = Returned (ma, mv, temp) s1
      /\ drv s1 = drv s
      /\ Z.land (chgctl (hw s1)) TAHVO_REG_CHGCTL_PWMOVR = 0
      /\ Z.land (chgctl (hw s1)) TAHVO_REG_CHGCTL_PWMOVRZERO = 0
      /\ Z.land (chgctl (hw s1))
           (Z.lnot (Z.lor TAHVO_REG_CHGCTL_PWMOVR
                      TAHVO_REG_CHGCTL_PWMOVRZERO))
         = Z.land (u16 (chgctl (hw s)))
             (Z.lnot (Z.lor TAHVO_REG_CHGCTL_PWMOVR
                        TAHVO_REG_CHGCTL_PWMOVRZERO))
      /\ chgcurr (hw s1) = chgcurr (hw s)
      /\ (mv < 0 \/ temp < 0 ->
          exists s',
            n810bm_tahvo_current_measure_work s = Returned tt s'
            /\ drv s' = drv s
            /\ same_registers (hw s1) (hw s')
            /\ trace (hw s') = trace (hw s1) ++ [EvLog KERN_ERR "WARNING"])
      /\ when (verbose_charge_log (drv s1))
           (dev_info "Battery charge state: %d mV, %d mA (%s)") s1
         = Returned tt sv
      /\ (0 <= mv -> 0 <= temp ->
          forall res s2,
            lipocharge_update_state mv ma temp sv = Returned res s2 ->
            if res =? 0 then
              n810bm_tahvo_current_measure_work s = Returned tt s2
            else
              exists s',
                n810bm_tahvo_current_measure_work s = Returned tt s'
                /\ active_current_pwm (drv s') = 0
                /\ chgcurr (hw s') = 0
                /\ Z.land (chgctl (hw s')) TAHVO_REG_CHGCTL_EN = 0
                /\ charger (drv s') = lipocharge_stop (charger (drv s2))
                /\ (0 < res ->
                    In (EvLog KERN_INFO "Battery fully charged")
                       (trace (hw s'))))
  else n810bm_tahvo_current_measure_work s = Returned tt s.
Proof.
  unfold n810bm_tahvo_current_measure_work, mutex_lock, mutex_unlock, bind,
    get_bm, ret.
  destruct (lipocharge_is_charging (charger (drv s))); cbn [negb];
    [|reflexivity].
  destruct (currmeas_measure_run s)
    as (ma & mv & temp & s1 & c & E & D & C1 & C2 & C3 & _).
  cbv zeta in C1, C2. rewrite E.
  assert (exists sv,
             when (verbose_charge_log (drv s1))
               (dev_info "Battery charge state: %d mV, %d mA (%s)") s1
             = Returned tt sv) as (sv & Ev).
  { unfold when, dev_info, emit, modify_hw, ret.
    destruct (verbose_charge_log (drv s1)); eexists; reflexivity. }
  exists ma, mv, temp, s1, sv. split; [reflexivity|].
  conjs; try assumption.
  - rewrite C1. bits.
  - rewrite C1. bits.
  - rewrite C1, C2. bits.
  - intros Hfail. unfold currmeas_update, bind, ret.
    rewrite WARN_ON_run.
    destruct (Z.ltb_spec mv 0) as [Hmv|Hmv].
    + eexists. split; [reflexivity|]. destruct s1 as [b1 w1], w1.
      unfold same_registers. cbn in *. auto 10.
    + rewrite WARN_ON_run. destruct (Z.ltb_spec temp 0) as [Ht|Ht]; [|lia].
      eexists. split; [reflexivity|]. destruct s1 as [b1 w1], w1.
      unfold same_registers. cbn in *. rewrite app_nil_r. auto 10.
  - intros Hmv Ht res s2 Eu. unfold currmeas_update.
    destruct (Z.ltb_spec mv 0) as [Hmv'|_]; [lia|].
    destruct (Z.ltb_spec temp 0) as [Ht'|_]; [lia|].
    unfold bind, get_bm, WARN_ON, when, ret in Ev |- *.
    cbv beta iota. rewrite Ev, Eu. unfold c_true.
    destruct (Z.eqb_spec res 0) as [H0|H0]; cbn [negb]; [reflexivity|].
    unfold dev_info, emit, modify_hw.
    destruct (Z.gtb_spec res 0) as [Hpos|Hneg].
    + match goal with
      | |- context [n810bm_stop_charge ?s0] =>
          destruct (stop_charge_run s0) as (t & E' & _)
      end.
      cbv zeta in E'. rewrite E'. eexists. split; [reflexivity|].
      fields. conjs; try reflexivity; try bits.
      intros _. apply in_or_app. left. apply in_or_app. right.
      left. reflexivity.
    + destruct (stop_charge_run s2) as (t & E' & _).
      cbv zeta in E'. rewrite E'. eexists. split; [reflexivity|].
      fields. conjs; try reflexivity; try bits. lia.
Qed.

End Platform4.

Section Attributes.

Context {L : Type} {LC : Lipocharge L}.

Implicit Types (s : system (L := L)).

(** X19: the battery_capacity attribute, for a capacity inside int, changes
    nothing and prints the capacity in decimal followed by a newline, or 0
    when no known battery is present; it never prints the marker of an
    unknown battery, and prints 0 only when no known battery is present. *)
Theorem battery_capacity_show_known s :
  is_int (capacity (drv s)) ->
  exists v,
    n810bm_attr_battery_capacity_show s
    = Returned (Z.of_nat (String.length (snprintf_d v)), snprintf_d v) s
    /\ snprintf_d v = pretty v +:+ String (ascii_of_nat 10) EmptyString
    /\ v = (if n810bm_known_battery_present (drv s)
            then capacity (drv s) else 0)
    /\ v <> N810BM_CAP_UNKNOWN
    /\ (v = 0 <-> n810bm_known_battery_present (drv s) = false).
Proof.
  intros Hint.
  unfold n810bm_attr_battery_capacity_show, mutex_lock, mutex_unlock, bind,
    get_bm, ret, show_result.
  rewrite (s32_small _ Hint).
  exists (if n810bm_known_battery_present (drv s) then capacity (drv s)
          else 0).
  split; [reflexivity|].
  assert (is_int (if n810bm_known_battery_present (drv s)
                  then capacity (drv s) else 0)) as Hv.
  { destruct (n810bm_known_battery_present (drv s)); [assumption|].
    unfold is_int, INT_MIN, INT_MAX. lia. }
  split; [unfold snprintf_d; now rewrite (s32_small _ Hv)|].
  split; [reflexivity|].
  unfold n810bm_known_battery_present, N810BM_CAP_UNKNOWN, N810BM_CAP_NONE.
  destruct (battery_present (drv s)); cbn [andb];
    destruct (Z.eqb_spec (capacity (drv s)) (-1));
    destruct (Z.eqb_spec (capacity (drv s)) 0); cbn [negb andb];
    split; try lia; try (split; intros; (lia || congruence)).
Qed.

(** X20: the battery_temp, charger_voltage and backup_battery_voltage
    attributes never change the driver state or the registers; each answers
    -ENODEV with no text, or the text of a non-negative value with its
    length; charger_voltage answers 0 without a conversion when no charger
    is present. *)
Theorem measured_attributes_read_only s :
  let read_only (show : M (L := L) (Z * string)) :=
    exists r s',
      show s = Returned r s'
      /\ drv s' = drv s
      /\ same_registers (hw s) (hw s')
      /\ (r = (- ENODEV, EmptyString)
          \/ exists v,
               0 <= v
               /\ r = (Z.of_nat (String.length (snprintf_d v)),
                       snprintf_d v)) in
  read_only n810bm_attr_battery_temp_show
  /\ read_only n810bm_attr_charger_voltage_show
  /\ read_only n810bm_attr_backup_battery_voltage_show
  /\ (charger_present (drv s) = false ->
      n810bm_attr_charger_voltage_show s = Returned (2, snprintf_d 0) s).
Proof.
  intros read_only. subst read_only.
  assert (forall chan n,
             exists k s',
               bind (retu_adc_average chan n)
                 (fun adc => if adc <? 0 then ret adc
                             else ret (s32 (u32 adc))) s = Returned k s'
               /\ drv s' = drv s
               /\ same_registers (hw s) (hw s')) as Hm.
  { intros chan n. unfold bind.
    destruct (retu_adc_average_frame chan n s) as (r & s' & E & D & R & _).
    rewrite E. destruct (r <? 0);
      eexists; exists s'; (split; [reflexivity|]); auto. }
  assert (forall k : Z,
             show_result (if k >=? 0 then Some (snprintf_d k) else None)
             = (- ENODEV, EmptyString)
             \/ exists v,
                  0 <= v
                  /\ show_result
                       (if k >=? 0 then Some (snprintf_d k) else None)
                     = (Z.of_nat (String.length (snprintf_d v)),
                        snprintf_d v)) as Hr.
  { intros k. destruct (Z.geb_spec k 0); [right|left; reflexivity].
    exists k. split; [lia|reflexivity]. }
  conjs.
  - unfold n810bm_attr_battery_temp_show, n810bm_measure_batt_temp,
      mutex_lock, mutex_unlock.
    destruct (Hm RETU_ADC_BATTEMP 3) as (k & s' & E & D & R).
    unfold bind, ret in E |- *.
    destruct (retu_adc_average RETU_ADC_BATTEMP 3 s) as [a sa|sa];
      [|discriminate E].
    rewrite E. eexists. exists s'. split; [reflexivity|]. auto.
  - unfold n810bm_attr_charger_voltage_show, n810bm_measure_charger_voltage,
      mutex_lock, mutex_unlock.
    unfold bind at 1 2. unfold get_bm, ret at 1.
    destruct (charger_present (drv s)).
    + destruct (Hm RETU_ADC_CHGVOLT 5) as (k & s' & E & D & R).
      unfold bind, ret in E |- *.
      destruct (retu_adc_average RETU_ADC_CHGVOLT 5 s) as [a sa|sa];
        [|discriminate E].
      rewrite E. eexists. exists s'. split; [reflexivity|]. auto.
    + unfold bind, ret. eexists. exists s. split; [reflexivity|].
      conjs; auto using same_registers_refl;
        try (right; exists 0; split; [lia|reflexivity]).
  - unfold n810bm_attr_backup_battery_voltage_show,
      n810bm_measure_backup_batt_voltage, mutex_lock, mutex_unlock.
    destruct (Hm RETU_ADC_BKUPVOLT 3) as (k & s' & E & D & R).
    unfold bind, ret in E |- *.
    destruct (retu_adc_average RETU_ADC_BKUPVOLT 3 s) as [a sa|sa];
      [|discriminate E].
    rewrite E. eexists. exists s'. split; [reflexivity|]. auto.
  - intros Hcp.
    unfold n810bm_attr_charger_voltage_show, mutex_lock, mutex_unlock, bind,
      get_bm, ret.
    rewrite Hcp. reflexivity.
Qed.

End Attributes.

(** *** A whole cycle of the periodic check *)

Section Cycle.

Context {L : Type} {LC : Lipocharge L} {CB : ChipBits}.

Implicit Types (s : system (L := L)).

(** When the voltage check lets the cycle go on, it has changed nothing
    but the position of the ADC and the trace. *)
Lemma periodic_check_drain_frame s s' :
  periodic_check_drain s = Returned tt s' ->
  drv s' = drv s /\ same_registers (hw s) (hw s').
Proof.
  unfold periodic_check_drain, bind, get_bm, when, ret.
  destruct (draining (drv s)).
  - destruct (measure_batt_voltage_frame s) as (mv & s1 & E & D & R).
    rewrite E. unfold n810bm_emergency.
    destruct (mv <? 0); [discriminate|].
    destruct (mv <? N810BM_MIN_VOLTAGE_THRES); [discriminate|].
    intros H. inversion H; subst. auto.
  - intros H. inversion H; subst. auto using same_registers_refl.
Qed.

(** X21: a run of the periodic check that returns, under the register layout
    and an enable count inside int, keeps the circuitry invariant and the
    invariant that an absent battery has capacity NONE; and when after the
    presence step neither the start nor the stop condition of the charge
    holds, the driver state is the one after the presence step and the
    registers are unchanged. *)
Theorem periodic_check_work_keeps_invariants s s' :
  chgctl_layout ->
  INT_MIN < current_measure_enabled (drv s) < INT_MAX ->
  n810bm_periodic_check_work s = Returned tt s' ->
  (refcount_inv s -> refcount_inv s')
  /\ ((battery_present (drv s) = false ->
       capacity (drv s) = N810BM_CAP_NONE) ->
      battery_present (drv s') = false ->
      capacity (drv s') = N810BM_CAP_NONE)
  /\ exists s1,
       periodic_check_presence s = Returned tt s1
       /\ (ready_to_charge (drv s1) = false ->
           charger_unplugged (drv s1) = false ->
           drv s' = drv s1 /\ same_registers (hw s) (hw s')).
Proof.
  intros Hl Hrc Hwork.
  destruct (periodic_check_presence_spec s)
    as (s1 & E1 & Hbp & Hcp & _ & _ & _ & Hcap & Hch & Hen & Hpwm & Hcnt
        & R1 & _).
  unfold n810bm_periodic_check_work, mutex_lock, mutex_unlock,
    schedule_delayed_work, emit, modify_hw in Hwork.
  unfold bind at 1 2 in Hwork. unfold ret at 1 in Hwork.
  rewrite E1 in Hwork. unfold bind at 1 in Hwork.
  destruct (periodic_check_drain s1) as [[] s2|s2] eqn:E2;
    [|discriminate Hwork].
  apply periodic_check_drain_frame in E2. destruct E2 as [D2 R2].
  unfold bind at 1 in Hwork.
  destruct (periodic_check_charge s2) as [[] s3|s3] eqn:E3;
    [|discriminate Hwork].
  unfold bind, ret in Hwork. inversion Hwork as [Hs']. clear Hwork.
  assert (refcount_inv s -> refcount_inv s2) as Hinv2.
  { unfold refcount_inv, curmeas_on. unfold same_registers in R1, R2.
    destruct R1 as (_ & R1 & _), R2 as (_ & R2 & _).
    rewrite D2, Hcnt, R2, R1. auto. }
  assert (INT_MIN < current_measure_enabled (drv s2) < INT_MAX) as Hrc2
    by (rewrite D2, Hcnt; exact Hrc).
  rewrite periodic_check_charge_cases in E3.
  conjs.
  - intros Hinv. specialize (Hinv2 Hinv).
    assert (refcount_inv s3) as Hinv3.
    { destruct (ready_to_charge (drv s2)).
      - destruct (start_charge_refcount_inv s2 Hl Hrc2 Hinv2)
          as (sx & Ex & Hx).
        rewrite Ex in E3. now inversion E3; subst.
      - destruct (charger_unplugged (drv s2)).
        + destruct (stop_charge_refcount_inv s2 Hl Hrc2 Hinv2)
            as (sx & Ex & Hx).
          rewrite Ex in E3. now inversion E3; subst.
        + now inversion E3; subst. }
    unfold refcount_inv, curmeas_on in *. destruct s3 as [b3 w3], w3.
    exact Hinv3.
  - intros Hc0 Hb'.
    assert (battery_present (drv s3) = battery_present (drv s1)
            /\ capacity (drv s3) = capacity (drv s1)) as [Hb3 Hc3].
    { rewrite <- D2. destruct (ready_to_charge (drv s2)).
      - destruct (start_charge_effect s2)
          as (sx & Ex & _ & _ & _ & Hb & _ & Hc).
        rewrite Ex in E3. inversion E3; subst. auto.
      - destruct (charger_unplugged (drv s2)).
        + destruct (stop_charge_effect s2)
            as (sx & Ex & _ & _ & _ & Hb & _ & Hc).
          rewrite Ex in E3. inversion E3; subst. auto.
        + inversion E3; subst. auto. }
    cbn [drv] in Hb' |- *. rewrite Hc3. apply Hcap; [exact Hc0|].
    rewrite <- Hb3. exact Hb'.
  - exists s1. split; [exact E1|]. intros Hr Hu.
    rewrite <- D2 in Hr, Hu. rewrite Hr, Hu in E3.
    inversion E3; subst. cbn [drv hw]. split; [exact D2|].
    eapply same_registers_trans; [exact R1|].
    eapply same_registers_trans; [exact R2|].
    destruct s3 as [b3 w3], w3. unfold same_registers. cbn. auto 10.
Qed.

End Cycle.

Lemma periodic_check_work_keeps_invariants_witness :
  exists s',
    n810bm_periodic_check_work (CB := sample_bits) ready_system
    = Returned tt s'
    /\ refcount_inv (H := sample_bits) s'.
Proof.
  assert (INT_MIN < current_measure_enabled (drv ready_system) < INT_MAX)
    as Hrc by (unfold INT_MIN, INT_MAX; cbn; lia).
  assert (refcount_inv (H := sample_bits) ready_system) as Hinv.
  { unfold refcount_inv, curmeas_on.
    split; intros H; vm_compute in H; discriminate H. }
  destruct (n810bm_periodic_check_work (CB := sample_bits) ready_system)
    as [[] s'|s'] eqn:E; [|vm_compute in E; discriminate E].
  exists s'. split; [reflexivity|].
  destruct (periodic_check_work_keeps_invariants (CB := sample_bits)
              ready_system s' sample_bits_layout Hrc E) as [Hkeep _].
  exact (Hkeep Hinv).
Defined.

(** *** What the parser leaves alone *)

Section ParserFrame.

Context {L : Type}.

Implicit Types (s : system (L := L)).

Lemma only_calib_and_log_ret {A} (a : A) :
  only_calib_and_log (ret (L := L) a).
Proof.
  intros s. exists a, s, []. destruct s as [b w], b, w. cbn.
  rewrite app_nil_r. auto.
Qed.

Lemma only_calib_and_log_bind {A B} (m : M A) (k : A -> M (L := L) B) :
  only_calib_and_log m -> (forall a, only_calib_and_log (k a)) ->
  only_calib_and_log (bind m k).
Proof.
  intros Hm Hk s. destruct (Hm s) as (a & s1 & t1 & E1 & D1 & W1 & C1).
  destruct (Hk a s1) as (b & s2 & t2 & E2 & D2 & W2 & C2).
  exists b, s2, (t1 ++ t2). unfold bind. rewrite E1. conjs.
  - assumption.
  - rewrite D2, D1. destruct (drv s). reflexivity.
  - rewrite W2, W1. destruct (hw s). cbn. now rewrite app_assoc.
  - rewrite forallb_app, C1, C2. reflexivity.
Qed.

Lemma only_calib_and_log_get_bm : only_calib_and_log (get_bm (L := L)).
Proof.
  intros s. exists (drv s), s, []. destruct s as [b w], b, w. cbn.
  rewrite app_nil_r. auto.
Qed.

Lemma only_calib_and_log_modify_calib (f : n810bm (L := L) -> n810bm_calib) :
  only_calib_and_log (modify_bm (fun bm => set_calib (f bm) bm)).
Proof.
  intros s. eexists. eexists. exists []. split; [reflexivity|].
  destruct s as [b w], b, w. cbn. rewrite app_nil_r. auto.
Qed.

Lemma only_calib_and_log_set_calib (c : n810bm_calib) :
  only_calib_and_log (modify_bm (L := L) (set_calib c)).
Proof. apply (only_calib_and_log_modify_calib (fun _ => c)). Qed.

Lemma only_calib_and_log_emit lvl msg :
  only_calib_and_log (emit (L := L) (EvLog lvl msg)).
Proof.
  intros s. eexists. eexists. exists [EvLog lvl msg].
  split; [reflexivity|]. destruct s as [b w], b, w. cbn. auto.
Qed.

Lemma only_calib_and_log_when b (m : M (L := L) unit) :
  only_calib_and_log m -> only_calib_and_log (when b m).
Proof. intros Hm. destruct b; [assumption|apply only_calib_and_log_ret]. Qed.

Create HintDb parser.
#[local] Hint Resolve only_calib_and_log_ret only_calib_and_log_bind
  only_calib_and_log_get_bm only_calib_and_log_modify_calib
  only_calib_and_log_set_calib only_calib_and_log_emit
  only_calib_and_log_when : parser.
#[local] Hint Extern 3 (only_calib_and_log (if ?c then _ else _)) =>
  destruct c : parser.
#[local] Hint Extern 3 (only_calib_and_log (match ?x with _ => _ end)) =>
  destruct x : parser.
#[local] Hint Unfold dev_err dev_info dev_dbg WARN_ON modify_slot slot_flags
  : parser.

Ltac parser_auto := autounfold with parser; auto 50 with parser.

Lemma only_calib_and_log_get_adc_calib adc_id :
  only_calib_and_log (n810bm_get_adc_calib (L := L) adc_id).
Proof. unfold n810bm_get_adc_calib. parser_auto. Qed.

Lemma only_calib_and_log_record_get pmm_block len group element offset :
  only_calib_and_log
    (pmm_record_get (L := L) pmm_block len group element offset).
Proof. unfold pmm_record_get. parser_auto. Qed.
#[local] Hint Resolve only_calib_and_log_get_adc_calib
  only_calib_and_log_record_get : parser.

Lemma only_calib_and_log_extract pmm_block m1 m2 ids :
  only_calib_and_log (extract_group1_elem (L := L) pmm_block ids m1 m2).
Proof. induction ids; cbn [extract_group1_elem]; parser_auto. Qed.
#[local] Hint Resolve only_calib_and_log_extract : parser.

Lemma only_calib_and_log_group1 pmm_block :
  only_calib_and_log (n810bm_parse_pmm_group1 (L := L) pmm_block).
Proof. unfold n810bm_parse_pmm_group1. parser_auto. Qed.

Lemma only_calib_and_log_group2 pmm_block :
  only_calib_and_log (n810bm_parse_pmm_group2 (L := L) pmm_block).
Proof. unfold n810bm_parse_pmm_group2. parser_auto. Qed.

Lemma only_calib_and_log_copy_defaults ds :
  only_calib_and_log (copy_defaults (L := L) ds).
Proof. induction ds; cbn [copy_defaults]; parser_auto. Qed.

Lemma only_calib_and_log_sanity_loop slots :
  forall count, only_calib_and_log (calib_sanity_loop (L := L) slots count).
Proof. induction slots; intros count; cbn [calib_sanity_loop]; parser_auto. Qed.
#[local] Hint Resolve only_calib_and_log_group1 only_calib_and_log_group2
  only_calib_and_log_copy_defaults only_calib_and_log_sanity_loop : parser.

Lemma only_calib_and_log_parse junk pmm_block :
  only_calib_and_log (n810bm_parse_pmm_block (L := L) junk pmm_block).
Proof.
  unfold n810bm_parse_pmm_block, n810bm_adc_calib_set_defaults. parser_auto.
Qed.

(** X22: n810bm_parse_pmm_block always returns, changes nothing of the
    driver state but the calibration table, and nothing of the hardware: it
    makes no conversion, writes no register and only adds lines to the log. *)
Theorem parse_pmm_block_touches_only_calib junk (pmm_block : list byte) s :
  exists err s' t,
    n810bm_parse_pmm_block junk pmm_block s = Returned err s'
    /\ drv s' = set_calib (calib (drv s')) (drv s)
    /\ hw s' = set_trace (trace (hw s) ++ t) (hw s)
    /\ forallb is_log t = true
    /\ same_registers (hw s) (hw s')
    /\ adc_reads (hw s') = adc_reads (hw s).
Proof.
  destruct (only_calib_and_log_parse junk pmm_block s)
    as (err & s' & t & E & D & W & C).
  exists err, s', t. conjs; try assumption.
  - rewrite W. destruct (hw s). unfold same_registers. cbn. auto 10.
  - rewrite W. destruct (hw s). reflexivity.
Qed.

(** X23: the firmware callback releases the image exactly once, whatever the
    image, as the last event before it returns or hands over to the device
    initialisation; until then only log lines are emitted and only the
    calibration table changes, and the device initialisation is entered only
    after a parse that returned 0. *)
Theorem pmm_block_found_releases_once
  (device_init : M (L := L) Z) (junk : byte) (fw : option (list byte)) s :
  exists s0 t,
    drv s0 = set_calib (calib (drv s0)) (drv s)
    /\ hw s0 = set_trace (trace (hw s) ++ t ++ [EvReleaseFirmware]) (hw s)
    /\ forallb is_log t = true
    /\ (n810bm_pmm_block_found device_init junk fw s = Returned tt s0
        \/ exists data s1,
             fw = Some data
             /\ n810bm_parse_pmm_block junk data s = Returned 0 s1
             /\ n810bm_pmm_block_found device_init junk fw s
                = bind device_init
                    (fun err =>
                       when (c_true err)
                         (dev_err
                            "Failed to initialized battery management (%d)"))
                    s0).
Proof.
  unfold n810bm_pmm_block_found.
  destruct fw as [data|].
  - destruct (negb (fw_size data =? N810BM_PMM_BLOCK_SIZE)
              || negb (memcmp data (list_byte_of_string "BME-PMM-BLOCK01")
                         15 =? 0)).
    + eexists. eexists. conjs; [| | |left; reflexivity].
      * destruct s as [b w], b, w. reflexivity.
      * destruct s as [b w], b, w. cbn. rewrite <- app_assoc. reflexivity.
      * reflexivity.
    + destruct (only_calib_and_log_parse junk data s)
        as (err & s1 & t & E & D & W & C).
      unfold bind at 1. rewrite E.
      exists (mk_system (drv s1)
                (set_trace (trace (hw s1) ++ [EvReleaseFirmware]) (hw s1))), t.
      cbn [drv hw]. conjs; try assumption.
      * rewrite W. destruct (hw s). cbn. now rewrite <- app_assoc.
      * unfold c_true. destruct (Z.eqb_spec err 0) as [->|Hne]; cbn [negb].
        -- right. exists data, s1. conjs; auto.
           unfold bind at 1. rewrite E. reflexivity.
        -- left. reflexivity.
  - eexists. eexists. conjs; [| | |left; reflexivity].
    + destruct s as [b w], b, w. reflexivity.
    + destruct s as [b w], b, w. cbn. rewrite <- app_assoc. reflexivity.
    + reflexivity.
Qed.

End ParserFrame.

(** *** The properties above on concrete states *)

Lemma set_current_measure_timer_units_witness :
  exists s',
    n810bm_set_current_measure_timer (CB := sample_bits) 250 fresh_system_0
    = Returned tt s'
    /\ batcurrtimer (hw s') = 1
    /\ batcurr_irq (hw s') = true.
Proof.
  assert (0 <= 250 < 2 ^ 16) as Hms by lia.
  destruct (set_current_measure_timer_units (CB := sample_bits) 250
              fresh_system_0 Hms) as (s' & E & _ & Ht & Hi & _).
  exists s'. split; [exact E|]. split; [exact Ht|exact Hi].
Defined.

Lemma retu_adc_average_stops_at_first_failure_witness :
  exists s' (k : nat),
    retu_adc_average RETU_ADC_BSI 5 (fresh_system 0 (fun _ _ => 0x3B5))
    = Returned 0x3B5 s'
    /\ k = 5%nat
    /\ adc_reads (hw s') = k.
Proof.
  assert (0 < 5 < 2 ^ 32) as Hn by lia.
  destruct (retu_adc_average_stops_at_first_failure RETU_ADC_BSI 5
              (fresh_system 0 (fun _ _ => 0x3B5)) Hn)
    as (r & s' & k & E & _ & _ & Hreads & _ & Hok & _).
  destruct Hok as (Hk & Hr & _).
  { intros j Hj. vm_compute. discriminate. }
  exists s', k. rewrite E, Hr, Hreads, Hk. auto.
Defined.

Lemma measure_batt_current_async_balanced_witness :
  exists s',
    n810bm_measure_batt_current_async (CB := sample_bits) metering_system
    = Returned (- 6) s'
    /\ batcurr_reads (hw s') = 3%nat
    /\ n810bm_attr_battery_current_show (CB := sample_bits) metering_system
       = Returned (3, snprintf_d (- 6)) s'.
Proof.
  assert (INT_MIN < current_measure_enabled (drv metering_system) < INT_MAX)
    as Hrc by (unfold INT_MIN, INT_MAX; cbn; lia).
  destruct (measure_batt_current_async_balanced (CB := sample_bits)
              metering_system sample_bits_layout Hrc)
    as (ma & s' & E & _ & Hma & Hreads & _ & _ & _ & _ & _ & _ & _ & _ & _
        & _ & Hshow).
  assert (ma = - 6) as -> by (rewrite Hma; vm_compute; reflexivity).
  exists s'. split; [exact E|]. split; [exact Hreads|exact Hshow].
Defined.

Lemma sample_platform_inert : adcscr_inert (H := sample_platform).
Proof. intros v w. reflexivity. Qed.

Lemma hw_init_checks_ground_reference_witness :
  exists s',
    n810bm_hw_init (CB := sample_bits) (PF := sample_platform)
      (fresh_system 0 (fun _ _ => 3)) = Returned 0 s'
    /\ active_current_pwm (drv s') = 0.
Proof.
  destruct (hw_init_checks_ground_reference (CB := sample_bits)
              (PF := sample_platform) (fresh_system 0 (fun _ _ => 3))
              sample_platform_inert) as (_ & _ & Hok & _).
  destruct Hok as (s1 & s' & _ & _ & E & Hpwm & _).
  { vm_compute. split; discriminate. }
  exists s'. split; [exact E|exact Hpwm].
Defined.

Lemma charger_set_current_pwm_guarded_witness :
  exists s',
    n810bm_charger_set_current_pwm true 0x80 charging_system = Returned 0 s'
    /\ active_current_pwm (drv s') = 0x80
    /\ chgcurr (hw s') = 0x80.
Proof.
  assert (0 <= 0x80) as Hd by lia.
  destruct (charger_set_current_pwm_guarded true 0x80 charging_system Hd)
    as (s' & t & E & _ & _ & _ & Hchange & _).
  destruct (Hchange eq_refl) as (Hpwm & Hcur & _).
  exists s'. split; [exact E|]. split; [exact Hpwm|exact Hcur].
Defined.

Lemma battery_capacity_show_known_witness :
  exists v,
    n810bm_attr_battery_capacity_show charging_system
    = Returned (Z.of_nat (String.length (snprintf_d v)), snprintf_d v)
        charging_system
    /\ v = 1500.
Proof.
  assert (is_int (capacity (drv charging_system))) as Hint.
  { vm_compute. split; discriminate. }
  destruct (battery_capacity_show_known charging_system Hint)
    as (v & E & _ & Hv & _).
  exists v. split; [exact E|exact Hv].
Defined.
